(** * SPUR_AGENT: the chat backend, embedded and checked against its specification

    The development follows the backend sources:
    - [backend/src/services/conversationService.ts]  (module [ConversationService])
    - [backend/src/services/cacheService.ts]         (module [CacheService])
    - [backend/src/services/llmService.ts]           (module [LLMService])
    - [backend/src/routes/chat.ts]                   (module [ChatRouter])
    - [backend/src/middleware/errorHandler.ts]       ([errorHandler])
    - [frontend/src/components/ChatWidget.tsx]       (module [ChatWidget])

    Everything the code reads from the outside (the system clock, the uuid
    generator, the hosted model backends, the process environment, the
    hash function and the uuid syntax check of the validation library) is
    gathered in one record [Env]; everything it mutates (the SQLite tables,
    the Redis keys) lives in [World], threaded through a state-and-exception
    monad [M]. *)

From Stdlib Require Import ZArith QArith Ascii Sorted.
From stdpp Require Import gmap strings list fin_maps pretty.

Local Open Scope Z_scope.

(** ** JavaScript strings

    A [string] stands for a JavaScript string whose UTF-16 code units all lie
    below 256; one [ascii] is one code unit, so [String.length] is the
    [.length] of the source. *)

Module Js.

Definition codeUnit (c : ascii) : N := N_of_ascii c.

(** The white space and line terminator code units that
    [String.prototype.trim] strips, below 256: TAB, LF, VT, FF, CR, SP, NBSP. *)
Definition isWhiteSpace (c : ascii) : bool :=
  let n := codeUnit c in
  ((9 <=? n) && (n <=? 13) || (n =? 32) || (n =? 160))%N.

Fixpoint trimStart (s : string) : string :=
  match s with
  | EmptyString => EmptyString
  | String c s' => if isWhiteSpace c then trimStart s' else s
  end.

Fixpoint trimEnd (s : string) : string :=
  match s with
  | EmptyString => EmptyString
  | String c s' =>
      match trimEnd s' with
      | EmptyString => if isWhiteSpace c then EmptyString else String c EmptyString
      | t => String c t
      end
  end.

Definition trim (s : string) : string := trimEnd (trimStart s).

(** [toLowerCase] on code units below 256: A-Z and the Latin-1 capitals
    (0xC0-0xDE without the multiplication sign 0xD7) move up by 32. *)
Definition lowerChar (c : ascii) : ascii :=
  let n := codeUnit c in
  if ((65 <=? n) && (n <=? 90) || (192 <=? n) && (n <=? 222) && negb (n =? 215))%N
  then ascii_of_N (n + 32) else c.

Fixpoint toLowerCase (s : string) : string :=
  match s with
  | EmptyString => EmptyString
  | String c s' => String (lowerChar c) (toLowerCase s')
  end.

Fixpoint startsWith (s p : string) : bool :=
  match p, s with
  | EmptyString, _ => true
  | String _ _, EmptyString => false
  | String a p', String b s' => if ascii_dec a b then startsWith s' p' else false
  end.

Fixpoint includes (s p : string) : bool :=
  startsWith s p ||
  match s with
  | EmptyString => false
  | String _ s' => includes s' p
  end.

Definition length (s : string) : Z := Z.of_nat (String.length s).

(** Truthiness of a string value: only the empty string is falsy. *)
Definition truthy (s : string) : bool :=
  match s with EmptyString => false | _ => true end.

Definition first (s : string) : option ascii :=
  match s with EmptyString => None | String c _ => Some c end.

Fixpoint last (s : string) : option ascii :=
  match s with
  | EmptyString => None
  | String c EmptyString => Some c
  | String _ s' => last s'
  end.

(** [a.slice(-n)] on an array: its last [n] elements, all of them when it
    has at most [n]. *)
Definition sliceLast {A} (n : nat) (l : list A) : list A :=
  drop (List.length l - n)%nat l.

(** An [Error] object as the handlers inspect it: [instanceof ZodError],
    [.status], [.response?.status], [.code], [.message]. *)
Record Error := mkError {
  isZodError : bool;
  status : option Z;
  response_status : option Z;
  code : option string;
  message : option string
}.

Definition newError (msg : string) : Error :=
  mkError false None None None (Some msg).

(** [a || b] on optional numbers: [undefined], [null] and [0] are falsy. *)
Definition orNum (a b : option Z) : option Z :=
  match a with
  | Some n => if n =? 0 then b else a
  | None => b
  end.

(** [a || b] on an optional string with a string default. *)
Definition orStr (a : option string) (b : string) : string :=
  match a with
  | Some s => if truthy s then s else b
  | None => b
  end.

(** [s.endsWith(p)]: one of the suffixes of [s] is [p]. *)
Fixpoint endsWith (s p : string) : bool :=
  String.eqb s p
  || match s with
     | EmptyString => false
     | String _ s' => endsWith s' p
     end.

(** Truthiness of an environment variable or of a [string | null] value. *)
Definition isSet (v : option string) : bool :=
  match v with
  | Some s => truthy s
  | None => false
  end.

End Js.

(** ** Tables, environment and world *)

Inductive Sender := user | ai.

(** The [Message] interface; a row of table [messages] has the same five
    columns ([conversation_id] for [conversationId]). *)
Record Message := mkMessage {
  m_id : string;
  m_conversationId : string;
  m_sender : Sender;
  m_text : string;
  m_timestamp : Z
}.

Record Conversation := mkConversation {
  c_id : string;
  createdAt : Z;
  updatedAt : Z
}.

(** A row of table [conversations] without its primary key. *)
Record ConversationRow := mkRow {
  created_at : Z;
  updated_at : Z
}.

(** The database: [conversations] keyed by its primary key [id], and
    [messages] in insertion (rowid) order. *)
Record Db := mkDb {
  conversations : gmap string ConversationRow;
  messages : list Message
}.

Definition emptyDb : Db := mkDb ∅ [].

Inductive Role := system | user_role | assistant.

Record ChatMessage := mkChatMessage {
  role : Role;
  content : string
}.

(** The argument of [chat.completions.create], together with the client
    options it is sent with. *)
Record ChatRequest := mkChatRequest {
  apiKey : string;
  baseURL : option string;
  model : string;
  chat_messages : list ChatMessage;
  max_tokens : Z;
  temperature : Q
}.

(** The argument of [model.generateContent], with the model options. *)
Record GeminiRequest := mkGeminiRequest {
  g_apiKey : string;
  g_model : string;
  maxOutputTokens : Z;
  g_temperature : Q;
  prompt : string
}.

Inductive BackendCall :=
| ChatCall (r : ChatRequest)
| GeminiCall (r : GeminiRequest).

(** What the code reads from outside. The [nat] argument of an oracle is
    the number of earlier reads of the same kind. *)
Record Env := mkEnv {
  uuidv4 : nat -> string;
  Date_now : nat -> Z;
  sha256_hex : string -> string;
  zod_uuid : string -> bool;
  LLM_PROVIDER : option string;
  GROQ_API_KEY : option string;
  GEMINI_API_KEY : option string;
  OPENAI_API_KEY : option string;
  (** [completion.choices[0]?.message?.content], or the error thrown. *)
  chat_completions_create : nat -> ChatRequest -> Js.Error + option string;
  (** [(await result.response).text()], or the error thrown. *)
  generateContent : nat -> GeminiRequest -> Js.Error + string
}.

(** What the code mutates. [commits] is the history of database states:
    no statement of the source runs inside a transaction, so each write
    statement is committed on its own and its result is what any other
    reader of the database file can see from then on. [redis] is [None]
    when [getRedisClient] yields no client. [calls] records every request
    sent to a model backend. *)
Record World := mkWorld {
  db : Db;
  commits : list Db;
  redis : option (gmap string (Z * string));
  calls : list BackendCall;
  uuid_reads : nat;
  clock_reads : nat
}.

Definition initWorld (r : option (gmap string (Z * string))) : World :=
  mkWorld emptyDb [] r [] 0 0.

(** ** The monad of handlers: state and exceptions *)

Inductive Outcome (A : Type) :=
| Returns (a : A)
| Throws (e : Js.Error).
Arguments Returns {A} a.
Arguments Throws {A} e.

Definition M (A : Type) : Type := World -> Outcome A * World.

Definition ret {A} (a : A) : M A := fun w => (Returns a, w).

Definition throw {A} (e : Js.Error) : M A := fun w => (Throws e, w).

Definition bind {A B} (m : M A) (k : A -> M B) : M B :=
  fun w =>
    match m w with
    | (Returns a, w') => k a w'
    | (Throws e, w') => (Throws e, w')
    end.

Definition tryCatch {A} (m : M A) (handler : Js.Error -> M A) : M A :=
  fun w =>
    match m w with
    | (Returns a, w') => (Returns a, w')
    | (Throws e, w') => handler e w'
    end.

Notation "'let*' x ':=' c 'in' k" := (bind c (fun x => k))
  (at level 10, x pattern, c at level 100, k at level 200).

Definition getWorld : M World := fun w => (Returns w, w).

(** One write statement: the new database state is committed at once. *)
Definition commit (d : Db) : M unit :=
  fun w => (Returns tt, mkWorld d (commits w ++ [d]) (redis w) (calls w) (uuid_reads w) (clock_reads w)).

Definition setRedis (r : gmap string (Z * string)) : M unit :=
  fun w => (Returns tt, mkWorld (db w) (commits w) (Some r) (calls w) (uuid_reads w) (clock_reads w)).

Definition logCall (c : BackendCall) : M unit :=
  fun w => (Returns tt, mkWorld (db w) (commits w) (redis w) (calls w ++ [c]) (uuid_reads w) (clock_reads w)).

Definition exec {A} (m : M A) (w : World) : World := snd (m w).
Definition result {A} (m : M A) (w : World) : Outcome A := fst (m w).

Definition quote : string := String (ascii_of_N 34) EmptyString.

Definition STORE_KNOWLEDGE : string :=
    "
You are a helpful and friendly customer support agent for " +:+ quote +:+
    "SpurStore" +:+ quote +:+
    ", a small e-commerce store specializing in tech accessories and gadgets.

Store Information:
- Shipping Policy: We offer free shipping on orders over $50. Standard shipping (5-7 business days) is $5.99. Express shipping (2-3 business days) is $12.99. We ship to USA, Canada, UK, and Australia.
- Return/Refund Policy: Items can be returned within 30 days of purchase in original condition. Full refunds are processed within 5-7 business days after we receive the item. Items must be unopened and in original packaging.
- Support Hours: Our support team is available Monday-Friday, 9 AM - 6 PM EST. We respond to emails within 24 hours.
- Payment Methods: We accept all major credit cards, PayPal, Apple Pay, and Google Pay.
- Product Warranty: All products come with a 1-year manufacturer warranty. Extended warranties available at checkout.

Guidelines:
- Be concise and helpful (2-3 sentences max per response)
- Use a friendly, professional tone
- If asked about something not in your knowledge base, politely say you'll need to check with the team and ask them to email support@spurstore.com
- Always end with a helpful follow-up question or offer to help with something else
".

(** ** conversationService.ts *)

Module ConversationService.
Section WithEnv.
Context (E : Env).

(** [uuidv4()] *)
Definition newId : M string :=
  fun w => (Returns (uuidv4 E (uuid_reads w)),
            mkWorld (db w) (commits w) (redis w) (calls w) (S (uuid_reads w)) (clock_reads w)).

(** [Math.floor(Date.now() / 1000)] *)
Definition nowSeconds : M Z :=
  fun w => (Returns (Date_now E (clock_reads w) / 1000),
            mkWorld (db w) (commits w) (redis w) (calls w) (uuid_reads w) (S (clock_reads w))).

(** The [SqliteError] that better-sqlite3 throws when a statement violates
    a constraint: [code] is the extended result code of SQLite, [message]
    its text. *)
Definition sqliteConstraint (code msg : string) : Js.Error :=
  Js.mkError false None None (Some code) (Some msg).

(** [INSERT INTO conversations (id, created_at, updated_at) VALUES (?, ?, ?)] *)
Definition insertConversation (id : string) (created updated : Z) : M unit :=
  let* w := getWorld in
  match conversations (db w) !! id with
  | Some _ => throw (sqliteConstraint "SQLITE_CONSTRAINT_PRIMARYKEY"
                         "UNIQUE constraint failed: conversations.id")
  | None => commit (mkDb (<[id := mkRow created updated]> (conversations (db w))) (messages (db w)))
  end.

(** [INSERT INTO messages (id, conversation_id, sender, text, timestamp)
    VALUES (?, ?, ?, ?, ?)], with the primary key and the foreign key
    ([foreign_keys = ON]) of the schema. *)
Definition insertMessage (m : Message) : M unit :=
  let* w := getWorld in
  if existsb (fun r => String.eqb (m_id r) (m_id m)) (messages (db w))
  then throw (sqliteConstraint "SQLITE_CONSTRAINT_PRIMARYKEY"
                         "UNIQUE constraint failed: messages.id")
  else match conversations (db w) !! m_conversationId m with
       | None => throw (sqliteConstraint "SQLITE_CONSTRAINT_FOREIGNKEY"
                                         "FOREIGN KEY constraint failed")
       | Some _ => commit (mkDb (conversations (db w)) (messages (db w) ++ [m]))
       end.

(** [UPDATE conversations SET updated_at = ? WHERE id = ?] *)
Definition updateConversation (updated : Z) (id : string) : M unit :=
  let* w := getWorld in
  commit (mkDb (alter (fun r => mkRow (created_at r) updated) id (conversations (db w)))
               (messages (db w))).

(** [ORDER BY timestamp ASC], rows with equal timestamps staying in
    insertion order. *)
Fixpoint orderInsert (r : Message) (l : list Message) : list Message :=
  match l with
  | [] => [r]
  | y :: l' => if m_timestamp r <=? m_timestamp y then r :: y :: l' else y :: orderInsert r l'
  end.

Fixpoint orderByTimestamp (l : list Message) : list Message :=
  match l with
  | [] => []
  | r :: l' => orderInsert r (orderByTimestamp l')
  end.

(** [SELECT ... FROM messages WHERE conversation_id = ? ORDER BY timestamp ASC] *)
Definition selectMessages (conversationId : string) (d : Db) : list Message :=
  orderByTimestamp
    (List.filter (fun r => String.eqb (m_conversationId r) conversationId) (messages d)).

Definition createConversation : M string :=
  let* id := newId in
  let* now := nowSeconds in
  let* _ := insertConversation id now now in
  ret id.

Definition getConversation (conversationId : string) : M (option Conversation) :=
  let* w := getWorld in
  match conversations (db w) !! conversationId with
  | None => ret None
  | Some row => ret (Some (mkConversation conversationId (created_at row) (updated_at row)))
  end.

Definition addMessage (conversationId : string) (sender : Sender) (text : string) : M Message :=
  let* id := newId in
  let* timestamp := nowSeconds in
  let* conversation := getConversation conversationId in
  match conversation with
  | None => throw (Js.newError "Conversation not found")
  | Some _ =>
      let* _ := insertMessage (mkMessage id conversationId sender text timestamp) in
      let* _ := updateConversation timestamp conversationId in
      ret (mkMessage id conversationId sender text timestamp)
  end.

Definition getMessages (conversationId : string) : M (list Message) :=
  let* w := getWorld in
  ret (selectMessages conversationId (db w)).

End WithEnv.
End ConversationService.

(** ** cacheService.ts *)

Module CacheService.
Section WithEnv.
Context (E : Env).

(** One hour. The cache holds the entries that are alive, each with the
    time to live it has left; [get] finds what is there, and the passing of
    time, which is no step of the program, is the transition [elapse]
    below. *)
Definition TTL : Z := 3600.

Definition getCacheKey (userMessage : string) : string :=
  let normalized := Js.trim (Js.toLowerCase userMessage) in
  "chat:" +:+ sha256_hex E normalized.

Definition get (userMessage : string) : M (option string) :=
  let* w := getWorld in
  match redis w with
  | None => ret None
  | Some client => ret (snd <$> client !! getCacheKey userMessage)
  end.

Definition set (userMessage reply : string) : M unit :=
  let* w := getWorld in
  match redis w with
  | None => ret tt
  | Some client => setRedis (<[getCacheKey userMessage := (TTL, reply)]> client)
  end.

End WithEnv.
End CacheService.

(** ** llmService.ts *)

Module LLMService.
Section WithEnv.
Context (E : Env).

Definition maxTokens : Z := 200.
Definition maxHistoryMessages : nat := 10.

Inductive Provider := openai | groq | gemini.

Definition getProvider : Provider :=
  let llmProvider := Js.trim (Js.toLowerCase (Js.orStr (LLM_PROVIDER E) "openai")) in
  if String.eqb llmProvider "groq" then groq
  else if String.eqb llmProvider "gemini" then gemini
  else openai.

Definition handleError {A} (error : Js.Error) (provider : string) : M A :=
  let status := Js.orNum (Js.status error) (Js.response_status error) in
  if bool_decide (status = Some 401) then
    throw (Js.newError ("Invalid " +:+ provider +:+ " API key. Please check your API key."))
  else if bool_decide (status = Some 429) then
    throw (Js.newError (provider +:+ " rate limit exceeded. Please wait a moment and try again."))
  else if bool_decide (status = Some 503) then
    throw (Js.newError (provider +:+ " service temporarily unavailable. Please try again in a moment."))
  else if bool_decide (Js.code error = Some "ECONNABORTED")
          || match Js.message error with
             | Some m => Js.includes m "timeout"
             | None => false
             end then
    throw (Js.newError ("Request to " +:+ provider +:+ " timed out. Please try again."))
  else
    throw (Js.newError ("Failed to generate reply with " +:+ provider +:+ ": "
                        +:+ Js.orStr (Js.message error) "Unknown error")).

(** [client.chat.completions.create(...)], then [choices[0]?.message?.content] *)
Definition chatCompletion (r : ChatRequest) : M (option string) :=
  let* w := getWorld in
  let* _ := logCall (ChatCall r) in
  match chat_completions_create E (List.length (calls w)) r with
  | inl e => throw e
  | inr c => ret c
  end.

(** [model.generateContent(...)], then [(await result.response).text()] *)
Definition geminiContent (r : GeminiRequest) : M string :=
  let* w := getWorld in
  let* _ := logCall (GeminiCall r) in
  match generateContent E (List.length (calls w)) r with
  | inl e => throw e
  | inr t => ret t
  end.

Definition roleOf (s : Sender) : Role :=
  match s with user => user_role | ai => assistant end.

Definition speakerOf (s : Sender) : string :=
  match s with user => "Customer" | ai => "Agent" end.

Definition nl : string := String (ascii_of_N 10) EmptyString.

Definition generateWithGroq (userMessage : string) (conversationHistory : list Message)
  : M string :=
  match GROQ_API_KEY E with
  | Some key =>
      if negb (Js.truthy key) || String.eqb (Js.trim key) ""
         || String.eqb key "your_groq_api_key_here" || negb (Js.startsWith key "gsk_")
      then throw (Js.newError "Groq API key not configured. Please set a valid GROQ_API_KEY in backend/.env file. Get free key at https://console.groq.com/keys")
      else
        tryCatch
          (let recentHistory := Js.sliceLast maxHistoryMessages conversationHistory in
           let messages :=
             [mkChatMessage system STORE_KNOWLEDGE]
             ++ List.map (fun msg => mkChatMessage (roleOf (m_sender msg)) (m_text msg)) recentHistory
             ++ [mkChatMessage user_role userMessage] in
           let* content :=
             chatCompletion
               (mkChatRequest key (Some "https://api.groq.com/openai/v1")
                              "llama-3.1-8b-instant" messages maxTokens (7 # 10)) in
           match Js.trim <$> content with
           | Some reply =>
               if Js.truthy reply then ret reply
               else throw (Js.newError "Empty response from Groq")
           | None => throw (Js.newError "Empty response from Groq")
           end)
          (fun error => handleError error "Groq")
  | None => throw (Js.newError "Groq API key not configured. Please set a valid GROQ_API_KEY in backend/.env file. Get free key at https://console.groq.com/keys")
  end.

Definition generateWithGemini (userMessage : string) (conversationHistory : list Message)
  : M string :=
  match GEMINI_API_KEY E with
  | Some key =>
      if negb (Js.truthy key) || String.eqb key "your_gemini_api_key_here"
      then throw (Js.newError "Gemini API key not configured. Please set GEMINI_API_KEY in backend/.env file. Get free key at https://aistudio.google.com/app/apikey")
      else
        tryCatch
          (let recentHistory := Js.sliceLast maxHistoryMessages conversationHistory in
           let conversationContext :=
             STORE_KNOWLEDGE +:+ nl +:+ nl +:+ "Conversation History:" +:+ nl in
           let conversationContext :=
             fold_left
               (fun ctx msg => ctx +:+ speakerOf (m_sender msg) +:+ ": " +:+ m_text msg +:+ nl)
               recentHistory conversationContext in
           let conversationContext :=
             conversationContext +:+ nl +:+ "Customer: " +:+ userMessage +:+ nl +:+ "Agent:" in
           let* text :=
             geminiContent (mkGeminiRequest key "gemini-pro" maxTokens (7 # 10) conversationContext) in
           let reply := Js.trim text in
           if Js.truthy reply then ret reply
           else throw (Js.newError "Empty response from Gemini"))
          (fun error => handleError error "Gemini")
  | None => throw (Js.newError "Gemini API key not configured. Please set GEMINI_API_KEY in backend/.env file. Get free key at https://aistudio.google.com/app/apikey")
  end.

Definition generateWithOpenAI (userMessage : string) (conversationHistory : list Message)
  : M string :=
  let isValidApiKey :=
    match OPENAI_API_KEY E with
    | Some key =>
        Js.truthy key && negb (String.eqb (Js.trim key) "")
        && negb (String.eqb key "your_openai_api_key_here") && Js.startsWith key "sk-"
    | None => false
    end in
  match OPENAI_API_KEY E with
  | Some key =>
      if negb isValidApiKey
      then throw (Js.newError "OpenAI API key not configured. Please set a valid OPENAI_API_KEY in backend/.env file. Get your key at https://platform.openai.com/api-keys")
      else
        tryCatch
          (let recentHistory := Js.sliceLast maxHistoryMessages conversationHistory in
           let messages :=
             [mkChatMessage system STORE_KNOWLEDGE]
             ++ List.map (fun msg => mkChatMessage (roleOf (m_sender msg)) (m_text msg)) recentHistory
             ++ [mkChatMessage user_role userMessage] in
           let* content :=
             chatCompletion (mkChatRequest key None "gpt-3.5-turbo" messages maxTokens (7 # 10)) in
           match Js.trim <$> content with
           | Some reply =>
               if Js.truthy reply then ret reply
               else throw (Js.newError "Empty response from OpenAI")
           | None => throw (Js.newError "Empty response from OpenAI")
           end)
          (fun error => handleError error "OpenAI")
  | None => throw (Js.newError "OpenAI API key not configured. Please set a valid OPENAI_API_KEY in backend/.env file. Get your key at https://platform.openai.com/api-keys")
  end.

(** The provider switch of [generateReply]. *)
Definition generateWith (provider : Provider) (userMessage : string)
           (conversationHistory : list Message) : M string :=
  match provider with
  | groq => generateWithGroq userMessage conversationHistory
  | gemini => generateWithGemini userMessage conversationHistory
  | openai => generateWithOpenAI userMessage conversationHistory
  end.

Definition generateReply (userMessage : string) (conversationHistory : list Message)
  : M string :=
  let generate : M string :=
    let* reply := generateWith getProvider userMessage conversationHistory in
    let* _ := if (List.length conversationHistory =? 0)%nat
              then CacheService.set E userMessage reply else ret tt in
    ret reply in
  let* cached :=
    if (List.length conversationHistory =? 0)%nat
    then CacheService.get E userMessage
    else ret None in
  match cached with
  | Some hit => if Js.truthy hit then ret hit else generate
  | None => generate
  end.

End WithEnv.
End LLMService.

(** ** middleware/errorHandler.ts and routes/chat.ts *)

Module ChatRouter.

(** A field of the JSON request body. *)
Inductive JsValue :=
| JUndefined
| JString (s : string)
| JOther.

Record Body := mkBody {
  b_message : JsValue;
  b_sessionId : JsValue
}.

Inductive Json :=
| ReplyJson (reply sessionId : string)
| InvalidInputJson
| ErrorJson (error : string)
| MessagesJson (messages : list Message).

Record Response := mkResponse {
  res_status : Z;
  res_json : Json
}.

Section WithEnv.
Context (E : Env).

Definition ZodError : Js.Error :=
  Js.mkError true None None None (Some "Invalid input").

(** [z.object({ message: z.string().min(1).max(5000),
                sessionId: z.string().uuid().optional() })] *)
Definition messageSchema_parse (body : Body) : M (string * option string) :=
  match b_message body with
  | JString message =>
      if (1 <=? Js.length message) && (Js.length message <=? 5000) then
        match b_sessionId body with
        | JUndefined => ret (message, None)
        | JString sessionId =>
            if zod_uuid E sessionId then ret (message, Some sessionId) else throw ZodError
        | JOther => throw ZodError
        end
      else throw ZodError
  | _ => throw ZodError
  end.

Definition errorHandler (err : Js.Error) : M Response :=
  ret (mkResponse 500
         (ErrorJson (Js.orStr (Js.message err) "An error occurred. Please try again later."))).

Definition post_message (body : Body) : M Response :=
  tryCatch
    (let* parsed := messageSchema_parse body in
     let message := fst parsed in
     let sessionId := snd parsed in
     let* conversationId :=
       match sessionId with
       | Some sid =>
           if Js.truthy sid then
             let* conversation := ConversationService.getConversation sid in
             match conversation with
             | None => ConversationService.createConversation E
             | Some _ => ret sid
             end
           else ConversationService.createConversation E
       | None => ConversationService.createConversation E
       end in
     let* _ := ConversationService.addMessage E conversationId user message in
     let* history := ConversationService.getMessages conversationId in
     let* reply := LLMService.generateReply E message history in
     let* _ := ConversationService.addMessage E conversationId ai reply in
     ret (mkResponse 200 (ReplyJson reply conversationId)))
    (fun error =>
       if Js.isZodError error then ret (mkResponse 400 InvalidInputJson)
       else errorHandler error).

Definition get_history (sessionId : string) : M Response :=
  tryCatch
    (let* conversation := ConversationService.getConversation sessionId in
     match conversation with
     | None => ret (mkResponse 404 (ErrorJson "Conversation not found"))
     | Some _ =>
         let* messages := ConversationService.getMessages sessionId in
         ret (mkResponse 200 (MessagesJson messages))
     end)
    (fun error => ret (mkResponse 500 (ErrorJson (default "" (Js.message error))))).

End WithEnv.
End ChatRouter.

(** ** Vocabulary of the statements *)

(** The kinds of provider failure that [handleError] tells apart, and the
    message it throws for each. *)
Inductive ErrorKind :=
| InvalidCredential
| RateLimited
| BackendUnavailable
| Timeout
| UnknownBackendError (original : string).

Definition errorText (k : ErrorKind) (provider : string) : string :=
  match k with
  | InvalidCredential => "Invalid " +:+ provider +:+ " API key. Please check your API key."
  | RateLimited => provider +:+ " rate limit exceeded. Please wait a moment and try again."
  | BackendUnavailable =>
      provider +:+ " service temporarily unavailable. Please try again in a moment."
  | Timeout => "Request to " +:+ provider +:+ " timed out. Please try again."
  | UnknownBackendError original =>
      "Failed to generate reply with " +:+ provider +:+ ": " +:+ original
  end.

(** The HTTP status [handleError] looks at, and the test by which it takes
    an error for a timeout. Both follow the code: they say what
    [handleError] does, not what a timeout is. *)
Definition httpStatus (error : Js.Error) : option Z :=
  Js.orNum (Js.status error) (Js.response_status error).

Definition isTimeout (error : Js.Error) : bool :=
  bool_decide (Js.code error = Some "ECONNABORTED")
  || match Js.message error with
     | Some m => Js.includes m "timeout"
     | None => false
     end.

(** How [handleError] sorts an error into a kind. *)
Definition classifies (error : Js.Error) (kind : ErrorKind) : Prop :=
  (httpStatus error = Some 401 -> kind = InvalidCredential)
  /\ (httpStatus error = Some 429 -> kind = RateLimited)
  /\ (httpStatus error = Some 503 -> kind = BackendUnavailable)
  /\ (httpStatus error <> Some 401 -> httpStatus error <> Some 429 ->
      httpStatus error <> Some 503 ->
      (isTimeout error = true -> kind = Timeout)
      /\ (isTimeout error = false ->
          kind = UnknownBackendError (Js.orStr (Js.message error) "Unknown error")
          /\ forall m, Js.message error = Some m -> m <> "" ->
                       kind = UnknownBackendError m)).

Definition providerName (p : LLMService.Provider) : string :=
  match p with
  | LLMService.openai => "OpenAI"
  | LLMService.groq => "Groq"
  | LLMService.gemini => "Gemini"
  end.

(** The prompt parts the three variants build from the history window. *)
Definition chatPrompt (recent : list Message) (userMessage : string) : list ChatMessage :=
  mkChatMessage system STORE_KNOWLEDGE
  :: List.map (fun msg => mkChatMessage (LLMService.roleOf (m_sender msg)) (m_text msg)) recent
  ++ [mkChatMessage user_role userMessage].

Definition geminiLine (msg : Message) : string :=
  LLMService.speakerOf (m_sender msg) +:+ ": " +:+ m_text msg +:+ LLMService.nl.

Fixpoint geminiLines (recent : list Message) : string :=
  match recent with
  | [] => ""
  | msg :: rest => geminiLine msg +:+ geminiLines rest
  end.

Definition geminiPrompt (recent : list Message) (userMessage : string) : string :=
  (STORE_KNOWLEDGE +:+ LLMService.nl +:+ LLMService.nl +:+ "Conversation History:" +:+ LLMService.nl)
  +:+ geminiLines recent
  +:+ (LLMService.nl +:+ "Customer: " +:+ userMessage +:+ LLMService.nl +:+ "Agent:").

(** Credential checks of the three variants, as the key that passes them. *)
Definition groqKey (E : Env) : option string :=
  match GROQ_API_KEY E with
  | Some key =>
      if negb (Js.truthy key) || String.eqb (Js.trim key) ""
         || String.eqb key "your_groq_api_key_here" || negb (Js.startsWith key "gsk_")
      then None else Some key
  | None => None
  end.

Definition geminiKey (E : Env) : option string :=
  match GEMINI_API_KEY E with
  | Some key =>
      if negb (Js.truthy key) || String.eqb key "your_gemini_api_key_here"
      then None else Some key
  | None => None
  end.

Definition openaiKey (E : Env) : option string :=
  match OPENAI_API_KEY E with
  | Some key =>
      if Js.truthy key && negb (String.eqb (Js.trim key) "")
         && negb (String.eqb key "your_openai_api_key_here") && Js.startsWith key "sk-"
      then Some key else None
  | None => None
  end.

(** The request a variant sends for a message and a history, when its
    credential check passes, and the error it throws when it does not. *)
Definition requestOf (E : Env) (p : LLMService.Provider) (userMessage : string)
           (conversationHistory : list Message) : option BackendCall :=
  let recent := Js.sliceLast 10 conversationHistory in
  match p with
  | LLMService.groq =>
      (fun key => ChatCall (mkChatRequest key (Some "https://api.groq.com/openai/v1")
                              "llama-3.1-8b-instant" (chatPrompt recent userMessage)
                              200 (7 # 10)))
      <$> groqKey E
  | LLMService.gemini =>
      (fun key => GeminiCall (mkGeminiRequest key "gemini-pro" 200 (7 # 10)
                                (geminiPrompt recent userMessage)))
      <$> geminiKey E
  | LLMService.openai =>
      (fun key => ChatCall (mkChatRequest key None "gpt-3.5-turbo"
                              (chatPrompt recent userMessage) 200 (7 # 10)))
      <$> openaiKey E
  end.

Definition notConfigured (p : LLMService.Provider) : string :=
  match p with
  | LLMService.groq => "Groq API key not configured. Please set a valid GROQ_API_KEY in backend/.env file. Get free key at https://console.groq.com/keys"
  | LLMService.gemini => "Gemini API key not configured. Please set GEMINI_API_KEY in backend/.env file. Get free key at https://aistudio.google.com/app/apikey"
  | LLMService.openai => "OpenAI API key not configured. Please set a valid OPENAI_API_KEY in backend/.env file. Get your key at https://platform.openai.com/api-keys"
  end.

(** What the backend answers to a request sent as call number [k]: the
    error it fails with, or the text it produced, if any. *)
Definition answer (E : Env) (k : nat) (c : BackendCall) : Js.Error + option string :=
  match c with
  | ChatCall r => chat_completions_create E k r
  | GeminiCall r =>
      match generateContent E k r with
      | inl e => inl e
      | inr t => inr (Some t)
      end
  end.

(** The world once request [c] has been sent. *)
Definition sent (c : BackendCall) (w : World) : World :=
  mkWorld (db w) (commits w) (redis w) (calls w ++ [c]) (uuid_reads w) (clock_reads w).

(** A reply as the provider variants hand it back: not empty, and with no
    white space at either end. *)
Definition wellTrimmed (reply : string) : Prop :=
  reply <> ""
  /\ Js.trim reply = reply
  /\ (forall c, Js.first reply = Some c -> Js.isWhiteSpace c = false)
  /\ (forall c, Js.last reply = Some c -> Js.isWhiteSpace c = false).

(** The cached text [generateReply] returns without calling a provider,
    if any: only for an empty history, a connected cache and a non-empty
    cached value. *)
Definition cacheHit (E : Env) (userMessage : string) (conversationHistory : list Message)
           (w : World) : option string :=
  if (List.length conversationHistory =? 0)%nat then
    match result (CacheService.get E userMessage) w with
    | Returns (Some hit) => if Js.truthy hit then Some hit else None
    | _ => None
    end
  else None.


(** Sequences of store operations. *)
Inductive StoreOp :=
| OpCreateConversation
| OpAddMessage (conversationId : string) (sender : Sender) (text : string).

Definition runOp (E : Env) (op : StoreOp) (w : World) : World :=
  match op with
  | OpCreateConversation => exec (ConversationService.createConversation E) w
  | OpAddMessage c s t => exec (ConversationService.addMessage E c s t) w
  end.

Definition runOps (E : Env) (ops : list StoreOp) (w : World) : World :=
  fold_left (fun w op => runOp E op w) ops w.

(** The system clock never steps backwards. *)
Definition clockMonotone (E : Env) : Prop :=
  forall i j : nat, (i <= j)%nat -> Date_now E i <= Date_now E j.

(** Every message row points at a conversation row (the foreign key). *)
Definition foreignKeysHold (d : Db) : Prop :=
  forall m, In m (messages d) -> is_Some (conversations d !! m_conversationId m).

Definition updatedAtOf (conversationId : string) (d : Db) : option Z :=
  updated_at <$> conversations d !! conversationId.

(** In database state [d], both writes of an append of [m] are visible. *)
Definition bothVisible (m : Message) (d : Db) : Prop :=
  In m (messages d) /\ updatedAtOf (m_conversationId m) d = Some (m_timestamp m).

(** In database state [d], neither write of an append of [m] is visible,
    [before] being the state the append started from. *)
Definition neitherVisible (m : Message) (before d : Db) : Prop :=
  ~ In m (messages d) /\
  updatedAtOf (m_conversationId m) d = updatedAtOf (m_conversationId m) before.

(** The database states committed while [m] runs from [w]. *)
Definition committedBy {A} (m : M A) (w : World) : list Db :=
  drop (List.length (commits w)) (commits (exec m w)).

(** The uuid and the timestamp (whole seconds) that the next store
    operation run from [w] will draw. *)
Definition nextId (E : Env) (w : World) : string := uuidv4 E (uuid_reads w).
Definition nextStamp (E : Env) (w : World) : Z := Date_now E (clock_reads w) / 1000.

(** The world after one read of the uuid generator and one of the clock,
    with the database states [ds] committed and [d] the current one. *)
Definition advance (d : Db) (ds : list Db) (w : World) : World :=
  mkWorld d (commits w ++ ds) (redis w) (calls w) (S (uuid_reads w)) (S (clock_reads w)).

(** The invariant behind the ordering of timestamps: every conversation
    was created no later than it was last updated, its messages are no
    newer than its last update, and nothing stored is newer than a clock
    reading still to come. *)
Definition timestampsOrdered (E : Env) (w : World) : Prop :=
  (forall cid row,
      conversations (db w) !! cid = Some row ->
      created_at row <= updated_at row
      /\ (forall k, (clock_reads w <= k)%nat -> updated_at row <= Date_now E k / 1000)
      /\ (forall m, In m (messages (db w)) -> m_conversationId m = cid ->
                    m_timestamp m <= updated_at row))
  /\ (forall m k, In m (messages (db w)) -> (clock_reads w <= k)%nat ->
                  m_timestamp m <= Date_now E k / 1000).

(** [w'] differs from [w] at most in the cache and the log of backend
    calls: the tables, the commit history and the reads of the uuid
    generator and of the clock are the same. *)
Definition sameStore (w w' : World) : Prop :=
  db w' = db w /\ commits w' = commits w
  /\ uuid_reads w' = uuid_reads w /\ clock_reads w' = clock_reads w.

(** ** Concrete environments for examples *)

Definition demoUuid (k : nat) : string :=
  "00000000-0000-4000-8000-00000000000" +:+ String (ascii_of_nat (48 + k)) EmptyString.

(** OpenAI with a well-formed key; every clock reading falls in the same
    second; the backend answers with padded text. *)
Definition demoEnv : Env :=
  mkEnv demoUuid (fun k => 1700000000000 + 100 * Z.of_nat k) (fun s => s)
        (fun s => negb (String.eqb s ""))
        None None None (Some "sk-test")
        (fun _ _ => inr (Some " Thirty days. ")) (fun _ _ => inr "ok").

(** The same, with one whole second between clock readings. *)
Definition slowEnv : Env :=
  mkEnv demoUuid (fun k => 1700000000000 + 1000 * Z.of_nat k) (fun s => s)
        (fun s => negb (String.eqb s ""))
        None None None (Some "sk-test")
        (fun _ _ => inr (Some " Thirty days. ")) (fun _ _ => inr "ok").

(** A clock that steps back one second between readings. *)
Definition backwardsEnv : Env :=
  mkEnv demoUuid (fun k => 1700000000000 - 1000 * Z.of_nat k) (fun s => s)
        (fun s => negb (String.eqb s ""))
        None None None (Some "sk-test")
        (fun _ _ => inr (Some " Thirty days. ")) (fun _ _ => inr "ok").

(** A backend failure with HTTP status 429. *)
Definition rateLimitError : Js.Error :=
  Js.mkError false (Some 429) None None (Some "Too Many Requests").

(** An environment configured for Groq whose backend answers every call
    with status 429. *)
Definition rateLimitedEnv : Env :=
  mkEnv demoUuid (fun k => 1700000000000 + 100 * Z.of_nat k) (fun s => s)
        (fun s => negb (String.eqb s ""))
        (Some "Groq ") (Some "gsk_test") None None
        (fun _ _ => inl rateLimitError)
        (fun _ _ => inr "ok").

(** The error the [openai] client library, which serves the OpenAI and the
    Groq variants, raises when a request times out: its message is
    [Request timed out.], and it has neither a status nor a code. *)
Definition sdkTimeoutError : Js.Error :=
  Js.mkError false None None None (Some "Request timed out.").

(** OpenAI with a well-formed key, whose backend call times out. *)
Definition timingOutEnv : Env :=
  mkEnv demoUuid (fun k => 1700000000000 + 100 * Z.of_nat k) (fun s => s)
        (fun s => negb (String.eqb s ""))
        None None None (Some "sk-test")
        (fun _ _ => inl sdkTimeoutError) (fun _ _ => inr "ok").

(** The same for Groq. *)
Definition timingOutGroqEnv : Env :=
  mkEnv demoUuid (fun k => 1700000000000 + 100 * Z.of_nat k) (fun s => s)
        (fun s => negb (String.eqb s ""))
        (Some "groq") (Some "gsk_test") None None
        (fun _ _ => inl sdkTimeoutError) (fun _ _ => inr "ok").

Definition demoWorld : World := initWorld (Some ∅).

(** A history of twelve messages. *)
Definition demoHistory : list Message :=
  List.map (fun k => mkMessage (demoUuid k) "c" (if Nat.even k then user else ai)
                               (demoUuid k) (Z.of_nat k))
           (seq 0 12).

(** Requests used in the examples: two first turns whose texts differ only
    in case and trailing white space, a follow-up in the conversation the
    first one creates, and a message of three spaces. *)
Definition firstBody : ChatRouter.Body :=
  ChatRouter.mkBody (ChatRouter.JString "Return policy?") ChatRouter.JUndefined.

Definition secondBody : ChatRouter.Body :=
  ChatRouter.mkBody (ChatRouter.JString "return policy? ") ChatRouter.JUndefined.

Definition followUpBody : ChatRouter.Body :=
  ChatRouter.mkBody (ChatRouter.JString "And shipping?") (ChatRouter.JString (demoUuid 0)).

Definition blankBody : ChatRouter.Body :=
  ChatRouter.mkBody (ChatRouter.JString "   ") ChatRouter.JUndefined.

Definition afterFirstTurn : World :=
  exec (ChatRouter.post_message demoEnv firstBody) demoWorld.

(** A connected cache that already holds a reply under the key of
    [return policy?]. *)
Definition warmWorld : World :=
  initWorld (Some {[ CacheService.getCacheKey demoEnv "Return policy?"
                     := (CacheService.TTL, "Cached answer.") ]}).

(** An environment configured for Groq with an OpenAI-style key. *)
Definition badKeyEnv : Env :=
  mkEnv demoUuid (fun k => 1700000000000 + 100 * Z.of_nat k) (fun s => s)
        (fun s => negb (String.eqb s ""))
        (Some "groq") (Some "sk-wrong") None None
        (fun _ _ => inr (Some " Thirty days. ")) (fun _ _ => inr "ok").

(** What every request to a backend looks like: the output bound of 200
    tokens and the fixed system text first; for a chat request, between 2
    and 12 messages, the last one being the new user message. *)
Definition boundedRequest (userMessage : string) (c : BackendCall) : Prop :=
  match c with
  | ChatCall r =>
      max_tokens r = 200
      /\ (2 <= List.length (chat_messages r) <= 12)%nat
      /\ head (chat_messages r) = Some (mkChatMessage system STORE_KNOWLEDGE)
      /\ last (chat_messages r) = Some (mkChatMessage user_role userMessage)
  | GeminiCall r =>
      maxOutputTokens r = 200
      /\ Js.startsWith (prompt r) STORE_KNOWLEDGE = true
  end.

(** Serving a sequence of [POST /message] requests, one after the other. *)
Definition serveAll (E : Env) (bodies : list ChatRouter.Body) (w : World) : World :=
  fold_left (fun w body => exec (ChatRouter.post_message E body) w) bodies w.

(** From [w] to [w'] the uuid generator was only read forwards, and every
    conversation of [w'] was there in [w] or carries an id drawn from the
    generator in between. *)
Definition idsGenerated (E : Env) (w w' : World) : Prop :=
  (uuid_reads w <= uuid_reads w')%nat
  /\ forall cid,
      is_Some (conversations (db w') !! cid) ->
      is_Some (conversations (db w) !! cid)
      \/ exists k, (uuid_reads w <= k < uuid_reads w')%nat /\ cid = uuidv4 E k.

(** ** cacheService.ts: the Redis connection

    [getRedisClient] keeps the connected client in the module variable
    [redisClient]. The configuration comes from the process environment;
    [parseInt] and the connection itself are oracles. An attempt to connect
    ends in one of three ways, and the third is that the promise of
    [client.connect()] never settles, as when the client keeps retrying a
    server it cannot reach: the call of [getRedisClient] then never
    returns. A client is known by the number of the attempt that connected
    it and by its options. Calls are taken one after the other. *)

Module RedisConnection.

Inductive ClientOptions :=
| UrlOptions (url : string)
| SocketOptions (username : string) (password : option string) (host : string) (port : Z).

Definition Client : Type := nat * ClientOptions.

(** How [createClient(options)] followed by [await client.connect()] ends:
    both go through; one of them throws; or [connect] never settles. *)
Inductive Attempt := Connected | Rejected | Pending.

Record Config := mkConfig {
  REDIS_URL : option string;
  REDIS_USERNAME : option string;
  REDIS_PASSWORD : option string;
  REDIS_HOST : option string;
  REDIS_PORT : option string;
  (** [parseInt]; [None] stands for [NaN]. *)
  parseInt : string -> option Z;
  (** How attempt number [k] ends. *)
  connects : nat -> ClientOptions -> Attempt
}.

Record State := mkState {
  redisClient : option Client;
  attempts : nat
}.

Definition initState : State := mkState None 0.

Section WithConfig.
Context (C : Config).

(** [process.env.REDIS_PORT ? parseInt(process.env.REDIS_PORT) : undefined],
    as the number that is truthy, if any: [NaN] and [0] are falsy. *)
Definition port : option Z :=
  match REDIS_PORT C with
  | Some p =>
      if Js.truthy p then
        match parseInt C p with
        | Some n => if n =? 0 then None else Some n
        | None => None
        end
      else None
  | None => None
  end.

(** The options of the client the function would create, if any. *)
Definition options : option ClientOptions :=
  match REDIS_URL C with
  | Some url =>
      if Js.truthy url then Some (UrlOptions url)
      else
        match REDIS_HOST C, port with
        | Some host, Some p =>
            if Js.truthy host
            then Some (SocketOptions (Js.orStr (REDIS_USERNAME C) "default")
                                     (REDIS_PASSWORD C) host p)
            else None
        | _, _ => None
        end
  | None =>
      match REDIS_HOST C, port with
      | Some host, Some p =>
          if Js.truthy host
          then Some (SocketOptions (Js.orStr (REDIS_USERNAME C) "default")
                                   (REDIS_PASSWORD C) host p)
          else None
      | _, _ => None
      end
  end.

(** The client returned ([None] for [null]) and the state left; no result
    when the call never returns. *)
Definition getRedisClient (s : State) : option (option Client * State) :=
  match redisClient s with
  | Some client => Some (Some client, s)
  | None =>
      if negb (Js.isSet (REDIS_URL C)) && negb (Js.isSet (REDIS_HOST C)) then Some (None, s)
      else
        match options with
        | Some o =>
            match connects C (attempts s) o with
            | Connected =>
                Some (Some (attempts s, o), mkState (Some (attempts s, o)) (S (attempts s)))
            | Rejected => Some (None, mkState None (S (attempts s)))
            | Pending => None
            end
        | None => Some (None, s)
        end
  end.

(** [n] calls in a row, each awaited before the next: what each returned,
    and the state they leave; no result when one of them never returns. *)
Fixpoint getRedisClient_times (n : nat) (s : State)
  : option (list (option Client) * State) :=
  match n with
  | O => Some ([], s)
  | S n' =>
      match getRedisClient s with
      | Some (client, s1) =>
          match getRedisClient_times n' s1 with
          | Some (clients, s2) => Some (client :: clients, s2)
          | None => None
          end
      | None => None
      end
  end.

End WithConfig.
End RedisConnection.

(** Redis is configured when the environment gives a URL, or a host
    together with a port that [parseInt] reads as a number other than 0. *)
Definition redisConfigured (C : RedisConnection.Config) : Prop :=
  (exists url, RedisConnection.REDIS_URL C = Some url /\ url <> "")
  \/ (exists host p n,
        RedisConnection.REDIS_HOST C = Some host /\ host <> ""
        /\ RedisConnection.REDIS_PORT C = Some p /\ p <> ""
        /\ RedisConnection.parseInt C p = Some n /\ n <> 0).

(** ** ChatWidget.tsx: the chat widget

    The state of the component is the record [State]: the six state hooks
    the handlers use, the item [chatSessionId] of [localStorage], and the
    number of clock readings made so far. An asynchronous handler is cut at
    its [await]: the part that runs when it is called, which yields the
    request it sends, and the part that runs when the request has settled.
    Each part runs without interruption, and its state updates are the
    constant or functional updates of the source, so each part is a
    function of the state it finds. What a request settles to is an
    argument: rejection, or the fields of the response body the handler
    reads. *)

Module ChatWidget.

(** The [Message] interface of the widget. [ui_text] of an agent message is
    [data.reply], which is [undefined] when the body has no such field. *)
Record UiMessage := mkUiMessage {
  ui_id : string;
  ui_sender : Sender;
  ui_text : option string;
  ui_timestamp : Z
}.

Record Browser := mkBrowser {
  (** [import.meta.env.VITE_API_URL] *)
  VITE_API_URL : option string;
  (** [Date.now()], in milliseconds, by number of earlier readings. *)
  now : nat -> Z
}.

Record State := mkState {
  messages : list UiMessage;
  input : string;
  isLoading : bool;
  sessionId : option string;
  error : option string;
  isTyping : bool;
  chatSessionId : option string;
  reads : nat
}.

Definition initState (saved : option string) : State :=
  mkState [] "" false None None false saved 0.

Inductive Request :=
| PostMessage (url : string) (body : ChatRouter.Body)
| GetHistory (url : string).

(** How [POST /chat/message] settles: [fetch] or [response.json()] throws
    an error with this [message]; or the response is not ok and its body
    has this [error] field; or it is ok and its body has these [reply] and
    [sessionId] fields. *)
Inductive SendResult :=
| SendRejected (message : option string)
| SendNotOk (error : option string)
| SendOk (reply : option string) (sessionId : option string).

(** How [GET /chat/history/:sessionId] settles; [messages] is the field of
    that name of the body. *)
Inductive HistoryResult :=
| HistoryRejected
| HistoryAnswered (ok : bool) (messages : option (list Message)).

(** A stored message as the widget shows it. *)
Definition ofStored (m : Message) : UiMessage :=
  mkUiMessage (m_id m) (m_sender m) (Some (m_text m)) (m_timestamp m).

Section WithBrowser.
Context (B : Browser).

Definition baseUrl : string :=
  let apiUrl := Js.orStr (VITE_API_URL B) "/api" in
  if Js.endsWith apiUrl "/api" then apiUrl
  else if Js.endsWith apiUrl "/" then apiUrl +:+ "api"
  else apiUrl +:+ "/api".

(** [onChange] of the text area. *)
Definition setInput (value : string) (st : State) : State :=
  mkState (messages st) value (isLoading st) (sessionId st) (error st) (isTyping st)
          (chatSessionId st) (reads st).

(** [loadHistory], up to its request. *)
Definition loadHistory_begin (sessionId : string) : Request :=
  GetHistory (baseUrl +:+ "/chat/history/" +:+ sessionId).

(** [loadHistory], from the settled request on. *)
Definition loadHistory_end (r : HistoryResult) (st : State) : State :=
  match r with
  | HistoryAnswered true data_messages =>
      mkState (List.map ofStored (default [] data_messages)) (input st) (isLoading st)
              (sessionId st) (error st) (isTyping st) (chatSessionId st) (reads st)
  | _ => st
  end.

(** The effect that runs once, when the component is mounted. *)
Definition mount (st : State) : State * option Request :=
  match chatSessionId st with
  | Some savedSessionId =>
      if Js.truthy savedSessionId then
        (mkState (messages st) (input st) (isLoading st) (Some savedSessionId) (error st)
                 (isTyping st) (chatSessionId st) (reads st),
         Some (loadHistory_begin savedSessionId))
      else (st, None)
  | None => (st, None)
  end.

(** [sendMessage], up to its request: the new state, and the user message
    and the request when one is sent. *)
Definition sendMessage_begin (st : State) : State * option (UiMessage * Request) :=
  let trimmedInput := Js.trim (input st) in
  if negb (Js.truthy trimmedInput) || isLoading st then (st, None)
  else if 5000 <? Js.length trimmedInput then
    (mkState (messages st) (input st) (isLoading st) (sessionId st)
             (Some "Message is too long. Please keep it under 5000 characters.")
             (isTyping st) (chatSessionId st) (reads st),
     None)
  else
    let userMessage :=
      mkUiMessage (pretty (now B (reads st))) user (Some trimmedInput)
                  (now B (S (reads st))) in
    (mkState (messages st ++ [userMessage]) "" true (sessionId st) None true
             (chatSessionId st) (S (S (reads st))),
     Some (userMessage,
           PostMessage (baseUrl +:+ "/chat/message")
             (ChatRouter.mkBody (ChatRouter.JString trimmedInput)
                (if Js.isSet (sessionId st)
                 then ChatRouter.JString (default "" (sessionId st))
                 else ChatRouter.JUndefined)))).

(** The [catch] and [finally] blocks of [sendMessage], for an error with
    this [message]. *)
Definition sendMessage_failed (userMessage : UiMessage) (message : option string)
           (st : State) : State :=
  mkState (List.filter (fun m => negb (String.eqb (ui_id m) (ui_id userMessage)))
                       (messages st))
          (input st) false (sessionId st)
          (Some (Js.orStr message "Failed to send message. Please try again."))
          false (chatSessionId st) (reads st).

(** [sendMessage], from the settled request on. [sessionId0] is the
    [sessionId] of the closure, that is of the state in which the handler
    was called. *)
Definition sendMessage_end (sessionId0 : option string) (userMessage : UiMessage)
           (r : SendResult) (st : State) : State :=
  match r with
  | SendRejected message => sendMessage_failed userMessage message st
  | SendNotOk data_error =>
      sendMessage_failed userMessage (Some (Js.orStr data_error "Failed to send message")) st
  | SendOk data_reply data_sessionId =>
      let adopt := negb (Js.isSet sessionId0) && Js.isSet data_sessionId in
      let aiMessage :=
        mkUiMessage (pretty (now B (reads st) + 1)) ai data_reply (now B (S (reads st))) in
      mkState (messages st ++ [aiMessage]) (input st) false
              (if adopt then data_sessionId else sessionId st)
              (error st) false
              (if adopt then data_sessionId else chatSessionId st)
              (S (S (reads st)))
  end.

End WithBrowser.
End ChatWidget.

(** ** The widget in front of the routes *)

(** [response.ok]. *)
Definition isOk (resp : ChatRouter.Response) : bool :=
  (200 <=? ChatRouter.res_status resp) && (ChatRouter.res_status resp <=? 299).

(** The fields of a response body that the widget reads. *)
Definition data_error (j : ChatRouter.Json) : option string :=
  match j with
  | ChatRouter.ErrorJson e => Some e
  | ChatRouter.InvalidInputJson => Some "Invalid input"
  | _ => None
  end.

Definition data_reply (j : ChatRouter.Json) : option string :=
  match j with
  | ChatRouter.ReplyJson reply _ => Some reply
  | _ => None
  end.

Definition data_sessionId (j : ChatRouter.Json) : option string :=
  match j with
  | ChatRouter.ReplyJson _ sid => Some sid
  | _ => None
  end.

Definition data_messages (j : ChatRouter.Json) : option (list Message) :=
  match j with
  | ChatRouter.MessagesJson ms => Some ms
  | _ => None
  end.

(** What the requests of the widget settle to when a route has answered. *)
Definition sendSettled (resp : ChatRouter.Response) : ChatWidget.SendResult :=
  if isOk resp
  then ChatWidget.SendOk (data_reply (ChatRouter.res_json resp))
                         (data_sessionId (ChatRouter.res_json resp))
  else ChatWidget.SendNotOk (data_error (ChatRouter.res_json resp)).

Definition historySettled (resp : ChatRouter.Response) : ChatWidget.HistoryResult :=
  ChatWidget.HistoryAnswered (isOk resp) (data_messages (ChatRouter.res_json resp)).

(** One exchange with nothing in between: the widget sends what its input
    holds, the route answers, the widget handles the answer. The widget
    that sends nothing leaves the server alone. *)
Definition exchange (E : Env) (B : ChatWidget.Browser) (p : ChatWidget.State * World)
  : ChatWidget.State * World :=
  match ChatWidget.sendMessage_begin B (fst p) with
  | (st1, Some (userMessage, ChatWidget.PostMessage _ body)) =>
      match ChatRouter.post_message E body (snd p) with
      | (Returns resp, w') =>
          (ChatWidget.sendMessage_end B (ChatWidget.sessionId (fst p)) userMessage
             (sendSettled resp) st1, w')
      | (Throws e, w') =>
          (ChatWidget.sendMessage_end B (ChatWidget.sessionId (fst p)) userMessage
             (ChatWidget.SendRejected (Js.message e)) st1, w')
      end
  | (st1, _) => (st1, snd p)
  end.

(** The user types a text and sends it, once for each text of the list. *)
Definition typeAndSend (E : Env) (B : ChatWidget.Browser) (typed : list string)
           (p : ChatWidget.State * World) : ChatWidget.State * World :=
  fold_left (fun p value => exchange E B (ChatWidget.setInput value (fst p), snd p)) typed p.

(** Opening the page: the mount effect, and the history request it sends
    answered by the route. The path parameter the route reads is the
    session id the widget put in the address (an id holds no character
    that is special in a path). *)
Definition openPage (B : ChatWidget.Browser) (p : ChatWidget.State * World)
  : ChatWidget.State * World :=
  match ChatWidget.mount B (fst p) with
  | (st1, Some (ChatWidget.GetHistory _)) =>
      match ChatRouter.get_history (default "" (ChatWidget.sessionId st1)) (snd p) with
      | (Returns resp, w') => (ChatWidget.loadHistory_end (historySettled resp) st1, w')
      | (Throws _, w') => (ChatWidget.loadHistory_end ChatWidget.HistoryRejected st1, w')
      end
  | (st1, _) => (st1, snd p)
  end.

(** The requests a widget without session id would send for the texts of
    [typed] that it sends at all, each taken on its own. *)
Definition sendable (value : string) : bool :=
  Js.truthy (Js.trim value) && (Js.length (Js.trim value) <=? 5000).

Definition sessionless (typed : list string) : list ChatRouter.Body :=
  List.map (fun value => ChatRouter.mkBody (ChatRouter.JString (Js.trim value))
                                           ChatRouter.JUndefined)
           (List.filter sendable typed).

(** A browser with no API address configured, whose clock advances by one
    millisecond per reading. *)
Definition demoBrowser : ChatWidget.Browser :=
  ChatWidget.mkBrowser None (fun k => 1700000000000 + Z.of_nat k).

(** Redis configured by host and port; the first two attempts to connect
    throw, the third goes through. *)
Definition demoRedis : RedisConnection.Config :=
  RedisConnection.mkConfig None None (Some "secret") (Some "localhost") (Some "6379")
    (fun _ => Some 6379)
    (fun k _ => if (2 <=? k)%nat then RedisConnection.Connected
                else RedisConnection.Rejected).

(** The same configuration in front of a server that cannot be reached:
    no attempt ever settles. *)
Definition unreachableRedis : RedisConnection.Config :=
  RedisConnection.mkConfig None None (Some "secret") (Some "localhost") (Some "6379")
    (fun _ => Some 6379) (fun _ _ => RedisConnection.Pending).

(** Running the monad: unfold its operations and compute. *)
Ltac mrun :=
  unfold bind, ret, throw, tryCatch, getWorld, logCall, commit, setRedis, exec, result in *;
  simpl in *.

(** * Properties *)

(** ** Strings *)

Example trim_examples :
  Js.trim "  return policy? " = "return policy?"
  /\ Js.trim "   " = ""
  /\ Js.toLowerCase "Return Policy?" = "return policy?".
Proof. repeat split. Qed.

Example sliceLast_examples :
  Js.sliceLast 2 [1; 2; 3] = [2; 3] /\ Js.sliceLast 5 [1; 2; 3] = [1; 2; 3].
Proof. split; reflexivity. Qed.

Example getProvider_examples :
  LLMService.getProvider demoEnv = LLMService.openai
  /\ LLMService.getProvider rateLimitedEnv = LLMService.groq.
Proof. split; reflexivity. Qed.

Example isTimeout_examples :
  isTimeout (Js.newError "socket timeout") = true
  /\ isTimeout (Js.mkError false None None (Some "ECONNABORTED") None) = true
  /\ isTimeout (Js.newError "Too Many Requests") = false.
Proof. repeat split. Qed.

Lemma trimEnd_keeps_head c s :
  Js.isWhiteSpace c = false -> Js.trimEnd (String c s) = String c (Js.trimEnd s).
Proof.
  intros Hc. simpl. destruct (Js.trimEnd s); [rewrite Hc|]; reflexivity.
Qed.

Lemma trimEnd_idempotent s : Js.trimEnd (Js.trimEnd s) = Js.trimEnd s.
Proof.
  induction s as [|c s IH]; [reflexivity|].
  simpl. destruct (Js.trimEnd s) as [|a t] eqn:Ht.
  - destruct (Js.isWhiteSpace c) eqn:Hc; [reflexivity|].
    simpl. rewrite Hc. reflexivity.
  - change (Js.trimEnd (String c (String a t))) with
      (match Js.trimEnd (String a t) with
       | EmptyString => if Js.isWhiteSpace c then EmptyString else String c EmptyString
       | u => String c u
       end).
    rewrite IH. reflexivity.
Qed.

Lemma trimStart_head s c t :
  Js.trimStart s = String c t -> Js.isWhiteSpace c = false.
Proof.
  induction s as [|a s IH]; simpl; [discriminate|].
  destruct (Js.isWhiteSpace a) eqn:Ha; [exact IH|].
  intros [= <- _]. exact Ha.
Qed.

Lemma trimStart_fixed c s :
  Js.isWhiteSpace c = false -> Js.trimStart (String c s) = String c s.
Proof. intros Hc. simpl. rewrite Hc. reflexivity. Qed.

Lemma trim_idempotent s : Js.trim (Js.trim s) = Js.trim s.
Proof.
  unfold Js.trim. destruct (Js.trimStart s) as [|c t] eqn:Hs; [reflexivity|].
  pose proof (trimStart_head _ _ _ Hs) as Hc.
  rewrite (trimEnd_keeps_head _ _ Hc), (trimStart_fixed _ _ Hc).
  rewrite <- (trimEnd_keeps_head _ _ Hc). apply trimEnd_idempotent.
Qed.

Lemma trim_first s c : Js.first (Js.trim s) = Some c -> Js.isWhiteSpace c = false.
Proof.
  unfold Js.trim. destruct (Js.trimStart s) as [|a t] eqn:Hs; [discriminate|].
  pose proof (trimStart_head _ _ _ Hs) as Ha.
  rewrite (trimEnd_keeps_head _ _ Ha). simpl. intros [= <-]. exact Ha.
Qed.

Lemma trimEnd_last s c : Js.last (Js.trimEnd s) = Some c -> Js.isWhiteSpace c = false.
Proof.
  induction s as [|a s IH]; simpl; [discriminate|].
  destruct (Js.trimEnd s) as [|b t] eqn:Ht.
  - destruct (Js.isWhiteSpace a) eqn:Ha; simpl; [discriminate|].
    intros [= <-]. exact Ha.
  - intros H. apply IH. exact H.
Qed.

Lemma trim_last s c : Js.last (Js.trim s) = Some c -> Js.isWhiteSpace c = false.
Proof. apply trimEnd_last. Qed.

Lemma truthy_nonempty s : Js.truthy s = true <-> s <> "".
Proof. destruct s; simpl; split; congruence. Qed.

Lemma startsWith_append p s : Js.startsWith (p +:+ s) p = true.
Proof.
  induction p as [|a p IH]; simpl; [destruct s; reflexivity|].
  destruct (ascii_dec a a); [exact IH|congruence].
Qed.

Lemma includes_unfold s p :
  Js.includes s p =
  Js.startsWith s p || match s with EmptyString => false | String _ s' => Js.includes s' p end.
Proof. destruct s; reflexivity. Qed.

Lemma includes_append pre p post : Js.includes (pre +:+ p +:+ post) p = true.
Proof.
  induction pre as [|a pre IH].
  - rewrite includes_unfold. change ("" +:+ p +:+ post) with (p +:+ post).
    rewrite startsWith_append. reflexivity.
  - change (Js.includes (String a pre +:+ p +:+ post) p)
      with (Js.startsWith (String a (pre +:+ p +:+ post)) p
            || Js.includes (pre +:+ p +:+ post) p).
    rewrite IH. apply orb_true_r.
Qed.

Lemma includes_prefix p post : Js.includes (p +:+ post) p = true.
Proof. apply (includes_append "" p post). Qed.

Lemma sliceLast_suffix {A} n (l : list A) :
  take (List.length l - n) l ++ Js.sliceLast n l = l.
Proof. apply take_drop. Qed.

Lemma sliceLast_length {A} n (l : list A) :
  List.length (Js.sliceLast n l) = Nat.min n (List.length l).
Proof. unfold Js.sliceLast. rewrite length_drop. lia. Qed.

Lemma sliceLast_short {A} n (l : list A) :
  (List.length l <= n)%nat -> Js.sliceLast n l = l.
Proof.
  intros H. unfold Js.sliceLast. replace (List.length l - n)%nat with 0%nat by lia.
  reflexivity.
Qed.

(** ** Provider errors *)

Lemma orStr_present m d : m <> "" -> Js.orStr (Some m) d = m.
Proof. destruct m; simpl; congruence. Qed.

(** [handleError] throws one of five messages, chosen by [classifies], and
    the message contains the provider name. *)
Lemma handleError_classifies (A : Type) (error : Js.Error) (provider : string) (w : World) :
  exists kind : ErrorKind,
    LLMService.handleError (A := A) error provider w
      = (Throws (Js.newError (errorText kind provider)), w)
    /\ classifies error kind
    /\ Js.includes (errorText kind provider) provider = true.
Proof.
  unfold LLMService.handleError, classifies.
  fold (httpStatus error). fold (isTimeout error).
  destruct (bool_decide (httpStatus error = Some 401)) eqn:H401.
  { apply bool_decide_eq_true in H401. exists InvalidCredential.
    repeat split; try congruence.
    apply (includes_append "Invalid " provider). }
  apply bool_decide_eq_false in H401.
  destruct (bool_decide (httpStatus error = Some 429)) eqn:H429.
  { apply bool_decide_eq_true in H429. exists RateLimited.
    repeat split; try congruence. apply includes_prefix. }
  apply bool_decide_eq_false in H429.
  destruct (bool_decide (httpStatus error = Some 503)) eqn:H503.
  { apply bool_decide_eq_true in H503. exists BackendUnavailable.
    repeat split; try congruence. apply includes_prefix. }
  apply bool_decide_eq_false in H503.
  destruct (isTimeout error) eqn:Ht.
  - exists Timeout. repeat split; try congruence.
    apply (includes_append "Request to " provider).
  - exists (UnknownBackendError (Js.orStr (Js.message error) "Unknown error")).
    repeat split; try congruence.
    + intros m Hm Hne. rewrite Hm, orStr_present by exact Hne. reflexivity.
    + apply (includes_append "Failed to generate reply with " provider).
Qed.

Lemma handleError_world (A : Type) error provider w :
  (LLMService.handleError (A := A) error provider w).2 = w.
Proof. destruct (handleError_classifies A error provider w) as (kind & -> & _). reflexivity. Qed.

Lemma handleError_never_returns (A : Type) error provider w (a : A) w' :
  LLMService.handleError error provider w = (Returns a, w') -> False.
Proof.
  destruct (handleError_classifies A error provider w) as (kind & -> & _). discriminate.
Qed.

(** ** The provider variants *)

Lemma append_assoc (a b c : string) : (a +:+ b) +:+ c = a +:+ b +:+ c.
Proof.
  induction a as [|x a IH]; [reflexivity|].
  change (String x ((a +:+ b) +:+ c) = String x (a +:+ b +:+ c)).
  rewrite IH. reflexivity.
Qed.

Lemma gemini_context_fold (recent : list Message) (base : string) :
  fold_left
    (fun ctx msg =>
       ctx +:+ LLMService.speakerOf (m_sender msg) +:+ ": " +:+ m_text msg +:+ LLMService.nl)
    recent base
  = base +:+ geminiLines recent.
Proof.
  revert base. induction recent as [|msg rest IH]; intros base.
  - simpl. induction base as [|x base IHb]; [reflexivity|].
    change (String x base = String x (base +:+ "")). rewrite <- IHb. reflexivity.
  - cbn [fold_left]. rewrite IH.
    exact (append_assoc base (geminiLine msg) (geminiLines rest)).
Qed.

(** The three variants at once: a configuration error when the credential
    check fails; otherwise one request is sent, a failure of the backend
    goes through [handleError] under the variant's name, and text comes
    back only trimmed and non-empty. *)
Lemma generateWith_eq E p um h w :
  LLMService.generateWith E p um h w =
  match requestOf E p um h with
  | None => (Throws (Js.newError (notConfigured p)), w)
  | Some c =>
      match answer E (List.length (calls w)) c with
      | inl e => LLMService.handleError e (providerName p) (sent c w)
      | inr content =>
          if Js.truthy (default "" (Js.trim <$> content))
          then (Returns (default "" (Js.trim <$> content)), sent c w)
          else (Throws (Js.newError
                          (errorText (UnknownBackendError
                                        ("Empty response from " +:+ providerName p))
                                     (providerName p))),
                sent c w)
      end
  end.
Proof.
  destruct p; unfold requestOf; simpl.
  - unfold LLMService.generateWithOpenAI, LLMService.chatCompletion, openaiKey.
    destruct (OPENAI_API_KEY E) as [key|]; [|reflexivity].
    destruct (_ && _); [|reflexivity]. simpl.
    mrun. fold (sent (ChatCall (mkChatRequest key None "gpt-3.5-turbo"
                                  (chatPrompt (Js.sliceLast 10 h) um) 200 (7 # 10))) w).
    destruct (chat_completions_create E _ _) as [e|[c|]]; simpl; [reflexivity| |reflexivity].
    destruct (Js.truthy (Js.trim c)); reflexivity.
  - unfold LLMService.generateWithGroq, LLMService.chatCompletion, groqKey.
    destruct (GROQ_API_KEY E) as [key|]; [|reflexivity].
    destruct (_ || _); [reflexivity|]. simpl.
    mrun. fold (sent (ChatCall (mkChatRequest key (Some "https://api.groq.com/openai/v1")
                                  "llama-3.1-8b-instant"
                                  (chatPrompt (Js.sliceLast 10 h) um) 200 (7 # 10))) w).
    destruct (chat_completions_create E _ _) as [e|[c|]]; simpl; [reflexivity| |reflexivity].
    destruct (Js.truthy (Js.trim c)); reflexivity.
  - unfold LLMService.generateWithGemini, LLMService.geminiContent, geminiKey.
    destruct (GEMINI_API_KEY E) as [key|]; [|reflexivity].
    destruct (_ || _); [reflexivity|]. simpl.
    rewrite gemini_context_fold.
    assert (Hprompt :
      ((STORE_KNOWLEDGE +:+ LLMService.nl +:+ LLMService.nl +:+ "Conversation History:"
        +:+ LLMService.nl) +:+ geminiLines (Js.sliceLast LLMService.maxHistoryMessages h))
      +:+ LLMService.nl +:+ "Customer: " +:+ um +:+ LLMService.nl +:+ "Agent:"
      = geminiPrompt (Js.sliceLast 10 h) um) by apply append_assoc.
    rewrite Hprompt.
    mrun. fold (sent (GeminiCall (mkGeminiRequest key "gemini-pro" 200 (7 # 10)
                                    (geminiPrompt (Js.sliceLast 10 h) um))) w).
    destruct (generateContent E _ _) as [e|t]; simpl; [reflexivity|].
    destruct (Js.truthy (Js.trim t)); reflexivity.
Qed.

Lemma trim_wellTrimmed s : Js.truthy (Js.trim s) = true -> wellTrimmed (Js.trim s).
Proof.
  intros H. repeat split.
  - apply truthy_nonempty, H.
  - apply trim_idempotent.
  - apply trim_first.
  - apply trim_last.
Qed.

Lemma generateWith_trimmed E p um h w reply w' :
  LLMService.generateWith E p um h w = (Returns reply, w') -> wellTrimmed reply.
Proof.
  rewrite generateWith_eq.
  destruct (requestOf E p um h) as [c|]; [|discriminate].
  destruct (answer E _ c) as [e|content].
  - intros H. destruct (handleError_never_returns _ _ _ _ _ _ H).
  - destruct content as [t|]; simpl; [|discriminate].
    destruct (Js.truthy (Js.trim t)) eqn:Ht; [|discriminate].
    intros [= <- _]. apply trim_wellTrimmed, Ht.
Qed.

Lemma generateWith_calls E p um h w c :
  requestOf E p um h = Some c ->
  calls (exec (LLMService.generateWith E p um h) w) = calls w ++ [c].
Proof.
  intros Hreq. unfold exec. rewrite generateWith_eq, Hreq.
  destruct (answer E _ c) as [e|content].
  - rewrite handleError_world. reflexivity.
  - destruct (Js.truthy _); reflexivity.
Qed.

Lemma generateWith_sameStore E p um h w :
  sameStore w (LLMService.generateWith E p um h w).2.
Proof.
  rewrite generateWith_eq.
  destruct (requestOf E p um h) as [c|]; [|repeat split].
  destruct (answer E _ c) as [e|content].
  - rewrite handleError_world. repeat split.
  - destruct (Js.truthy _); repeat split.
Qed.

Lemma generateWith_redis E p um h w :
  redis (LLMService.generateWith E p um h w).2 = redis w.
Proof.
  rewrite generateWith_eq.
  destruct (requestOf E p um h) as [c|]; [|reflexivity].
  destruct (answer E _ c) as [e|content].
  - rewrite handleError_world. reflexivity.
  - destruct (Js.truthy _); reflexivity.
Qed.

(** What [handleError] tells apart. Whatever the provider name, it throws
    exactly one of five messages, chosen in this order: status 401 gives
    the invalid-credential message, 429 the rate-limit message, 503 the
    service-unavailable message; failing those, an error that passes its
    timeout test (code [ECONNABORTED] or a message containing [timeout])
    gives the timeout message; anything else gives the residual message,
    which ends with the original message of the error ([Unknown error] when
    it has none). Each of the five messages contains the provider name. And
    for each of the three provider variants, a failure of the backend call
    is thrown on in exactly this form, under the name of that variant. *)
Theorem backend_failure_normalized (error : Js.Error) (w : World) :
  (forall (A : Type) (provider : string),
      exists kind : ErrorKind,
        LLMService.handleError (A := A) error provider w
          = (Throws (Js.newError (errorText kind provider)), w)
        /\ classifies error kind
        /\ Js.includes (errorText kind provider) provider = true)
  /\ (forall E p um h c,
        requestOf E p um h = Some c ->
        answer E (List.length (calls w)) c = inl error ->
        exists kind : ErrorKind,
          LLMService.generateWith E p um h w
            = (Throws (Js.newError (errorText kind (providerName p))), sent c w)
          /\ classifies error kind
          /\ Js.includes (errorText kind (providerName p)) (providerName p) = true).
Proof.
  split.
  - intros A provider. apply handleError_classifies.
  - intros E p um h c Hreq Hans. rewrite generateWith_eq, Hreq, Hans.
    apply handleError_classifies.
Qed.

Lemma backend_failure_normalized_witness :
  exists kind : ErrorKind,
    LLMService.generateWith rateLimitedEnv LLMService.groq "Hi" [] demoWorld
      = (Throws (Js.newError (errorText kind "Groq")),
         sent (ChatCall (mkChatRequest "gsk_test" (Some "https://api.groq.com/openai/v1")
                           "llama-3.1-8b-instant" (chatPrompt [] "Hi") 200 (7 # 10)))
              demoWorld)
    /\ kind = RateLimited.
Proof.
  destruct (proj2 (backend_failure_normalized rateLimitError demoWorld)
              rateLimitedEnv LLMService.groq "Hi" []
              (ChatCall (mkChatRequest "gsk_test" (Some "https://api.groq.com/openai/v1")
                           "llama-3.1-8b-instant" (chatPrompt [] "Hi") 200 (7 # 10)))
              eq_refl eq_refl)
    as (kind & Hthrow & (_ & H429 & _) & _).
  exists kind. split; [exact Hthrow|]. apply H429. reflexivity.
Defined.

(** C6, what the code does. [handleError] takes an error for a timeout
    when its code is [ECONNABORTED] or its message contains [timeout]. The
    error that the client library of the OpenAI and Groq variants raises
    when a request times out has no code, and its message,
    [Request timed out.], does not contain that word. So, whatever the
    provider name, [handleError] throws the residual message for it and not
    the timeout message; [generateReply] fails with the residual message
    under OpenAI and under Groq; and the route answers 500 with it. *)
Theorem sdk_timeout_not_normalized :
  Js.code sdkTimeoutError = None
  /\ Js.status sdkTimeoutError = None
  /\ Js.response_status sdkTimeoutError = None
  /\ (forall (provider : string) (w : World),
        LLMService.handleError (A := string) sdkTimeoutError provider w
        = (Throws (Js.newError ("Failed to generate reply with " +:+ provider
                                +:+ ": Request timed out.")), w)
        /\ "Failed to generate reply with " +:+ provider +:+ ": Request timed out."
           <> "Request to " +:+ provider +:+ " timed out. Please try again.")
  /\ result (LLMService.generateReply timingOutEnv "Return policy?" []) demoWorld
     = Throws (Js.newError "Failed to generate reply with OpenAI: Request timed out.")
  /\ result (LLMService.generateReply timingOutGroqEnv "Return policy?" []) demoWorld
     = Throws (Js.newError "Failed to generate reply with Groq: Request timed out.")
  /\ result (ChatRouter.post_message timingOutEnv firstBody) demoWorld
     = Returns (ChatRouter.mkResponse 500
                  (ChatRouter.ErrorJson
                     "Failed to generate reply with OpenAI: Request timed out."))
  /\ "Failed to generate reply with OpenAI: Request timed out."
     <> "Request to OpenAI timed out. Please try again.".
Proof.
  do 3 (split; [reflexivity|]). split.
  - intros provider w. split; [reflexivity|]. intros H. discriminate H.
  - repeat split; try (vm_compute; reflexivity). discriminate.
Qed.

Lemma bind_returns {A B} (m : M A) (k : A -> M B) w b w' :
  bind m k w = (Returns b, w') ->
  exists a w1, m w = (Returns a, w1) /\ k a w1 = (Returns b, w').
Proof.
  unfold bind. destruct (m w) as [[a|e] w1]; [|discriminate].
  intros H. exists a, w1. split; [reflexivity|exact H].
Qed.

Lemma cache_get_total E um w :
  CacheService.get E um w
  = (Returns match redis w with
             | None => None
             | Some client => snd <$> client !! CacheService.getCacheKey E um
             end, w).
Proof. unfold CacheService.get. mrun. destruct (redis w); reflexivity. Qed.

Lemma cache_set_total E um reply w :
  exists w', CacheService.set E um reply w = (Returns tt, w')
             /\ db w' = db w /\ commits w' = commits w /\ calls w' = calls w
             /\ uuid_reads w' = uuid_reads w /\ clock_reads w' = clock_reads w.
Proof.
  unfold CacheService.set. mrun. destruct (redis w); eexists; repeat split.
Qed.




(** ** The history window of the prompt *)

(** C8. Each provider variant sends a prompt built from the window
    [history.slice(-10)]: the window is a suffix of the history in the
    history's own order, it has ten messages, or all of them when the
    history has at most ten, and the one request a variant with a usable
    credential sends carries the system text, then exactly the messages of
    the window in order, then the new user message. *)
Theorem prompt_uses_last_ten E um h w :
  let recent := Js.sliceLast 10 h in
  (take (List.length h - 10) h ++ recent = h
   /\ List.length recent = Nat.min 10 (List.length h)
   /\ ((List.length h <= 10)%nat -> recent = h))
  /\ (forall key, groqKey E = Some key ->
       calls (exec (LLMService.generateWithGroq E um h) w)
       = calls w ++ [ChatCall (mkChatRequest key (Some "https://api.groq.com/openai/v1")
                                 "llama-3.1-8b-instant" (chatPrompt recent um) 200 (7 # 10))])
  /\ (forall key, geminiKey E = Some key ->
       calls (exec (LLMService.generateWithGemini E um h) w)
       = calls w ++ [GeminiCall (mkGeminiRequest key "gemini-pro" 200 (7 # 10)
                                   (geminiPrompt recent um))])
  /\ (forall key, openaiKey E = Some key ->
       calls (exec (LLMService.generateWithOpenAI E um h) w)
       = calls w ++ [ChatCall (mkChatRequest key None "gpt-3.5-turbo"
                                 (chatPrompt recent um) 200 (7 # 10))]).
Proof.
  intros recent. split; [|split; [|split]].
  - split; [apply sliceLast_suffix|]. split; [apply sliceLast_length|apply sliceLast_short].
  - intros key Hkey.
    apply (generateWith_calls E LLMService.groq). unfold requestOf. rewrite Hkey. reflexivity.
  - intros key Hkey.
    apply (generateWith_calls E LLMService.gemini). unfold requestOf. rewrite Hkey. reflexivity.
  - intros key Hkey.
    apply (generateWith_calls E LLMService.openai). unfold requestOf. rewrite Hkey. reflexivity.
Qed.

Lemma prompt_uses_last_ten_witness :
  calls (exec (LLMService.generateWithOpenAI demoEnv "next" demoHistory) demoWorld)
  = [ChatCall (mkChatRequest "sk-test" None "gpt-3.5-turbo"
                 (chatPrompt (drop 2 demoHistory) "next") 200 (7 # 10))].
Proof.
  apply (proj2 (proj2 (proj2 (prompt_uses_last_ten demoEnv "next" demoHistory demoWorld)))
           "sk-test").
  reflexivity.
Defined.

(** ** The store *)

Section Store.
Context (E : Env).

Lemma createConversation_eq w :
  ConversationService.createConversation E w =
  match conversations (db w) !! nextId E w with
  | Some _ =>
      (Throws (ConversationService.sqliteConstraint "SQLITE_CONSTRAINT_PRIMARYKEY"
                         "UNIQUE constraint failed: conversations.id"),
       advance (db w) [] w)
  | None =>
      let d := mkDb (<[nextId E w := mkRow (nextStamp E w) (nextStamp E w)]> (conversations (db w)))
                    (messages (db w)) in
      (Returns (nextId E w), advance d [d] w)
  end.
Proof.
  unfold ConversationService.createConversation, ConversationService.newId,
    ConversationService.nowSeconds, ConversationService.insertConversation,
    advance, nextId, nextStamp.
  mrun. destruct (conversations (db w) !! uuidv4 E (uuid_reads w)); simpl.
  - rewrite app_nil_r. reflexivity.
  - reflexivity.
Qed.

Lemma addMessage_eq conversationId sender text w :
  ConversationService.addMessage E conversationId sender text w =
  let m := mkMessage (nextId E w) conversationId sender text (nextStamp E w) in
  match conversations (db w) !! conversationId with
  | None => (Throws (Js.newError "Conversation not found"), advance (db w) [] w)
  | Some row =>
      if existsb (fun r => String.eqb (m_id r) (nextId E w)) (messages (db w))
      then (Throws (ConversationService.sqliteConstraint "SQLITE_CONSTRAINT_PRIMARYKEY"
                         "UNIQUE constraint failed: messages.id"),
            advance (db w) [] w)
      else
        let d1 := mkDb (conversations (db w)) (messages (db w) ++ [m]) in
        let d2 := mkDb (alter (fun r => mkRow (created_at r) (nextStamp E w)) conversationId
                              (conversations (db w)))
                       (messages (db w) ++ [m]) in
        (Returns m, advance d2 [d1; d2] w)
  end.
Proof.
  unfold ConversationService.addMessage, ConversationService.newId,
    ConversationService.nowSeconds, ConversationService.getConversation,
    ConversationService.insertMessage, ConversationService.updateConversation,
    advance, nextId, nextStamp.
  mrun. destruct (conversations (db w) !! conversationId) eqn:Hc; simpl.
  - destruct (existsb _ _); simpl.
    + rewrite app_nil_r. reflexivity.
    + rewrite Hc. simpl. rewrite <- app_assoc. reflexivity.
  - rewrite app_nil_r. reflexivity.
Qed.

End Store.

Lemma committedBy_app {A} (m : M A) w ds :
  commits (exec m w) = commits w ++ ds -> committedBy m w = ds.
Proof. unfold committedBy. intros ->. apply drop_app_length. Qed.

Lemma existsb_fresh (id : string) (rows : list Message) :
  (forall r, In r rows -> m_id r <> id) ->
  existsb (fun r => String.eqb (m_id r) id) rows = false.
Proof.
  intros H. induction rows as [|r rows IH]; [reflexivity|]. simpl.
  rewrite IH by (intros r' Hr'; apply H; right; exact Hr').
  destruct (String.eqb_spec (m_id r) id) as [Heq|_]; [|reflexivity].
  destruct (H r (or_introl eq_refl) Heq).
Qed.

Lemma alter_present {V} (f : V -> V) (k : string) (v : V) (m : gmap string V) :
  m !! k = Some v -> alter f k m = <[k := f v]> m.
Proof.
  intros Hk. apply map_eq. intros j. rewrite lookup_alter, lookup_insert.
  destruct (decide (k = j)) as [<-|]; [rewrite Hk|]; reflexivity.
Qed.

(** C5, as the code has it. [addMessage] throws [Conversation not found]
    when the conversation does not exist, and then changes no table and
    commits nothing. When the conversation exists (and the drawn message id
    is unused) it returns the message, the message is the new last row of
    [messages], and the conversation's [updated_at] is the message's
    timestamp. The two writes are two statements committed one after the
    other: the first committed state has the message and the conversation
    row still unchanged, the second is the final state. *)
Theorem addMessage_spec E conversationId sender text w :
  let m := mkMessage (nextId E w) conversationId sender text (nextStamp E w) in
  let run := ConversationService.addMessage E conversationId sender text in
  (conversations (db w) !! conversationId = None ->
   result run w = Throws (Js.newError "Conversation not found")
   /\ db (exec run w) = db w
   /\ committedBy run w = [])
  /\ (forall row,
       conversations (db w) !! conversationId = Some row ->
       (forall r, In r (messages (db w)) -> m_id r <> m_id m) ->
       result run w = Returns m
       /\ messages (db (exec run w)) = messages (db w) ++ [m]
       /\ conversations (db (exec run w))
          = <[conversationId := mkRow (created_at row) (m_timestamp m)]> (conversations (db w))
       /\ committedBy run w
          = [mkDb (conversations (db w)) (messages (db w) ++ [m]); db (exec run w)]).
Proof.
  intros m run. split.
  - intros Hnone. unfold run, result, exec at 1. rewrite addMessage_eq, Hnone. simpl.
    repeat split. apply committedBy_app. unfold exec. rewrite addMessage_eq, Hnone.
    simpl. rewrite app_nil_r. reflexivity.
  - intros row Hrow Hfresh. unfold run, result, exec at 1 2.
    rewrite addMessage_eq, Hrow. simpl in Hfresh. rewrite (existsb_fresh _ _ Hfresh).
    simpl. repeat split.
    + rewrite (alter_present _ _ row) by exact Hrow. reflexivity.
    + apply committedBy_app. unfold exec.
      rewrite addMessage_eq, Hrow, (existsb_fresh _ _ Hfresh). reflexivity.
Qed.

Lemma addMessage_spec_witness :
  let w := exec (ConversationService.createConversation slowEnv) demoWorld in
  let run := ConversationService.addMessage slowEnv (demoUuid 0) user "Hi" in
  result run w = Returns (mkMessage (demoUuid 1) (demoUuid 0) user "Hi" 1700000001)
  /\ updatedAtOf (demoUuid 0) (db (exec run w)) = Some 1700000001.
Proof.
  intros w run.
  destruct (proj2 (addMessage_spec slowEnv (demoUuid 0) user "Hi" w)
              (mkRow 1700000000 1700000000))
    as (Hres & _ & Hconv & _).
  - vm_compute. reflexivity.
  - intros r Hr. vm_compute in Hr. destruct Hr.
  - split; [exact Hres|]. unfold updatedAtOf. fold run in Hconv. rewrite Hconv.
    rewrite lookup_insert_eq. reflexivity.
Defined.

(** C5, the claim as written fails: between the two statements of
    [addMessage] a database state is committed in which the message is
    already there while the conversation still carries its old
    [updated_at]; in that state the two writes are neither both visible nor
    both invisible. *)
Lemma addMessage_not_atomic :
  let w := exec (ConversationService.createConversation slowEnv) demoWorld in
  let run := ConversationService.addMessage slowEnv (demoUuid 0) user "Hi" in
  let m := mkMessage (demoUuid 1) (demoUuid 0) user "Hi" 1700000001 in
  result run w = Returns m
  /\ exists d, In d (committedBy run w)
               /\ ~ bothVisible m d
               /\ ~ neitherVisible m (db w) d.
Proof.
  intros w run m. split; [vm_compute; reflexivity|].
  exists (mkDb (conversations (db w)) [m]). split; [|split].
  - vm_compute. left. reflexivity.
  - intros [_ Hup]. vm_compute in Hup. discriminate.
  - intros [Hnot _]. apply Hnot. left. reflexivity.
Qed.

(** ** Timestamps *)

Section Timestamps.
Context (E : Env).
Hypothesis clock : clockMonotone E.

Lemma stamp_monotone (i j : nat) :
  (i <= j)%nat -> Date_now E i / 1000 <= Date_now E j / 1000.
Proof. intros H. apply Z.div_le_mono; [lia|]. apply clock, H. Qed.

Lemma createConversation_ordered w :
  timestampsOrdered E w ->
  timestampsOrdered E (exec (ConversationService.createConversation E) w).
Proof.
  intros [Hconv Hmsg]. unfold exec. rewrite createConversation_eq.
  destruct (conversations (db w) !! nextId E w) eqn:Hid; simpl.
  - split.
    + intros cid row Hrow. destruct (Hconv cid row Hrow) as (Hc & Hfut & Hm).
      repeat split; [exact Hc| |exact Hm]. intros k Hk. apply Hfut. simpl in *; lia.
    + intros m k Hin Hk. apply Hmsg; [exact Hin|simpl in *; lia].
  - split.
    + intros cid row. simpl. rewrite lookup_insert. unfold nextStamp.
      destruct (decide (nextId E w = cid)) as [<-|Hne].
      * intros [= <-]. simpl. repeat split; [simpl in *; lia| |].
        -- intros k Hk. apply stamp_monotone. simpl in *; lia.
        -- intros m Hin _. apply Hmsg; [exact Hin|simpl in *; lia].
      * intros Hrow. destruct (Hconv cid row Hrow) as (Hc & Hfut & Hm).
        repeat split; [exact Hc| |exact Hm]. intros k Hk. apply Hfut. simpl in *; lia.
    + intros m k Hin Hk. apply Hmsg; [exact Hin|simpl in *; lia].
Qed.

Lemma addMessage_ordered conversationId sender text w :
  timestampsOrdered E w ->
  timestampsOrdered E (exec (ConversationService.addMessage E conversationId sender text) w).
Proof.
  intros [Hconv Hmsg]. unfold exec. rewrite addMessage_eq.
  assert (Hsame : timestampsOrdered E (advance (db w) [] w)).
  { split.
    - intros cid row Hrow. destruct (Hconv cid row Hrow) as (Hc & Hfut & Hm).
      repeat split; [exact Hc| |exact Hm]. intros k Hk. apply Hfut. simpl in *; lia.
    - intros m k Hin Hk. apply Hmsg; [exact Hin|simpl in Hk; lia]. }
  destruct (conversations (db w) !! conversationId) as [row0|] eqn:Hrow0; [|exact Hsame].
  destruct (existsb _ _); [exact Hsame|]. simpl. split; simpl.
  - intros cid row. simpl. rewrite lookup_alter.
    destruct (decide (conversationId = cid)) as [<-|Hne].
    + rewrite Hrow0. intros [= <-]. simpl.
      destruct (Hconv conversationId row0 Hrow0) as (Hc & Hfut & Hm).
      unfold nextStamp. repeat split.
      * etransitivity; [exact Hc|]. apply Hfut. simpl in *; lia.
      * intros k Hk. apply stamp_monotone. simpl in *; lia.
      * intros m Hin Hcid. apply in_app_or in Hin as [Hin|[<-|[]]]; simpl; [|simpl in *; lia].
        etransitivity; [apply Hm; [exact Hin|exact Hcid]|]. apply Hfut. simpl in *; lia.
    + intros Hrow. destruct (Hconv cid row Hrow) as (Hc & Hfut & Hm).
      repeat split; [exact Hc| |].
      * intros k Hk. apply Hfut. simpl in *; lia.
      * intros m Hin Hcid. apply in_app_or in Hin as [Hin|[<-|[]]].
        -- apply Hm; [exact Hin|exact Hcid].
        -- simpl in Hcid. congruence.
  - intros m k Hin Hk. apply in_app_or in Hin as [Hin|[<-|[]]].
    + apply Hmsg; [exact Hin|simpl in *; lia].
    + simpl. unfold nextStamp. apply stamp_monotone. simpl in *; lia.
Qed.

Lemma runOps_ordered ops w :
  timestampsOrdered E w -> timestampsOrdered E (runOps E ops w).
Proof.
  revert w. induction ops as [|op ops IH]; intros w Hw; [exact Hw|].
  apply IH. destruct op; [apply createConversation_ordered|apply addMessage_ordered]; exact Hw.
Qed.

End Timestamps.

Lemma initWorld_ordered E r : timestampsOrdered E (initWorld r).
Proof.
  split.
  - intros cid row Hrow. simpl in Hrow. rewrite lookup_empty in Hrow. discriminate.
  - intros m k [].
Qed.

(** C7, as the code has it. Provided the system clock never steps
    backwards between the operations, after any sequence of
    [createConversation] and [addMessage] calls on an empty store every
    conversation has [updated_at] at least [created_at] and at least the
    timestamp of each of its messages, the newest one included. *)
Theorem updated_at_dominates E ops r conversationId row :
  clockMonotone E ->
  conversations (db (runOps E ops (initWorld r))) !! conversationId = Some row ->
  created_at row <= updated_at row
  /\ forall m, In m (messages (db (runOps E ops (initWorld r)))) ->
               m_conversationId m = conversationId ->
               m_timestamp m <= updated_at row.
Proof.
  intros Hclock Hrow.
  destruct (runOps_ordered E Hclock ops _ (initWorld_ordered E r)) as [Hconv _].
  destruct (Hconv conversationId row Hrow) as (Hc & _ & Hm). split; assumption.
Qed.

Lemma slowEnv_monotone : clockMonotone slowEnv.
Proof. intros i j Hij. simpl. lia. Qed.

Lemma updated_at_dominates_witness :
  1700000000 <= 1700000001
  /\ forall m,
      In m (messages (db (runOps slowEnv
                            [OpCreateConversation; OpAddMessage (demoUuid 0) user "Hi"]
                            demoWorld))) ->
      m_conversationId m = demoUuid 0 ->
      m_timestamp m <= 1700000001.
Proof.
  apply (updated_at_dominates slowEnv
           [OpCreateConversation; OpAddMessage (demoUuid 0) user "Hi"] (Some ∅)
           (demoUuid 0) (mkRow 1700000000 1700000001)).
  - exact slowEnv_monotone.
  - vm_compute. reflexivity.
Defined.

(** C7, the claim as written fails: [addMessage] overwrites [updated_at]
    with the current clock reading, so a message appended after the clock
    stepped back one second leaves [updated_at] below [created_at]. *)
Lemma backwards_clock_breaks_order :
  exists row,
    conversations (db (runOps backwardsEnv
                         [OpCreateConversation; OpAddMessage (demoUuid 0) user "Hi"]
                         demoWorld)) !! demoUuid 0
    = Some row
    /\ ~ created_at row <= updated_at row.
Proof.
  exists (mkRow 1700000000 1699999999). split; [vm_compute; reflexivity|].
  simpl. lia.
Qed.

(** ** Reading messages *)

Lemma selectMessages_none conversationId d :
  (forall m, In m (messages d) -> m_conversationId m <> conversationId) ->
  ConversationService.selectMessages conversationId d = [].
Proof.
  unfold ConversationService.selectMessages. intros H.
  induction (messages d) as [|r rows IH]; [reflexivity|]. simpl.
  destruct (String.eqb_spec (m_conversationId r) conversationId) as [Heq|_].
  - destruct (H r (or_introl eq_refl) Heq).
  - apply IH. intros m Hm. apply H. right. exact Hm.
Qed.

Lemma createConversation_fk E w :
  foreignKeysHold (db w) ->
  foreignKeysHold (db (exec (ConversationService.createConversation E) w)).
Proof.
  intros Hfk. unfold exec. rewrite createConversation_eq.
  destruct (conversations (db w) !! nextId E w) eqn:Hid; simpl; [exact Hfk|].
  intros m Hm. simpl in *. rewrite lookup_insert.
  destruct (decide _); [eexists; reflexivity|]. apply Hfk, Hm.
Qed.

Lemma addMessage_fk E conversationId sender text w :
  foreignKeysHold (db w) ->
  foreignKeysHold (db (exec (ConversationService.addMessage E conversationId sender text) w)).
Proof.
  intros Hfk. unfold exec. rewrite addMessage_eq.
  destruct (conversations (db w) !! conversationId) as [row|] eqn:Hrow; [|exact Hfk].
  destruct (existsb _ _); [exact Hfk|]. simpl.
  intros m Hm. simpl in *. rewrite lookup_alter.
  apply in_app_or in Hm as [Hm|[<-|[]]].
  - destruct (decide _) as [_|]; [rewrite Hrow; eexists; reflexivity|]. apply Hfk, Hm.
  - simpl. destruct (decide _); [|congruence]. rewrite Hrow. eexists. reflexivity.
Qed.

Lemma runOps_fk E ops w :
  foreignKeysHold (db w) -> foreignKeysHold (db (runOps E ops w)).
Proof.
  revert w. induction ops as [|op ops IH]; intros w Hw; [exact Hw|].
  apply IH. destruct op; [apply createConversation_fk|apply addMessage_fk]; exact Hw.
Qed.

(** C9. In any store reached by [createConversation] and [addMessage]
    calls, [getMessages] on an identifier with no conversation row returns
    the empty list and throws nothing; that is the very result it gives for
    a conversation that exists and has no message yet. *)
Theorem getMessages_unknown_is_empty E ops r conversationId :
  let w := runOps E ops (initWorld r) in
  conversations (db w) !! conversationId = None ->
  ConversationService.getMessages conversationId w = (Returns [], w)
  /\ forall w2 existing,
      is_Some (conversations (db w2) !! existing) ->
      (forall m, In m (messages (db w2)) -> m_conversationId m <> existing) ->
      result (ConversationService.getMessages existing) w2
      = result (ConversationService.getMessages conversationId) w.
Proof.
  intros w Hnone.
  assert (Hempty : ConversationService.selectMessages conversationId (db w) = []).
  { apply selectMessages_none. intros m Hm Hcid.
    assert (Hfk : foreignKeysHold (db w)) by (apply runOps_fk; intros ? []).
    destruct (Hfk m Hm) as [row Hrow]. rewrite Hcid, Hnone in Hrow. discriminate. }
  unfold ConversationService.getMessages. mrun. rewrite Hempty. split; [reflexivity|].
  intros w2 existing _ Hno. rewrite (selectMessages_none _ _ Hno). reflexivity.
Qed.

Lemma getMessages_unknown_is_empty_witness :
  ConversationService.getMessages "no-such-conversation"
    (runOps demoEnv [OpCreateConversation; OpAddMessage (demoUuid 0) user "Hi"] demoWorld)
  = (Returns [],
     runOps demoEnv [OpCreateConversation; OpAddMessage (demoUuid 0) user "Hi"] demoWorld).
Proof.
  apply (getMessages_unknown_is_empty demoEnv
           [OpCreateConversation; OpAddMessage (demoUuid 0) user "Hi"] (Some ∅)
           "no-such-conversation").
  vm_compute. reflexivity.
Defined.

(** ** One turn of the chat route *)

Lemma sameStore_refl w : sameStore w w.
Proof. repeat split. Qed.

Lemma generateReply_sameStore E um h w :
  sameStore w (LLMService.generateReply E um h w).2.
Proof.
  assert (Hgen : forall w0, sameStore w0
    ((let* reply := LLMService.generateWith E (LLMService.getProvider E) um h in
      let* _ := if (List.length h =? 0)%nat then CacheService.set E um reply else ret tt in
      ret reply) w0).2).
  { intros w0. unfold bind.
    pose proof (generateWith_sameStore E (LLMService.getProvider E) um h w0) as Hs.
    destruct (LLMService.generateWith E (LLMService.getProvider E) um h w0) as [[r|e] w1];
      [|exact Hs].
    simpl in Hs. destruct (List.length h =? 0)%nat; [|exact Hs].
    destruct (cache_set_total E um r w1) as (w2 & -> & Hd & Hc & _ & Hu & Hk).
    unfold ret. simpl. destruct Hs as (? & ? & ? & ?). repeat split; congruence. }
  unfold LLMService.generateReply, bind at 1.
  destruct (List.length h =? 0)%nat.
  - rewrite cache_get_total.
    destruct (match redis w with Some _ => _ | None => _ end) as [hit|]; [|apply Hgen].
    destruct (Js.truthy hit); [apply sameStore_refl|apply Hgen].
  - unfold ret at 1. apply Hgen.
Qed.

Lemma getConversation_eq conversationId w :
  ConversationService.getConversation conversationId w
  = (Returns ((fun row => mkConversation conversationId (created_at row) (updated_at row))
              <$> conversations (db w) !! conversationId), w).
Proof.
  unfold ConversationService.getConversation. mrun.
  destruct (conversations (db w) !! conversationId); reflexivity.
Qed.

Lemma post_message_existing E body message sid row w reply sid' w' :
  ChatRouter.b_message body = ChatRouter.JString message ->
  ChatRouter.b_sessionId body = ChatRouter.JString sid ->
  sid <> "" ->
  conversations (db w) !! sid = Some row ->
  ChatRouter.post_message E body w
  = (Returns (ChatRouter.mkResponse 200 (ChatRouter.ReplyJson reply sid')), w') ->
  exists u w3 w5 a,
    ConversationService.addMessage E sid user message w = (Returns u, w3)
    /\ LLMService.generateReply E message (ConversationService.selectMessages sid (db w3)) w3
       = (Returns reply, w5)
    /\ ConversationService.addMessage E sid ai reply w5 = (Returns a, w')
    /\ sid' = sid.
Proof.
  intros Hmsg Hsid Hne Hrow. unfold ChatRouter.post_message, tryCatch.
  match goal with
  | |- context [match ?m w with _ => _ end] => destruct (m w) as [[resp|e] w1] eqn:Hinner
  end.
  2:{ destruct (Js.isZodError e); unfold ChatRouter.errorHandler, ret; intros [= ]. }
  intros [= -> ->].
  apply bind_returns in Hinner as (parsed & w0 & Hparse & Hinner).
  unfold ChatRouter.messageSchema_parse in Hparse. rewrite Hmsg, Hsid in Hparse.
  destruct (_ && _); [|discriminate].
  destruct (zod_uuid E sid); [|discriminate].
  unfold ret in Hparse. injection Hparse as <- <-. simpl in Hinner.
  apply truthy_nonempty in Hne. rewrite Hne in Hinner.
  apply bind_returns in Hinner as (cid & w2 & Hcid & Hinner).
  unfold bind in Hcid. rewrite getConversation_eq, Hrow in Hcid. simpl in Hcid.
  unfold ret in Hcid. injection Hcid as <- <-.
  apply bind_returns in Hinner as (u & w3 & Hu & Hinner).
  apply bind_returns in Hinner as (history & w4 & Hh & Hinner).
  unfold ConversationService.getMessages in Hh. mrun. injection Hh as <- <-.
  apply bind_returns in Hinner as (reply0 & w5 & Hr & Hinner).
  apply bind_returns in Hinner as (a & w6 & Ha & Hinner).
  unfold ret in Hinner. injection Hinner as <- <- <-.
  exists u, w3, w5, a. repeat split; assumption.
Qed.

Lemma orderInsert_length r l :
  List.length (ConversationService.orderInsert r l) = S (List.length l).
Proof.
  induction l as [|y l IH]; simpl; [reflexivity|].
  destruct (m_timestamp r <=? m_timestamp y); simpl; [reflexivity|]. rewrite IH. reflexivity.
Qed.

Lemma orderByTimestamp_length l :
  List.length (ConversationService.orderByTimestamp l) = List.length l.
Proof.
  induction l as [|r l IH]; simpl; [reflexivity|]. rewrite orderInsert_length, IH. reflexivity.
Qed.

Lemma orderInsert_In r l m :
  In m (ConversationService.orderInsert r l) <-> m = r \/ In m l.
Proof.
  induction l as [|y l IH]; simpl; [intuition congruence|].
  destruct (m_timestamp r <=? m_timestamp y); simpl; [intuition congruence|].
  rewrite IH. intuition congruence.
Qed.

Lemma orderByTimestamp_In l m :
  In m (ConversationService.orderByTimestamp l) <-> In m l.
Proof.
  induction l as [|r l IH]; simpl; [reflexivity|].
  rewrite orderInsert_In, IH. intuition congruence.
Qed.

(** A row no newer than two later ones is placed before them. *)
Lemma orderInsert_before_tail r l u a :
  m_timestamp r <= m_timestamp u ->
  ConversationService.orderInsert r (l ++ [u; a])
  = ConversationService.orderInsert r l ++ [u; a].
Proof.
  intros Hru. induction l as [|y l IH]; simpl.
  - destruct (Z.leb_spec (m_timestamp r) (m_timestamp u)); [reflexivity|lia].
  - destruct (m_timestamp r <=? m_timestamp y); [reflexivity|]. rewrite IH. reflexivity.
Qed.

Lemma orderByTimestamp_tail l u a :
  (forall m, In m l -> m_timestamp m <= m_timestamp u) ->
  m_timestamp u <= m_timestamp a ->
  ConversationService.orderByTimestamp (l ++ [u; a])
  = ConversationService.orderByTimestamp l ++ [u; a].
Proof.
  intros Hl Hua. induction l as [|r l IH]; simpl.
  - destruct (Z.leb_spec (m_timestamp u) (m_timestamp a)); [reflexivity|lia].
  - rewrite IH by (intros m Hm; apply Hl; right; exact Hm).
    apply orderInsert_before_tail, Hl. left. reflexivity.
Qed.

Lemma selectMessages_two_more sid convs convs' rows u a :
  m_conversationId u = sid -> m_conversationId a = sid ->
  List.filter (fun r => String.eqb (m_conversationId r) sid) (rows ++ [u; a])
  = List.filter (fun r => String.eqb (m_conversationId r) sid) rows ++ [u; a]
  /\ List.length (ConversationService.selectMessages sid (mkDb convs' (rows ++ [u; a])))
     = (List.length (ConversationService.selectMessages sid (mkDb convs rows)) + 2)%nat.
Proof.
  intros Hu Ha.
  assert (Hf : List.filter (fun r => String.eqb (m_conversationId r) sid) (rows ++ [u; a])
               = List.filter (fun r => String.eqb (m_conversationId r) sid) rows ++ [u; a]).
  { rewrite List.filter_app. simpl. rewrite Hu, Ha, String.eqb_refl. reflexivity. }
  split; [exact Hf|].
  unfold ConversationService.selectMessages. simpl.
  rewrite Hf, !orderByTimestamp_length, length_app. reflexivity.
Qed.

(** C4, as the code has it. A successful turn on an existing conversation
    appends exactly two rows to [messages], the user message with the
    submitted text and then the agent message with the reply, so the
    history of the conversation is two messages longer; and the
    conversation's [updated_at] becomes the timestamp of the agent message,
    the clock in whole seconds when the reply was stored. When the stored
    timestamps are ordered and the clock does not step back, the new
    [updated_at] is at least the old one and [getMessages] yields the old
    history followed by the two new messages. Nothing makes the new value
    strictly greater than the old one. *)
Theorem turn_appends_two_messages E body message sid row w reply sid' w' :
  ChatRouter.b_message body = ChatRouter.JString message ->
  ChatRouter.b_sessionId body = ChatRouter.JString sid ->
  sid <> "" ->
  conversations (db w) !! sid = Some row ->
  ChatRouter.post_message E body w
  = (Returns (ChatRouter.mkResponse 200 (ChatRouter.ReplyJson reply sid')), w') ->
  let u := mkMessage (uuidv4 E (uuid_reads w)) sid user message
                     (Date_now E (clock_reads w) / 1000) in
  let a := mkMessage (uuidv4 E (S (uuid_reads w))) sid ai reply
                     (Date_now E (S (clock_reads w)) / 1000) in
  sid' = sid
  /\ messages (db w') = messages (db w) ++ [u; a]
  /\ List.length (ConversationService.selectMessages sid (db w'))
     = (List.length (ConversationService.selectMessages sid (db w)) + 2)%nat
  /\ updatedAtOf sid (db w) = Some (updated_at row)
  /\ updatedAtOf sid (db w') = Some (m_timestamp a)
  /\ (timestampsOrdered E w -> clockMonotone E ->
      updated_at row <= m_timestamp a
      /\ ConversationService.selectMessages sid (db w')
         = ConversationService.selectMessages sid (db w) ++ [u; a]).
Proof.
  intros Hmsg Hsid Hne Hrow Hpost u a.
  destruct (post_message_existing _ _ _ _ _ _ _ _ _ Hmsg Hsid Hne Hrow Hpost)
    as (u0 & w3 & w5 & a0 & Hu & Hgen & Ha & ->).
  rewrite addMessage_eq, Hrow in Hu. simpl in Hu.
  destruct (existsb _ _); [discriminate|]. injection Hu as <- <-.
  match type of Hgen with
  | LLMService.generateReply _ _ ?h ?w0 = _ =>
      pose proof (generateReply_sameStore E message h w0) as Hs
  end.
  rewrite Hgen in Hs.
  destruct Hs as (Hdb & _ & Huuid & Hclock). simpl in Hdb, Huuid, Hclock.
  rewrite addMessage_eq in Ha. unfold nextId, nextStamp in Ha.
  rewrite Hdb, Huuid, Hclock in Ha. simpl in Ha.
  rewrite lookup_alter in Ha. destruct (decide (sid = sid)); [|congruence].
  rewrite Hrow in Ha. simpl in Ha.
  destruct (existsb _ _); [discriminate|]. injection Ha as <- <-. simpl in *.
  fold u. fold a. rewrite <- app_assoc. simpl.
  split; [reflexivity|]. split; [reflexivity|]. split.
  { destruct (db w) as [convs rows]. simpl.
    apply (selectMessages_two_more sid convs _ rows u a); reflexivity. }
  split; [unfold updatedAtOf; rewrite Hrow; reflexivity|]. split.
  { unfold updatedAtOf. simpl. rewrite !lookup_alter.
    destruct (decide (sid = sid)); [|congruence]. rewrite Hrow. reflexivity. }
  intros [Hconv Hpast] Hmono. destruct (Hconv sid row Hrow) as (_ & Hfut & _). split.
  - apply Hfut. lia.
  - unfold ConversationService.selectMessages. simpl.
    change (mkMessage (nextId E w) sid user message (nextStamp E w)) with u.
    destruct (selectMessages_two_more sid ∅ ∅ (messages (db w)) u a eq_refl eq_refl)
      as [-> _].
    apply orderByTimestamp_tail.
    + intros m Hm. apply List.filter_In in Hm as [Hm _]. apply (Hpast m _ Hm). lia.
    + simpl. apply Z.div_le_mono; [lia|]. apply Hmono. lia.
Qed.

Lemma turn_appends_two_messages_witness :
  messages (db (exec (ChatRouter.post_message demoEnv followUpBody) afterFirstTurn))
  = messages (db afterFirstTurn)
    ++ [mkMessage (demoUuid 3) (demoUuid 0) user "And shipping?" 1700000000;
        mkMessage (demoUuid 4) (demoUuid 0) ai "Thirty days." 1700000000].
Proof.
  refine (proj1 (proj2 (turn_appends_two_messages demoEnv followUpBody "And shipping?"
            (demoUuid 0) (mkRow 1700000000 1700000000) afterFirstTurn "Thirty days."
            (demoUuid 0) (exec (ChatRouter.post_message demoEnv followUpBody) afterFirstTurn)
            eq_refl eq_refl _ _ _))).
  - discriminate.
  - vm_compute. reflexivity.
  - vm_compute. reflexivity.
Defined.

(** C4, the claim as written fails: a follow-up turn answered within the
    second of the previous update succeeds and leaves [updated_at] exactly
    where it was. *)
Lemma turn_within_one_second :
  ChatRouter.post_message demoEnv followUpBody afterFirstTurn
  = (Returns (ChatRouter.mkResponse 200 (ChatRouter.ReplyJson "Thirty days." (demoUuid 0))),
     exec (ChatRouter.post_message demoEnv followUpBody) afterFirstTurn)
  /\ exists before after,
      updatedAtOf (demoUuid 0) (db afterFirstTurn) = Some before
      /\ updatedAtOf (demoUuid 0)
           (db (exec (ChatRouter.post_message demoEnv followUpBody) afterFirstTurn))
         = Some after
      /\ ~ before < after.
Proof.
  split; [vm_compute; reflexivity|].
  exists 1700000000, 1700000000. split; [vm_compute; reflexivity|].
  split; [vm_compute; reflexivity|lia].
Qed.

(** ** The route and the cache *)

(** The two cache calls of [generateReply] are guarded by an empty history:
    on a history with a message in it the cache is neither read nor
    written, and the reply is whatever the provider variant gives. *)
Lemma nonempty_history_bypasses_cache E um m h w :
  LLMService.generateReply E um (m :: h) w
  = LLMService.generateWith E (LLMService.getProvider E) um (m :: h) w.
Proof.
  unfold LLMService.generateReply. mrun.
  destruct (LLMService.generateWith E (LLMService.getProvider E) um (m :: h) w) as [[r|e] w1];
    reflexivity.
Qed.

(** The history the route reads back right after storing the user message
    holds that message, so it is never empty. *)
Lemma history_after_append_nonempty E conversationId text w m w' :
  ConversationService.addMessage E conversationId user text w = (Returns m, w') ->
  In m (ConversationService.selectMessages conversationId (db w'))
  /\ m_text m = text /\ m_sender m = user.
Proof.
  rewrite addMessage_eq.
  destruct (conversations (db w) !! conversationId); [|discriminate].
  destruct (existsb _ _); [discriminate|]. simpl. intros [= <- <-]. simpl.
  split; [|split; reflexivity].
  unfold ConversationService.selectMessages. apply orderByTimestamp_In, List.filter_In.
  simpl. split; [apply in_or_app; right; left; reflexivity|apply String.eqb_refl].
Qed.

Lemma createConversation_redis E w :
  redis (ConversationService.createConversation E w).2 = redis w.
Proof.
  rewrite createConversation_eq.
  destruct (conversations (db w) !! nextId E w); reflexivity.
Qed.

Lemma addMessage_redis E conversationId sender text w :
  redis (ConversationService.addMessage E conversationId sender text w).2 = redis w.
Proof.
  rewrite addMessage_eq.
  destruct (conversations (db w) !! conversationId); [|reflexivity].
  destruct (existsb _ _); reflexivity.
Qed.

(** For every environment, request and world, serving [POST /message]
    leaves the cache exactly as it was: the route never stores a reply in
    it, because the history it hands to [generateReply] always holds the
    user message it has just stored. *)
Lemma post_message_keeps_cache E body w :
  redis (exec (ChatRouter.post_message E body) w) = redis w.
Proof.
  unfold exec, ChatRouter.post_message, tryCatch.
  match goal with
  | |- context [match ?m w with _ => _ end] =>
      assert (Hinner : redis (m w).2 = redis w);
      [|destruct (m w) as [[resp|e] w1]; simpl in *;
        [exact Hinner|destruct (Js.isZodError e); exact Hinner]]
  end.
  unfold bind at 1.
  assert (Hparse : (ChatRouter.messageSchema_parse E body w).2 = w).
  { unfold ChatRouter.messageSchema_parse.
    destruct (ChatRouter.b_message body); try reflexivity.
    destruct (_ && _); [|reflexivity].
    destruct (ChatRouter.b_sessionId body); try reflexivity.
    destruct (zod_uuid E s0); reflexivity. }
  destruct (ChatRouter.messageSchema_parse E body w) as [[[message sessionId]|e] w0];
    simpl in Hparse; subst w0; [|reflexivity].
  simpl. unfold bind at 1.
  match goal with
  | |- context [match ?m w with _ => _ end] =>
      assert (Hcid : redis (m w).2 = redis w);
      [|destruct (m w) as [[cid|e] w2]; simpl in Hcid; [|exact Hcid]]
  end.
  { destruct sessionId as [sid|]; [|apply createConversation_redis].
    destruct (Js.truthy sid); [|apply createConversation_redis].
    unfold bind. rewrite getConversation_eq.
    destruct (conversations (db w) !! sid); simpl;
      [reflexivity|apply createConversation_redis]. }
  unfold bind at 1.
  pose proof (addMessage_redis E cid user message w2) as Hu.
  pose proof (history_after_append_nonempty E cid message w2) as Hhist.
  destruct (ConversationService.addMessage E cid user message w2) as [[u|e] w3];
    simpl in Hu; [|simpl; congruence].
  destruct (Hhist u w3 eq_refl) as [Hin _].
  unfold bind at 1, ConversationService.getMessages at 1. mrun.
  destruct (ConversationService.selectMessages cid (db w3)) as [|m0 history]; [destruct Hin|].
  rewrite nonempty_history_bypasses_cache.
  pose proof (generateWith_redis E (LLMService.getProvider E) message (m0 :: history) w3) as Hg.
  destruct (LLMService.generateWith E (LLMService.getProvider E) message (m0 :: history) w3)
    as [[reply|e] w5]; simpl in Hg; [|simpl; congruence].
  pose proof (addMessage_redis E cid ai reply w5) as Ha.
  destruct (ConversationService.addMessage E cid ai reply w5) as [[a|e] w6];
    simpl in *; congruence.
Qed.

(** C1, what the code does. The two first-turn texts have the same cache
    key, whatever the hash function, and the cache is connected, yet serving the two requests one after
    the other calls the provider twice and leaves the cache empty; and even
    with a reply already cached under that key, the first turn of a new
    conversation calls the provider and answers with the fresh text. *)
Theorem first_turn_never_uses_cache :
  (forall E, CacheService.getCacheKey E "Return policy?"
             = CacheService.getCacheKey E "return policy? ")
  /\ List.length (calls (exec (ChatRouter.post_message demoEnv secondBody) afterFirstTurn))
     = 2%nat
  /\ redis (exec (ChatRouter.post_message demoEnv secondBody) afterFirstTurn) = Some ∅
  /\ result (CacheService.get demoEnv "return policy? ") warmWorld
     = Returns (Some "Cached answer.")
  /\ result (ChatRouter.post_message demoEnv secondBody) warmWorld
     = Returns (ChatRouter.mkResponse 200 (ChatRouter.ReplyJson "Thirty days." (demoUuid 0)))
  /\ List.length (calls (exec (ChatRouter.post_message demoEnv secondBody) warmWorld)) = 1%nat.
Proof. split; [intros E; reflexivity|]. repeat split; vm_compute; reflexivity. Qed.

(** C2, what the code does. The history handed to the provider is the one
    read back after the user message was stored, so the request carries the
    user text twice: once as the last message of the history and once as
    the new message. So it is on the first turn of a new conversation, and
    so it is on a follow-up turn, after the earlier turns. *)
Theorem prompt_repeats_user_message :
  calls afterFirstTurn
  = [ChatCall (mkChatRequest "sk-test" None "gpt-3.5-turbo"
                 [mkChatMessage system STORE_KNOWLEDGE;
                  mkChatMessage user_role "Return policy?";
                  mkChatMessage user_role "Return policy?"]
                 200 (7 # 10))]
  /\ calls (exec (ChatRouter.post_message demoEnv followUpBody) afterFirstTurn)
     = calls afterFirstTurn
       ++ [ChatCall (mkChatRequest "sk-test" None "gpt-3.5-turbo"
                       [mkChatMessage system STORE_KNOWLEDGE;
                        mkChatMessage user_role "Return policy?";
                        mkChatMessage assistant "Thirty days.";
                        mkChatMessage user_role "And shipping?";
                        mkChatMessage user_role "And shipping?"]
                       200 (7 # 10))].
Proof. split; vm_compute; reflexivity. Qed.

(** ** Validation *)

(** X4. The length bounds of the schema: an empty message and a message
    longer than 5000 are answered with status 400, and the world is
    untouched: no conversation is created and no message is stored. *)
Theorem out_of_bounds_message_rejected E body message w :
  ChatRouter.b_message body = ChatRouter.JString message ->
  Js.length message = 0 \/ 5000 < Js.length message ->
  ChatRouter.post_message E body w
  = (Returns (ChatRouter.mkResponse 400 ChatRouter.InvalidInputJson), w).
Proof.
  intros Hmsg Hlen. unfold ChatRouter.post_message, ChatRouter.messageSchema_parse.
  rewrite Hmsg.
  replace ((1 <=? Js.length message) && (Js.length message <=? 5000)) with false.
  - reflexivity.
  - symmetry. apply andb_false_iff. destruct Hlen as [H0|H5000].
    + left. apply Z.leb_gt. lia.
    + right. apply Z.leb_gt. lia.
Qed.

Lemma out_of_bounds_message_rejected_witness :
  ChatRouter.post_message demoEnv
    (ChatRouter.mkBody (ChatRouter.JString "") ChatRouter.JUndefined) demoWorld
  = (Returns (ChatRouter.mkResponse 400 ChatRouter.InvalidInputJson), demoWorld).
Proof.
  apply (out_of_bounds_message_rejected demoEnv
           (ChatRouter.mkBody (ChatRouter.JString "") ChatRouter.JUndefined) "" demoWorld).
  - reflexivity.
  - left. reflexivity.
Defined.

(** C3, what the code does. The schema does not trim: a message of three
    spaces has length 3, passes validation, creates a conversation and is
    stored, and the request is answered with status 200. *)
Theorem blank_message_accepted :
  Js.trim "   " = ""
  /\ result (ChatRouter.post_message demoEnv blankBody) demoWorld
     = Returns (ChatRouter.mkResponse 200 (ChatRouter.ReplyJson "Thirty days." (demoUuid 0)))
  /\ messages (db (exec (ChatRouter.post_message demoEnv blankBody) demoWorld))
     = [mkMessage (demoUuid 1) (demoUuid 0) user "   " 1700000000;
        mkMessage (demoUuid 2) (demoUuid 0) ai "Thirty days." 1700000000]
  /\ is_Some (conversations (db (exec (ChatRouter.post_message demoEnv blankBody) demoWorld))
              !! demoUuid 0).
Proof.
  repeat split; try (vm_compute; reflexivity).
  exists (mkRow 1700000000 1700000000). vm_compute. reflexivity.
Qed.

(** ** Further properties of the routes *)

(** X1. An identifier that passes the uuid check but has no conversation
    row is treated exactly like no identifier at all: the route silently
    creates a new conversation, and the whole request runs the same way. *)
Theorem unknown_session_like_none E message sid w :
  zod_uuid E sid = true ->
  conversations (db w) !! sid = None ->
  ChatRouter.post_message E (ChatRouter.mkBody (ChatRouter.JString message)
                                               (ChatRouter.JString sid)) w
  = ChatRouter.post_message E (ChatRouter.mkBody (ChatRouter.JString message)
                                                 ChatRouter.JUndefined) w.
Proof.
  intros Huuid Hnone.
  unfold ChatRouter.post_message, ChatRouter.messageSchema_parse, tryCatch. simpl.
  rewrite Huuid. destruct (_ && _); [|reflexivity].
  unfold bind at 1 5. unfold ret at 1 3. simpl.
  unfold bind at 1 6. destruct (Js.truthy sid); [|reflexivity].
  unfold bind at 1. rewrite getConversation_eq, Hnone. reflexivity.
Qed.

Lemma unknown_session_like_none_witness :
  ChatRouter.post_message demoEnv (ChatRouter.mkBody (ChatRouter.JString "Hi")
                                     (ChatRouter.JString (demoUuid 7))) demoWorld
  = ChatRouter.post_message demoEnv (ChatRouter.mkBody (ChatRouter.JString "Hi")
                                       ChatRouter.JUndefined) demoWorld.
Proof.
  apply (unknown_session_like_none demoEnv "Hi" (demoUuid 7) demoWorld).
  - reflexivity.
  - reflexivity.
Defined.

(** X2. [GET /history/:sessionId] answers 404 exactly when the identifier
    has no conversation row; for a conversation that exists it answers 200
    with the messages of that conversation in timestamp order, the empty
    list when it has none. It changes nothing. *)
Theorem get_history_spec sid w :
  (conversations (db w) !! sid = None ->
   ChatRouter.get_history sid w
   = (Returns (ChatRouter.mkResponse 404 (ChatRouter.ErrorJson "Conversation not found")), w))
  /\ (is_Some (conversations (db w) !! sid) ->
      ChatRouter.get_history sid w
      = (Returns (ChatRouter.mkResponse 200
                    (ChatRouter.MessagesJson (ConversationService.selectMessages sid (db w)))),
         w)
      /\ ((forall m, In m (messages (db w)) -> m_conversationId m <> sid) ->
          ConversationService.selectMessages sid (db w) = [])).
Proof.
  unfold ChatRouter.get_history, tryCatch, bind. rewrite getConversation_eq. split.
  - intros ->. reflexivity.
  - intros [row ->]. split; [reflexivity|]. apply selectMessages_none.
Qed.

Lemma get_history_spec_witness :
  ChatRouter.get_history (demoUuid 0)
    (exec (ConversationService.createConversation demoEnv) demoWorld)
  = (Returns (ChatRouter.mkResponse 200 (ChatRouter.MessagesJson [])),
     exec (ConversationService.createConversation demoEnv) demoWorld).
Proof.
  refine (proj1 (proj2 (get_history_spec (demoUuid 0)
                          (exec (ConversationService.createConversation demoEnv) demoWorld))
                       _)).
  exists (mkRow 1700000000 1700000000). vm_compute. reflexivity.
Defined.

Lemma errorText_truthy kind provider : Js.truthy (errorText kind provider) = true.
Proof. destruct kind; try reflexivity; destruct provider; reflexivity. Qed.

(** X3. When the backend call of a first turn fails, the request is
    answered with status 500 and the normalized message, which names the
    provider; the user message stored before the call stays stored and no
    agent message is appended. *)
Theorem provider_failure_keeps_user_message E message w cid w1 u w2 c error :
  1 <= Js.length message <= 5000 ->
  ConversationService.createConversation E w = (Returns cid, w1) ->
  ConversationService.addMessage E cid user message w1 = (Returns u, w2) ->
  requestOf E (LLMService.getProvider E) message
            (ConversationService.selectMessages cid (db w2)) = Some c ->
  answer E (List.length (calls w2)) c = inl error ->
  exists kind,
    classifies error kind
    /\ ChatRouter.post_message E (ChatRouter.mkBody (ChatRouter.JString message)
                                                    ChatRouter.JUndefined) w
       = (Returns (ChatRouter.mkResponse 500
                     (ChatRouter.ErrorJson
                        (errorText kind (providerName (LLMService.getProvider E))))),
          sent c w2)
    /\ Js.includes (errorText kind (providerName (LLMService.getProvider E)))
                   (providerName (LLMService.getProvider E)) = true
    /\ messages (db (sent c w2)) = messages (db w) ++ [u]
    /\ m_sender u = user /\ m_text u = message.
Proof.
  intros Hlen Hcreate Hadd Hreq Hans.
  destruct (history_after_append_nonempty E cid message w1 u w2 Hadd) as (Hin & Htext & Hsender).
  destruct (handleError_classifies string error (providerName (LLMService.getProvider E))
              (sent c w2)) as (kind & Hthrow & Hclass & Hincl).
  exists kind. split; [exact Hclass|]. split; [|split; [exact Hincl|split; [|split; assumption]]].
  - unfold ChatRouter.post_message, ChatRouter.messageSchema_parse, tryCatch. simpl.
    replace ((1 <=? Js.length message) && (Js.length message <=? 5000)) with true
      by (symmetry; apply andb_true_iff; split; apply Z.leb_le; lia).
    unfold bind at 1. unfold ret at 1. simpl.
    unfold bind at 1. rewrite Hcreate.
    unfold bind at 1. rewrite Hadd.
    unfold bind at 1, ConversationService.getMessages at 1. mrun.
    destruct (ConversationService.selectMessages cid (db w2)) as [|m0 history] eqn:Hhist;
      [destruct Hin|].
    rewrite nonempty_history_bypasses_cache, generateWith_eq, Hreq, Hans, Hthrow. simpl.
    unfold ChatRouter.errorHandler. simpl.
    pose proof (errorText_truthy kind (providerName (LLMService.getProvider E))) as Ht.
    destruct (errorText kind (providerName (LLMService.getProvider E))); [discriminate|].
    reflexivity.
  - simpl. rewrite createConversation_eq in Hcreate. rewrite addMessage_eq in Hadd.
    destruct (conversations (db w) !! nextId E w); [discriminate|].
    injection Hcreate as <- <-. simpl in Hadd.
    destruct (_ !! _); [|discriminate].
    destruct (existsb _ _); [discriminate|]. injection Hadd as <- <-. reflexivity.
Qed.

Lemma provider_failure_keeps_user_message_witness :
  exists kind,
    kind = RateLimited
    /\ result (ChatRouter.post_message rateLimitedEnv
                 (ChatRouter.mkBody (ChatRouter.JString "Hi") ChatRouter.JUndefined))
              demoWorld
       = Returns (ChatRouter.mkResponse 500
                    (ChatRouter.ErrorJson (errorText kind "Groq"))).
Proof.
  destruct (provider_failure_keeps_user_message rateLimitedEnv "Hi" demoWorld
              (demoUuid 0) (exec (ConversationService.createConversation rateLimitedEnv) demoWorld)
              (mkMessage (demoUuid 1) (demoUuid 0) user "Hi" 1700000000)
              (exec (ConversationService.addMessage rateLimitedEnv (demoUuid 0) user "Hi")
                    (exec (ConversationService.createConversation rateLimitedEnv) demoWorld))
              (ChatCall (mkChatRequest "gsk_test" (Some "https://api.groq.com/openai/v1")
                           "llama-3.1-8b-instant"
                           (chatPrompt [mkMessage (demoUuid 1) (demoUuid 0) user "Hi" 1700000000]
                                       "Hi") 200 (7 # 10)))
              rateLimitError)
    as (kind & (_ & H429 & _) & Hpost & _).
  - split; vm_compute; discriminate.
  - vm_compute. reflexivity.
  - vm_compute. reflexivity.
  - vm_compute. reflexivity.
  - reflexivity.
  - exists kind. split; [apply H429; reflexivity|]. unfold result. rewrite Hpost. reflexivity.
Defined.

(** ** Further properties of the store *)

Lemma orderInsert_perm r l : Permutation (ConversationService.orderInsert r l) (r :: l).
Proof.
  induction l as [|y l IH]; simpl; [reflexivity|].
  destruct (m_timestamp r <=? m_timestamp y); [reflexivity|].
  rewrite IH. apply perm_swap.
Qed.

Lemma orderByTimestamp_perm l : Permutation (ConversationService.orderByTimestamp l) l.
Proof.
  induction l as [|r l IH]; simpl; [reflexivity|].
  rewrite orderInsert_perm. apply perm_skip, IH.
Qed.

Lemma orderInsert_sorted r l :
  StronglySorted (fun a b => m_timestamp a <= m_timestamp b) l ->
  StronglySorted (fun a b => m_timestamp a <= m_timestamp b)
                 (ConversationService.orderInsert r l).
Proof.
  induction 1 as [|y l Hl IH Hy]; simpl.
  - constructor; constructor.
  - destruct (Z.leb_spec (m_timestamp r) (m_timestamp y)) as [Hle|Hgt].
    + constructor; [constructor; assumption|].
      constructor; [exact Hle|].
      eapply Forall_impl; [exact Hy|]. simpl. intros b Hb. lia.
    + constructor; [exact IH|].
      apply Forall_forall. intros b Hb.
      apply list_elem_of_In, orderInsert_In in Hb as [->|Hb]; [lia|].
      rewrite Forall_forall in Hy. apply Hy, list_elem_of_In, Hb.
Qed.

Lemma orderByTimestamp_sorted l :
  StronglySorted (fun a b => m_timestamp a <= m_timestamp b)
                 (ConversationService.orderByTimestamp l).
Proof.
  induction l as [|r l IH]; simpl; [constructor|]. apply orderInsert_sorted, IH.
Qed.

(** X5. [getMessages] never throws and changes nothing; the list it
    returns holds exactly the rows of the conversation asked for, each once
    (it is a rearrangement of those rows), in non-decreasing order of
    timestamp. *)
Theorem getMessages_sorted_own conversationId w :
  exists history,
    ConversationService.getMessages conversationId w = (Returns history, w)
    /\ StronglySorted (fun a b => m_timestamp a <= m_timestamp b) history
    /\ Permutation history
         (List.filter (fun r => String.eqb (m_conversationId r) conversationId)
                      (messages (db w)))
    /\ (forall m, In m history
                  <-> In m (messages (db w)) /\ m_conversationId m = conversationId).
Proof.
  exists (ConversationService.selectMessages conversationId (db w)).
  split; [reflexivity|]. unfold ConversationService.selectMessages.
  split; [apply orderByTimestamp_sorted|]. split; [apply orderByTimestamp_perm|].
  intros m. rewrite orderByTimestamp_In, List.filter_In, String.eqb_eq. reflexivity.
Qed.

Lemma selectMessages_same_rows conversationId convs convs' rows :
  ConversationService.selectMessages conversationId (mkDb convs rows)
  = ConversationService.selectMessages conversationId (mkDb convs' rows).
Proof. reflexivity. Qed.

Lemma selectMessages_other_row conversationId convs convs' rows m :
  m_conversationId m <> conversationId ->
  ConversationService.selectMessages conversationId (mkDb convs' (rows ++ [m]))
  = ConversationService.selectMessages conversationId (mkDb convs rows).
Proof.
  intros Hne. unfold ConversationService.selectMessages. simpl.
  rewrite List.filter_app. simpl.
  destruct (String.eqb_spec (m_conversationId m) conversationId) as [Heq|_];
    [destruct (Hne Heq)|].
  rewrite app_nil_r. reflexivity.
Qed.

(** X6. [createConversation] with an unused generated id returns that id;
    the conversation can then be looked up, with created and updated
    timestamps both equal to the clock in whole seconds, and it has no
    messages; every other conversation and its messages read as before.
    With an id already in use it throws the error of the primary key (code
    [SQLITE_CONSTRAINT_PRIMARYKEY], message
    [UNIQUE constraint failed: conversations.id]) and leaves the database
    as it was. *)
Theorem createConversation_roundtrip E w :
  let run := ConversationService.createConversation E in
  (conversations (db w) !! nextId E w = None ->
   foreignKeysHold (db w) ->
   result run w = Returns (nextId E w)
   /\ result (ConversationService.getConversation (nextId E w)) (exec run w)
      = Returns (Some (mkConversation (nextId E w) (nextStamp E w) (nextStamp E w)))
   /\ result (ConversationService.getMessages (nextId E w)) (exec run w) = Returns []
   /\ messages (db (exec run w)) = messages (db w)
   /\ forall other, other <> nextId E w ->
        result (ConversationService.getConversation other) (exec run w)
        = result (ConversationService.getConversation other) w
        /\ result (ConversationService.getMessages other) (exec run w)
           = result (ConversationService.getMessages other) w)
  /\ (is_Some (conversations (db w) !! nextId E w) ->
      result run w
      = Throws (ConversationService.sqliteConstraint "SQLITE_CONSTRAINT_PRIMARYKEY"
                         "UNIQUE constraint failed: conversations.id")
      /\ db (exec run w) = db w).
Proof.
  intros run. unfold run, result, exec. split.
  - intros Hfresh Hfk. rewrite createConversation_eq, Hfresh. simpl.
    rewrite !getConversation_eq. simpl. rewrite lookup_insert_eq. simpl.
    split; [reflexivity|]. split; [reflexivity|]. split.
    { unfold ConversationService.getMessages. mrun. f_equal.
      apply selectMessages_none. simpl. intros m Hm Hcid.
      destruct (Hfk m Hm) as [row Hrow]. rewrite Hcid, Hfresh in Hrow. discriminate. }
    split; [reflexivity|]. intros other Hother.
    rewrite !getConversation_eq. simpl. rewrite lookup_insert_ne by congruence.
    split; [reflexivity|]. unfold ConversationService.getMessages. mrun.
    destruct (db w); reflexivity.
  - intros [row Hrow]. rewrite createConversation_eq, Hrow. split; reflexivity.
Qed.

Lemma createConversation_roundtrip_witness :
  result (ConversationService.getConversation (demoUuid 0))
         (exec (ConversationService.createConversation demoEnv) demoWorld)
  = Returns (Some (mkConversation (demoUuid 0) 1700000000 1700000000)).
Proof.
  refine (proj1 (proj2 (proj1 (createConversation_roundtrip demoEnv demoWorld) _ _))).
  - reflexivity.
  - intros m [].
Defined.

(** X7. [addMessage] on one conversation is invisible from every other
    one: whatever its outcome, the row and the messages of any other
    conversation read exactly as before; and it never changes the created
    timestamp of the conversation it appends to. *)
Theorem addMessage_frame E conversationId sender text w other :
  other <> conversationId ->
  let w' := exec (ConversationService.addMessage E conversationId sender text) w in
  result (ConversationService.getConversation other) w'
  = result (ConversationService.getConversation other) w
  /\ result (ConversationService.getMessages other) w'
     = result (ConversationService.getMessages other) w
  /\ forall row,
      conversations (db w) !! conversationId = Some row ->
      exists row', conversations (db w') !! conversationId = Some row'
                   /\ created_at row' = created_at row.
Proof.
  intros Hother w'. unfold w', result, exec. rewrite addMessage_eq.
  rewrite !getConversation_eq. unfold ConversationService.getMessages. mrun.
  destruct (conversations (db w) !! conversationId) as [row|] eqn:Hrow; simpl.
  - destruct (existsb _ _); simpl.
    + repeat split. intros r [= <-]. exists row. split; [exact Hrow|reflexivity].
    + rewrite !lookup_alter. destruct (decide (conversationId = other)); [congruence|].
      split; [reflexivity|]. split.
      * f_equal. destruct (db w) as [convs rows]. simpl.
        apply selectMessages_other_row. simpl. congruence.
      * intros r [= <-]. destruct (decide (conversationId = conversationId)); [|congruence].
        rewrite Hrow. eexists. split; reflexivity.
  - repeat split. intros r [=].
Qed.

Lemma addMessage_frame_witness :
  result (ConversationService.getMessages (demoUuid 0))
         (exec (ConversationService.addMessage demoEnv (demoUuid 3) user "Hi")
               (exec (ConversationService.createConversation demoEnv) afterFirstTurn))
  = result (ConversationService.getMessages (demoUuid 0))
           (exec (ConversationService.createConversation demoEnv) afterFirstTurn).
Proof.
  refine (proj1 (proj2 (addMessage_frame demoEnv (demoUuid 3) user "Hi"
                          (exec (ConversationService.createConversation demoEnv) afterFirstTurn)
                          (demoUuid 0) _))).
  discriminate.
Defined.

Lemma runOp_append_only E op w :
  (exists added, messages (db (runOp E op w)) = messages (db w) ++ added)
  /\ forall cid row,
      conversations (db w) !! cid = Some row ->
      exists row', conversations (db (runOp E op w)) !! cid = Some row'
                   /\ created_at row' = created_at row.
Proof.
  destruct op as [|c sender text]; unfold runOp, exec.
  - rewrite createConversation_eq.
    destruct (conversations (db w) !! nextId E w) eqn:Hid; simpl.
    + split; [exists []; rewrite app_nil_r; reflexivity|]. eauto.
    + split; [exists []; rewrite app_nil_r; reflexivity|].
      intros cid row Hrow. exists row. split; [|reflexivity].
      rewrite lookup_insert_ne; [exact Hrow|]. intros <-. congruence.
  - rewrite addMessage_eq.
    destruct (conversations (db w) !! c) as [row0|] eqn:Hc; simpl.
    + destruct (existsb _ _); simpl.
      * split; [exists []; rewrite app_nil_r; reflexivity|]. eauto.
      * split; [eexists; reflexivity|].
        intros cid row Hrow. rewrite lookup_alter.
        destruct (decide (c = cid)) as [<-|_]; [|eauto].
        rewrite Hrow. eexists. split; reflexivity.
    + split; [exists []; rewrite app_nil_r; reflexivity|]. eauto.
Qed.

(** X8. The store only grows: whatever sequence of [createConversation]
    and [addMessage] calls runs, with whatever outcomes, the rows of
    [messages] that were there are still there, unchanged and in the same
    places, with the new ones after them; and every conversation that
    existed still exists with the same created timestamp. *)
Theorem store_append_only E ops w :
  (exists added, messages (db (runOps E ops w)) = messages (db w) ++ added)
  /\ forall cid row,
      conversations (db w) !! cid = Some row ->
      exists row', conversations (db (runOps E ops w)) !! cid = Some row'
                   /\ created_at row' = created_at row.
Proof.
  revert w. induction ops as [|op ops IH]; intros w.
  - split; [exists []; rewrite app_nil_r; reflexivity|]. eauto.
  - destruct (runOp_append_only E op w) as [[added1 H1] Hc1].
    destruct (IH (runOp E op w)) as [[added2 H2] Hc2]. split.
    + exists (added1 ++ added2). simpl. rewrite H2, H1, app_assoc. reflexivity.
    + intros cid row Hrow. destruct (Hc1 cid row Hrow) as (row1 & Hrow1 & Hcr1).
      destruct (Hc2 cid row1 Hrow1) as (row2 & Hrow2 & Hcr2).
      exists row2. split; [exact Hrow2|congruence].
Qed.

Lemma store_append_only_witness :
  exists row',
    conversations (db (runOps demoEnv [OpAddMessage (demoUuid 0) user "More"] afterFirstTurn))
    !! demoUuid 0 = Some row'
    /\ created_at row' = 1700000000.
Proof.
  refine (proj2 (store_append_only demoEnv [OpAddMessage (demoUuid 0) user "More"]
                   afterFirstTurn) (demoUuid 0) (mkRow 1700000000 1700000000) _).
  vm_compute. reflexivity.
Defined.

Lemma existsb_absent (id : string) (rows : list Message) :
  existsb (fun r => String.eqb (m_id r) id) rows = false -> ~ In id (List.map m_id rows).
Proof.
  induction rows as [|r rows IH]; simpl; [tauto|].
  intros H. apply orb_false_iff in H as [Hr Hrows].
  intros [Heq|Hin]; [|exact (IH Hrows Hin)].
  apply String.eqb_neq in Hr. congruence.
Qed.

Lemma runOp_ids_unique E op w :
  NoDup (List.map m_id (messages (db w))) ->
  NoDup (List.map m_id (messages (db (runOp E op w)))).
Proof.
  intros Hnd. destruct op as [|c sender text]; unfold runOp, exec.
  - rewrite createConversation_eq.
    destruct (conversations (db w) !! nextId E w); exact Hnd.
  - rewrite addMessage_eq.
    destruct (conversations (db w) !! c); [|exact Hnd].
    destruct (existsb _ _) eqn:Hex; [exact Hnd|]. simpl.
    rewrite List.map_app. simpl.
    apply (proj2 (NoDup_app _ _)). repeat split.
    + exact Hnd.
    + intros id Hin Hone. apply list_elem_of_In in Hin, Hone.
      destruct Hone as [<-|[]]. exact (existsb_absent _ _ Hex Hin).
    + apply NoDup_singleton.
Qed.

Lemma runOps_ids_unique E ops w :
  NoDup (List.map m_id (messages (db w))) ->
  NoDup (List.map m_id (messages (db (runOps E ops w)))).
Proof.
  revert w. induction ops as [|op ops IH]; intros w Hw; [exact Hw|].
  apply IH, runOp_ids_unique, Hw.
Qed.

(** X9. In every store built from the empty one by [createConversation]
    and [addMessage] calls, no two message rows share an id and every
    message row belongs to a conversation that exists. *)
Theorem store_integrity E ops r :
  NoDup (List.map m_id (messages (db (runOps E ops (initWorld r)))))
  /\ foreignKeysHold (db (runOps E ops (initWorld r))).
Proof.
  split; [|apply runOps_fk; intros ? []].
  apply runOps_ids_unique. constructor.
Qed.

(** ** Further properties of the cache *)

Lemma lowerChar_whitespace c : Js.isWhiteSpace (Js.lowerChar c) = Js.isWhiteSpace c.
Proof. destruct c as [[] [] [] [] [] [] [] []]; reflexivity. Qed.

Lemma lowerChar_idempotent c : Js.lowerChar (Js.lowerChar c) = Js.lowerChar c.
Proof. destruct c as [[] [] [] [] [] [] [] []]; reflexivity. Qed.

Lemma toLowerCase_idempotent s : Js.toLowerCase (Js.toLowerCase s) = Js.toLowerCase s.
Proof.
  induction s as [|c s IH]; simpl; [reflexivity|].
  rewrite lowerChar_idempotent, IH. reflexivity.
Qed.

Lemma trimStart_toLowerCase s :
  Js.trimStart (Js.toLowerCase s) = Js.toLowerCase (Js.trimStart s).
Proof.
  induction s as [|c s IH]; simpl; [reflexivity|].
  rewrite lowerChar_whitespace. destruct (Js.isWhiteSpace c); [exact IH|reflexivity].
Qed.

Lemma trimEnd_toLowerCase s :
  Js.trimEnd (Js.toLowerCase s) = Js.toLowerCase (Js.trimEnd s).
Proof.
  induction s as [|c s IH]; simpl; [reflexivity|].
  rewrite IH, lowerChar_whitespace.
  destruct (Js.trimEnd s); simpl; [destruct (Js.isWhiteSpace c)|]; reflexivity.
Qed.

Lemma trim_toLowerCase s : Js.trim (Js.toLowerCase s) = Js.toLowerCase (Js.trim s).
Proof. unfold Js.trim. rewrite trimStart_toLowerCase, trimEnd_toLowerCase. reflexivity. Qed.

(** X10. The cache key does not see case or surrounding white space: a
    message, its trimmed form and its lower-cased form have the same key,
    whatever the hash function; so any two messages that are equal once
    lower-cased and trimmed share a cache slot. *)
Theorem cache_key_insensitive E (s t : string) :
  CacheService.getCacheKey E (Js.trim s) = CacheService.getCacheKey E s
  /\ CacheService.getCacheKey E (Js.toLowerCase s) = CacheService.getCacheKey E s
  /\ (Js.trim (Js.toLowerCase s) = Js.trim (Js.toLowerCase t) ->
      CacheService.getCacheKey E s = CacheService.getCacheKey E t).
Proof.
  unfold CacheService.getCacheKey. split; [|split].
  - rewrite <- trim_toLowerCase, trim_idempotent, trim_toLowerCase. reflexivity.
  - rewrite toLowerCase_idempotent. reflexivity.
  - intros ->. reflexivity.
Qed.

Lemma cache_key_insensitive_witness :
  CacheService.getCacheKey demoEnv "  What's Your RETURN policy? "
  = CacheService.getCacheKey demoEnv "what's your return policy?".
Proof.
  refine (proj2 (proj2 (cache_key_insensitive demoEnv "  What's Your RETURN policy? "
                          "what's your return policy?")) _).
  reflexivity.
Defined.



(** ** Further properties of reply generation *)

Lemma generateReply_empty_history E um w :
  LLMService.generateReply E um [] w =
  match cacheHit E um [] w with
  | Some hit => (Returns hit, w)
  | None =>
      match LLMService.generateWith E (LLMService.getProvider E) um [] w with
      | (Returns reply, w1) =>
          (Returns reply,
           match redis w1 with
           | None => w1
           | Some client =>
               mkWorld (db w1) (commits w1)
                       (Some (<[CacheService.getCacheKey E um := (CacheService.TTL, reply)]> client))
                       (calls w1) (uuid_reads w1) (clock_reads w1)
           end)
      | (Throws e, w1) => (Throws e, w1)
      end
  end.
Proof.
  unfold LLMService.generateReply, cacheHit, result. simpl.
  unfold bind at 1. rewrite cache_get_total. simpl.
  assert (Hgen :
    (let* reply := LLMService.generateWith E (LLMService.getProvider E) um [] in
     let* _ := CacheService.set E um reply in ret reply) w
    = match LLMService.generateWith E (LLMService.getProvider E) um [] w with
      | (Returns reply, w1) =>
          (Returns reply,
           match redis w1 with
           | None => w1
           | Some client =>
               mkWorld (db w1) (commits w1)
                       (Some (<[CacheService.getCacheKey E um := (CacheService.TTL, reply)]> client))
                       (calls w1) (uuid_reads w1) (clock_reads w1)
           end)
      | (Throws e, w1) => (Throws e, w1)
      end).
  { unfold bind at 1.
    destruct (LLMService.generateWith E (LLMService.getProvider E) um [] w) as [[r|e] w1];
      [|reflexivity].
    unfold CacheService.set. mrun. destruct (redis w1); reflexivity. }
  destruct (match redis w with Some _ => _ | None => _ end) as [hit|]; [|exact Hgen].
  destruct (Js.truthy hit); [reflexivity|exact Hgen].
Qed.



(** X13. [generateReply] writes the cache in one case only: an empty
    history, no cache hit, a connected cache and a successful generation,
    and then it stores exactly the reply it returns, under the key of the
    message. In every other case (a failure of the provider, a cache hit,
    a history with a message in it, no cache client) the cache is left as
    it was. *)
Theorem cache_written_only_by_fresh_first_turn E um h w :
  redis (exec (LLMService.generateReply E um h) w) = redis w
  \/ (h = []
      /\ cacheHit E um h w = None
      /\ exists reply client,
          result (LLMService.generateReply E um h) w = Returns reply
          /\ redis w = Some client
          /\ redis (exec (LLMService.generateReply E um h) w)
             = Some (<[CacheService.getCacheKey E um := (CacheService.TTL, reply)]> client)).
Proof.
  unfold exec, result. destruct h as [|m h].
  - rewrite generateReply_empty_history.
    destruct (cacheHit E um [] w) as [hit|] eqn:Hhit; [left; reflexivity|].
    pose proof (generateWith_redis E (LLMService.getProvider E) um [] w) as Hredis.
    destruct (LLMService.generateWith E (LLMService.getProvider E) um [] w) as [[r|e] w1];
      simpl in *; [|left; exact Hredis].
    destruct (redis w1) as [client|] eqn:Hc; [|left; congruence].
    right. split; [reflexivity|]. split; [reflexivity|].
    exists r, client. simpl. split; [reflexivity|]. split; [congruence|reflexivity].
  - left. rewrite nonempty_history_bypasses_cache. apply generateWith_redis.
Qed.

(** X14. A variant whose credential is unusable never contacts its
    backend: it throws its configuration error, which names the environment
    variable to set, and leaves the world as it was. Unusable means: not
    set, empty, or the placeholder of the sample configuration; for Groq
    also blank or not starting with [gsk_], for OpenAI also blank or not
    starting with [sk-]. *)
Theorem unusable_key_sends_nothing E um h w :
  (GROQ_API_KEY E = None
   \/ (exists key, GROQ_API_KEY E = Some key
                   /\ (Js.trim key = "" \/ key = "your_groq_api_key_here"
                       \/ Js.startsWith key "gsk_" = false)) ->
   LLMService.generateWithGroq E um h w
   = (Throws (Js.newError (notConfigured LLMService.groq)), w)
   /\ Js.includes (notConfigured LLMService.groq) "GROQ_API_KEY" = true)
  /\ (OPENAI_API_KEY E = None
      \/ (exists key, OPENAI_API_KEY E = Some key
                      /\ (Js.trim key = "" \/ key = "your_openai_api_key_here"
                          \/ Js.startsWith key "sk-" = false)) ->
      LLMService.generateWithOpenAI E um h w
      = (Throws (Js.newError (notConfigured LLMService.openai)), w)
      /\ Js.includes (notConfigured LLMService.openai) "OPENAI_API_KEY" = true)
  /\ (GEMINI_API_KEY E = None
      \/ GEMINI_API_KEY E = Some ""
      \/ GEMINI_API_KEY E = Some "your_gemini_api_key_here" ->
      LLMService.generateWithGemini E um h w
      = (Throws (Js.newError (notConfigured LLMService.gemini)), w)
      /\ Js.includes (notConfigured LLMService.gemini) "GEMINI_API_KEY" = true).
Proof.
  split; [|split].
  - intros Hkey. split; [|reflexivity].
    change (LLMService.generateWithGroq E um h w)
      with (LLMService.generateWith E LLMService.groq um h w).
    rewrite generateWith_eq. unfold requestOf, groqKey.
    destruct Hkey as [-> | (key & -> & Hbad)]; [reflexivity|].
    destruct Hbad as [Hblank | [-> | Hprefix]].
    + rewrite Hblank. simpl. rewrite orb_true_r. reflexivity.
    + rewrite !orb_true_r. reflexivity.
    + rewrite Hprefix. simpl. rewrite !orb_true_r. reflexivity.
  - intros Hkey. split; [|reflexivity].
    change (LLMService.generateWithOpenAI E um h w)
      with (LLMService.generateWith E LLMService.openai um h w).
    rewrite generateWith_eq. unfold requestOf, openaiKey.
    destruct Hkey as [-> | (key & -> & Hbad)]; [reflexivity|].
    destruct Hbad as [Hblank | [-> | Hprefix]].
    + rewrite Hblank. simpl. rewrite andb_false_r. reflexivity.
    + rewrite andb_false_r. reflexivity.
    + rewrite Hprefix. simpl. rewrite !andb_false_r. reflexivity.
  - intros Hkey. split; [|reflexivity].
    change (LLMService.generateWithGemini E um h w)
      with (LLMService.generateWith E LLMService.gemini um h w).
    rewrite generateWith_eq. unfold requestOf, geminiKey.
    destruct Hkey as [-> | [-> | ->]]; reflexivity.
Qed.

Lemma unusable_key_sends_nothing_witness :
  LLMService.generateWithGroq badKeyEnv "Hi" [] demoWorld
  = (Throws (Js.newError (notConfigured LLMService.groq)), demoWorld).
Proof.
  refine (proj1 (proj1 (unusable_key_sends_nothing badKeyEnv "Hi" [] demoWorld) _)).
  right. exists "sk-wrong". split; [reflexivity|]. right. right. reflexivity.
Defined.

Lemma requestOf_bounded E p um h c : requestOf E p um h = Some c -> boundedRequest um c.
Proof.
  assert (Hchat : forall key url model,
    boundedRequest um (ChatCall (mkChatRequest key url model
                                   (chatPrompt (Js.sliceLast 10 h) um) 200 (7 # 10)))).
  { intros key url model. simpl. split; [reflexivity|]. unfold chatPrompt.
    split; [|split; [reflexivity|]].
    - cbn [List.length]. rewrite length_app, length_map, sliceLast_length.
      cbn [List.length]. lia.
    - change (mkChatMessage system STORE_KNOWLEDGE
              :: List.map (fun msg => mkChatMessage (LLMService.roleOf (m_sender msg)) (m_text msg))
                          (Js.sliceLast 10 h) ++ [mkChatMessage user_role um])
        with ((mkChatMessage system STORE_KNOWLEDGE
               :: List.map (fun msg => mkChatMessage (LLMService.roleOf (m_sender msg))
                                                     (m_text msg))
                           (Js.sliceLast 10 h)) ++ [mkChatMessage user_role um]).
      apply last_snoc. }
  unfold requestOf. destruct p.
  - destruct (openaiKey E); [|discriminate]. intros [= <-]. apply Hchat.
  - destruct (groqKey E); [|discriminate]. intros [= <-]. apply Hchat.
  - destruct (geminiKey E); [|discriminate]. intros [= <-].
    split; [reflexivity|].
    change (Js.startsWith (geminiPrompt (Js.sliceLast 10 h) um) STORE_KNOWLEDGE = true).
    unfold geminiPrompt. rewrite append_assoc. apply startsWith_append.
Qed.

Lemma generateReply_calls E um h w :
  calls (exec (LLMService.generateReply E um h) w) = calls w
  \/ calls (exec (LLMService.generateReply E um h) w)
     = calls (exec (LLMService.generateWith E (LLMService.getProvider E) um h) w).
Proof.
  unfold exec. destruct h as [|m h].
  - rewrite generateReply_empty_history.
    destruct (cacheHit E um [] w); [left; reflexivity|]. right.
    destruct (LLMService.generateWith E (LLMService.getProvider E) um [] w) as [[r|e] w1];
      [|reflexivity].
    simpl. destruct (redis w1); reflexivity.
  - right. rewrite nonempty_history_bypasses_cache. reflexivity.
Qed.

(** X15. One call of [generateReply] contacts a backend at most once (there
    is no retry), and the request it sends is bounded whatever the length
    of the history: at most 200 output tokens, the system text first, and
    for the chat backends between 2 and 12 messages ending with the new
    user message. *)
Theorem at_most_one_bounded_request E um h w :
  calls (exec (LLMService.generateReply E um h) w) = calls w
  \/ exists c,
      calls (exec (LLMService.generateReply E um h) w) = calls w ++ [c]
      /\ boundedRequest um c.
Proof.
  destruct (generateReply_calls E um h w) as [Hsame|Hwith]; [left; exact Hsame|].
  rewrite Hwith. clear Hwith.
  destruct (requestOf E (LLMService.getProvider E) um h) as [c|] eqn:Hreq.
  - right. exists c. split; [apply generateWith_calls, Hreq|].
    eapply requestOf_bounded, Hreq.
  - left. unfold exec. rewrite generateWith_eq, Hreq. reflexivity.
Qed.

(** ** Further properties of the message route *)

Lemma messageSchema_parse_world E body w :
  (ChatRouter.messageSchema_parse E body w).2 = w.
Proof.
  unfold ChatRouter.messageSchema_parse.
  destruct (ChatRouter.b_message body); try reflexivity.
  destruct (_ && _); [|reflexivity].
  destruct (ChatRouter.b_sessionId body) as [|sid|]; try reflexivity.
  destruct (zod_uuid E sid); reflexivity.
Qed.

(** Whatever relation between worlds is reflexive, transitive and kept by
    the three operations the route is made of, is kept by the route. *)
Lemma post_message_preserves E (P : World -> World -> Prop) :
  (forall w, P w w) ->
  (forall a b c, P a b -> P b c -> P a c) ->
  (forall w, P w (ConversationService.createConversation E w).2) ->
  (forall cid sender text w, P w (ConversationService.addMessage E cid sender text w).2) ->
  (forall um h w, P w (LLMService.generateReply E um h w).2) ->
  forall body w, P w (exec (ChatRouter.post_message E body) w).
Proof.
  intros Hrefl Htrans Hcreate Hadd Hgen body w.
  unfold exec, ChatRouter.post_message, tryCatch.
  match goal with
  | |- context [match ?m w with _ => _ end] =>
      assert (Hinner : P w (m w).2);
      [|destruct (m w) as [[resp|e] w1]; simpl in *;
        [exact Hinner|destruct (Js.isZodError e); exact Hinner]]
  end.
  unfold bind at 1.
  pose proof (messageSchema_parse_world E body w) as Hparse.
  destruct (ChatRouter.messageSchema_parse E body w) as [[[message sessionId]|e] w0];
    simpl in Hparse; subst w0; [|apply Hrefl].
  simpl. unfold bind at 1.
  match goal with
  | |- context [match ?m w with _ => _ end] =>
      assert (Hcid : P w (m w).2);
      [|destruct (m w) as [[cid|e] w2]; simpl in Hcid; [|exact Hcid]]
  end.
  { destruct sessionId as [sid|]; [|apply Hcreate].
    destruct (Js.truthy sid); [|apply Hcreate].
    unfold bind. rewrite getConversation_eq.
    destruct (conversations (db w) !! sid); simpl; [apply Hrefl|apply Hcreate]. }
  unfold bind at 1.
  pose proof (Hadd cid user message w2) as Hu.
  destruct (ConversationService.addMessage E cid user message w2) as [[u|e] w3];
    simpl in Hu; [|exact (Htrans _ _ _ Hcid Hu)].
  unfold bind at 1, ConversationService.getMessages at 1. mrun.
  pose proof (Hgen message (ConversationService.selectMessages cid (db w3)) w3) as Hg.
  destruct (LLMService.generateReply E message (ConversationService.selectMessages cid (db w3)) w3)
    as [[reply|e] w5]; simpl in Hg;
    [|exact (Htrans _ _ _ Hcid (Htrans _ _ _ Hu Hg))].
  pose proof (Hadd cid ai reply w5) as Ha.
  destruct (ConversationService.addMessage E cid ai reply w5) as [[a|e] w6]; simpl in *;
    exact (Htrans _ _ _ Hcid (Htrans _ _ _ Hu (Htrans _ _ _ Hg Ha))).
Qed.

Lemma generateReply_db E um h w : db (LLMService.generateReply E um h w).2 = db w.
Proof. apply generateReply_sameStore. Qed.

Lemma addMessage_ids_unique E cid sender text w :
  NoDup (List.map m_id (messages (db w))) ->
  NoDup (List.map m_id (messages (db (ConversationService.addMessage E cid sender text w).2))).
Proof. apply (runOp_ids_unique E (OpAddMessage cid sender text)). Qed.

Lemma createConversation_messages E w :
  messages (db (ConversationService.createConversation E w).2) = messages (db w).
Proof.
  rewrite createConversation_eq. destruct (conversations (db w) !! nextId E w); reflexivity.
Qed.

Lemma post_message_integrity E body w :
  (NoDup (List.map m_id (messages (db w))) ->
   NoDup (List.map m_id (messages (db (exec (ChatRouter.post_message E body) w)))))
  /\ (foreignKeysHold (db w) ->
      foreignKeysHold (db (exec (ChatRouter.post_message E body) w)))
  /\ (clockMonotone E -> timestampsOrdered E w ->
      timestampsOrdered E (exec (ChatRouter.post_message E body) w)).
Proof.
  split; [|split].
  - apply (post_message_preserves E
             (fun a b => NoDup (List.map m_id (messages (db a))) ->
                         NoDup (List.map m_id (messages (db b))))); try tauto.
    + intros w0. rewrite createConversation_messages. tauto.
    + intros cid sender text w0. apply addMessage_ids_unique.
    + intros um h w0. rewrite generateReply_db. tauto.
  - apply (post_message_preserves E
             (fun a b => foreignKeysHold (db a) -> foreignKeysHold (db b))); try tauto.
    + intros w0. apply createConversation_fk.
    + intros cid sender text w0. apply addMessage_fk.
    + intros um h w0. rewrite generateReply_db. tauto.
  - intros Hclock.
    apply (post_message_preserves E
             (fun a b => timestampsOrdered E a -> timestampsOrdered E b)); try tauto.
    + intros w0. apply (createConversation_ordered E Hclock).
    + intros cid sender text w0. apply (addMessage_ordered E Hclock).
    + intros um h w0.
      destruct (generateReply_sameStore E um h w0) as (Hdb & _ & _ & Hck).
      unfold timestampsOrdered. rewrite Hdb, Hck. tauto.
Qed.

(** X16. Serving any sequence of [POST /message] requests from an empty
    store, whatever their outcomes, keeps the store sound: no two message
    rows share an id, every message row belongs to an existing
    conversation and, when the clock never steps backwards, every
    conversation has [updated_at] at least [created_at] and at least the
    timestamp of each of its messages. *)
Theorem served_store_integrity E bodies r :
  let w := serveAll E bodies (initWorld r) in
  NoDup (List.map m_id (messages (db w)))
  /\ foreignKeysHold (db w)
  /\ (clockMonotone E ->
      forall cid row,
        conversations (db w) !! cid = Some row ->
        created_at row <= updated_at row
        /\ forall m, In m (messages (db w)) -> m_conversationId m = cid ->
                     m_timestamp m <= updated_at row).
Proof.
  intros w. unfold w.
  assert (Hall : forall w0,
    NoDup (List.map m_id (messages (db w0))) /\ foreignKeysHold (db w0)
    /\ (clockMonotone E -> timestampsOrdered E w0) ->
    NoDup (List.map m_id (messages (db (serveAll E bodies w0))))
    /\ foreignKeysHold (db (serveAll E bodies w0))
    /\ (clockMonotone E -> timestampsOrdered E (serveAll E bodies w0))).
  { induction bodies as [|body bodies IH]; intros w0 Hw0; [exact Hw0|].
    apply IH. destruct Hw0 as (Hnd & Hfk & Hord).
    destruct (post_message_integrity E body w0) as (Hnd' & Hfk' & Hord').
    split; [exact (Hnd' Hnd)|]. split; [exact (Hfk' Hfk)|].
    intros Hclock. exact (Hord' Hclock (Hord Hclock)). }
  destruct (Hall (initWorld r)) as (Hnd & Hfk & Hord).
  { split; [constructor|]. split; [intros ? []|]. intros _. apply initWorld_ordered. }
  split; [exact Hnd|]. split; [exact Hfk|].
  intros Hclock cid row Hrow. destruct (Hord Hclock) as [Hconv _].
  destruct (Hconv cid row Hrow) as (Hc & _ & Hm). split; assumption.
Qed.

Lemma served_store_integrity_witness :
  1700000000 <= 1700000004
  /\ forall m, In m (messages (db (serveAll slowEnv [firstBody; followUpBody] demoWorld))) ->
               m_conversationId m = demoUuid 0 ->
               m_timestamp m <= 1700000004.
Proof.
  refine (proj2 (proj2 (served_store_integrity slowEnv [firstBody; followUpBody] (Some ∅)))
            slowEnv_monotone (demoUuid 0) (mkRow 1700000000 1700000004) _).
  vm_compute. reflexivity.
Defined.

Lemma idsGenerated_refl E w : idsGenerated E w w.
Proof. split; [lia|]. intros cid H. left. exact H. Qed.

Lemma idsGenerated_trans E a b c :
  idsGenerated E a b -> idsGenerated E b c -> idsGenerated E a c.
Proof.
  intros [Hab Hdab] [Hbc Hdbc]. split; [lia|].
  intros cid Hc. destruct (Hdbc cid Hc) as [Hb|(k & Hk & ->)].
  - destruct (Hdab cid Hb) as [Ha|(k & Hk & ->)]; [left; exact Ha|].
    right. exists k. split; [lia|reflexivity].
  - right. exists k. split; [lia|reflexivity].
Qed.

Lemma createConversation_idsGenerated E w :
  idsGenerated E w (ConversationService.createConversation E w).2.
Proof.
  rewrite createConversation_eq.
  destruct (conversations (db w) !! nextId E w) eqn:Hid; simpl.
  - split; [simpl; lia|]. intros cid H. left. exact H.
  - split; [simpl; lia|]. intros cid. simpl. rewrite lookup_insert.
    destruct (decide (nextId E w = cid)) as [<-|_]; [|tauto].
    intros _. right. exists (uuid_reads w). split; [lia|reflexivity].
Qed.

Lemma addMessage_idsGenerated E cid sender text w :
  idsGenerated E w (ConversationService.addMessage E cid sender text w).2.
Proof.
  rewrite addMessage_eq.
  destruct (conversations (db w) !! cid) as [row|] eqn:Hrow; simpl.
  - destruct (existsb _ _); simpl.
    + split; [simpl; lia|]. intros c H. left. exact H.
    + split; [simpl; lia|]. intros c. simpl. rewrite lookup_alter.
      destruct (decide (cid = c)) as [<-|_]; [|tauto].
      intros _. left. rewrite Hrow. eexists. reflexivity.
  - split; [simpl; lia|]. intros c H. left. exact H.
Qed.

Lemma generateReply_idsGenerated E um h w :
  idsGenerated E w (LLMService.generateReply E um h w).2.
Proof.
  destruct (generateReply_sameStore E um h w) as (Hdb & _ & Hu & _).
  split; [lia|]. intros cid. rewrite Hdb. tauto.
Qed.

(** X17. A conversation is only ever created under an id drawn from the
    uuid generator while the request is served: after [POST /message],
    every conversation either existed before or carries such an id. In
    particular the identifier a client sends is never adopted: an unknown
    [sessionId] still names no conversation after the request, so sending
    it again starts yet another conversation. *)
Theorem conversation_ids_are_generated E body w :
  let w' := exec (ChatRouter.post_message E body) w in
  (forall cid,
      is_Some (conversations (db w') !! cid) ->
      is_Some (conversations (db w) !! cid)
      \/ exists k, (uuid_reads w <= k < uuid_reads w')%nat /\ cid = uuidv4 E k)
  /\ (forall sid,
        conversations (db w) !! sid = None ->
        (forall k, uuidv4 E k <> sid) ->
        conversations (db w') !! sid = None).
Proof.
  intros w'.
  assert (Hgen : idsGenerated E w w').
  { apply (post_message_preserves E (idsGenerated E)).
    - apply idsGenerated_refl.
    - apply idsGenerated_trans.
    - apply createConversation_idsGenerated.
    - apply addMessage_idsGenerated.
    - apply generateReply_idsGenerated. }
  destruct Hgen as [_ Hdom]. split; [exact Hdom|].
  intros sid Hnone Hfresh.
  destruct (conversations (db w') !! sid) as [row|] eqn:Hrow; [|reflexivity].
  destruct (Hdom sid) as [[r Hr]|(k & _ & Hk)].
  - rewrite Hrow. eexists. reflexivity.
  - congruence.
  - destruct (Hfresh k). congruence.
Qed.

Lemma conversation_ids_are_generated_witness :
  conversations
    (db (exec (ChatRouter.post_message demoEnv
                 (ChatRouter.mkBody (ChatRouter.JString "Hi")
                                    (ChatRouter.JString "stale-session-id")))
              afterFirstTurn))
  !! "stale-session-id" = None.
Proof.
  refine (proj2 (conversation_ids_are_generated demoEnv
                   (ChatRouter.mkBody (ChatRouter.JString "Hi")
                                      (ChatRouter.JString "stale-session-id"))
                   afterFirstTurn) "stale-session-id" _ _).
  - reflexivity.
  - intros k H. cbv [demoEnv uuidv4 demoUuid String.append] in H. discriminate H.
Defined.

Lemma bind_throws {A B} (m : M A) (k : A -> M B) w e w' :
  bind m k w = (Throws e, w') ->
  m w = (Throws e, w')
  \/ exists a w1, m w = (Returns a, w1) /\ k a w1 = (Throws e, w').
Proof.
  unfold bind. destruct (m w) as [[a|e0] w1].
  - intros H. right. exists a, w1. split; [reflexivity|exact H].
  - intros [= <- <-]. left. reflexivity.
Qed.

Lemma createConversation_throw_not_zod E w e w' :
  ConversationService.createConversation E w = (Throws e, w') -> Js.isZodError e = false.
Proof.
  rewrite createConversation_eq.
  destruct (conversations (db w) !! nextId E w); [|discriminate].
  intros [= <- _]. reflexivity.
Qed.

Lemma addMessage_throw_not_zod E cid sender text w e w' :
  ConversationService.addMessage E cid sender text w = (Throws e, w') ->
  Js.isZodError e = false.
Proof.
  rewrite addMessage_eq.
  destruct (conversations (db w) !! cid).
  - destruct (existsb _ _); [|discriminate]. intros [= <- _]. reflexivity.
  - intros [= <- _]. reflexivity.
Qed.

Lemma generateWith_throw_not_zod E p um h w e w' :
  LLMService.generateWith E p um h w = (Throws e, w') -> Js.isZodError e = false.
Proof.
  rewrite generateWith_eq.
  destruct (requestOf E p um h) as [c|]; [|intros [= <- _]; reflexivity].
  destruct (answer E _ c) as [e0|content].
  - destruct (handleError_classifies string e0 (providerName p) (sent c w)) as (kind & -> & _).
    intros [= <- _]. reflexivity.
  - destruct (Js.truthy _); [discriminate|]. intros [= <- _]. reflexivity.
Qed.

Lemma generateReply_throw_not_zod E um h w e w' :
  LLMService.generateReply E um h w = (Throws e, w') -> Js.isZodError e = false.
Proof.
  destruct h as [|m h].
  - rewrite generateReply_empty_history.
    destruct (cacheHit E um [] w); [discriminate|].
    destruct (LLMService.generateWith E (LLMService.getProvider E) um [] w)
      as [[r|e0] w1] eqn:Hwith; [discriminate|].
    intros [= <- _]. eapply generateWith_throw_not_zod, Hwith.
  - rewrite nonempty_history_bypasses_cache. apply generateWith_throw_not_zod.
Qed.

Lemma orStr_nonempty o d : d <> "" -> Js.orStr o d <> "".
Proof.
  intros Hd. destruct o as [s|]; simpl; [|exact Hd].
  destruct s; simpl; [exact Hd|discriminate].
Qed.

(** X18. [POST /message] always answers and never lets an exception out.
    When the body fails validation the answer is status 400 with
    [Invalid input], and nothing at all has changed. When it passes, the
    answer is either status 200 with a reply and a session id, or status
    500 with a non-empty error text. *)
Theorem post_message_always_responds E body w :
  exists resp w',
    ChatRouter.post_message E body w = (Returns resp, w')
    /\ match result (ChatRouter.messageSchema_parse E body) w with
       | Throws _ => resp = ChatRouter.mkResponse 400 ChatRouter.InvalidInputJson /\ w' = w
       | Returns _ =>
           (exists reply sid,
               resp = ChatRouter.mkResponse 200 (ChatRouter.ReplyJson reply sid))
           \/ (exists msg,
                 resp = ChatRouter.mkResponse 500 (ChatRouter.ErrorJson msg) /\ msg <> "")
       end.
Proof.
  unfold ChatRouter.post_message, tryCatch, result. unfold bind at 1.
  pose proof (messageSchema_parse_world E body w) as Hworld.
  destruct (ChatRouter.messageSchema_parse E body w) as [[parsed|e0] w0] eqn:Hparse;
    simpl in Hworld; subst w0; simpl.
  - match goal with
    | |- context [match ?m w with _ => _ end] => destruct (m w) as [[resp|e] w1] eqn:Hrest
    end.
    + exists resp, w1. split; [reflexivity|]. left.
      apply bind_returns in Hrest as (cid & w2 & _ & Hrest).
      apply bind_returns in Hrest as (u & w3 & _ & Hrest).
      apply bind_returns in Hrest as (history & w4 & _ & Hrest).
      apply bind_returns in Hrest as (reply & w5 & _ & Hrest).
      apply bind_returns in Hrest as (a & w6 & _ & Hrest).
      unfold ret in Hrest. injection Hrest as <- _. eauto.
    + assert (Hzod : Js.isZodError e = false).
      { apply bind_throws in Hrest as [Hcid|(cid & w2 & _ & Hrest)].
        - destruct (snd parsed) as [sid|]; [|eapply createConversation_throw_not_zod, Hcid].
          destruct (Js.truthy sid); [|eapply createConversation_throw_not_zod, Hcid].
          apply bind_throws in Hcid as [Hget|(conv & w2 & _ & Hcid)].
          + rewrite getConversation_eq in Hget. discriminate.
          + destruct conv; [discriminate|eapply createConversation_throw_not_zod, Hcid].
        - apply bind_throws in Hrest as [Hu|(u & w3 & _ & Hrest)];
            [eapply addMessage_throw_not_zod, Hu|].
          apply bind_throws in Hrest as [Hh|(history & w4 & _ & Hrest)];
            [discriminate|].
          apply bind_throws in Hrest as [Hg|(reply & w5 & _ & Hrest)];
            [eapply generateReply_throw_not_zod, Hg|].
          apply bind_throws in Hrest as [Ha|(a & w6 & _ & Hrest)];
            [eapply addMessage_throw_not_zod, Ha|discriminate]. }
      rewrite Hzod. eexists _, w1. split; [reflexivity|]. right.
      eexists. split; [reflexivity|]. apply orStr_nonempty. discriminate.
  - assert (Hzod : e0 = ChatRouter.ZodError).
    { unfold ChatRouter.messageSchema_parse in Hparse.
      destruct (ChatRouter.b_message body); try (injection Hparse as <-; reflexivity).
      destruct (_ && _); [|injection Hparse as <-; reflexivity].
      destruct (ChatRouter.b_sessionId body) as [|sid|];
        try discriminate; try (injection Hparse as <-; reflexivity).
      destruct (zod_uuid E sid); [discriminate|injection Hparse as <-; reflexivity]. }
    subst e0. simpl. eexists _, w. split; [reflexivity|]. split; reflexivity.
Qed.

Lemma rows_of_absent_conversation conversationId (rows : list Message) :
  (forall m, In m rows -> m_conversationId m <> conversationId) ->
  List.filter (fun r => String.eqb (m_conversationId r) conversationId) rows = [].
Proof.
  intros H. induction rows as [|r rows IH]; [reflexivity|]. simpl.
  destruct (String.eqb_spec (m_conversationId r) conversationId) as [Heq|_].
  - destruct (H r (or_introl eq_refl) Heq).
  - apply IH. intros m Hm. apply H. right. exact Hm.
Qed.

Lemma post_message_new E message w reply sid w' :
  ChatRouter.post_message E (ChatRouter.mkBody (ChatRouter.JString message)
                                               ChatRouter.JUndefined) w
  = (Returns (ChatRouter.mkResponse 200 (ChatRouter.ReplyJson reply sid)), w') ->
  1 <= Js.length message <= 5000
  /\ exists w1 u w3 w5 a,
      ConversationService.createConversation E w = (Returns sid, w1)
      /\ ConversationService.addMessage E sid user message w1 = (Returns u, w3)
      /\ LLMService.generateReply E message (ConversationService.selectMessages sid (db w3)) w3
         = (Returns reply, w5)
      /\ ConversationService.addMessage E sid ai reply w5 = (Returns a, w').
Proof.
  unfold ChatRouter.post_message, tryCatch.
  match goal with
  | |- context [match ?m w with _ => _ end] => destruct (m w) as [[resp|e] w1] eqn:Hinner
  end.
  2:{ destruct (Js.isZodError e); unfold ChatRouter.errorHandler, ret; intros [= ]. }
  intros [= -> ->].
  apply bind_returns in Hinner as (parsed & w0 & Hparse & Hinner).
  unfold ChatRouter.messageSchema_parse in Hparse. simpl in Hparse.
  destruct ((1 <=? Js.length message) && (Js.length message <=? 5000)) eqn:Hlen;
    [|discriminate].
  unfold ret in Hparse. injection Hparse as <- <-. simpl in Hinner.
  apply bind_returns in Hinner as (cid & w2 & Hcid & Hinner).
  apply bind_returns in Hinner as (u & w3 & Hu & Hinner).
  apply bind_returns in Hinner as (history & w4 & Hh & Hinner).
  unfold ConversationService.getMessages in Hh. mrun. injection Hh as <- <-.
  apply bind_returns in Hinner as (reply0 & w5 & Hr & Hinner).
  apply bind_returns in Hinner as (a & w6 & Ha & Hinner).
  unfold ret in Hinner. injection Hinner as <- <- <-.
  apply andb_true_iff in Hlen as [H1 H2]. apply Z.leb_le in H1, H2.
  split; [lia|]. exists w2, u, w3, w5, a. repeat split; assumption.
Qed.

(** X19. A successful [POST /message] without a session id opens a new
    conversation: the id returned is the freshly generated one and named no
    conversation before; the conversation now exists, created at the clock
    reading of the request; exactly two messages were stored, the user
    message with the submitted text and the agent message with the reply,
    both under that id; the reply is not empty and carries no white space
    at its ends; and, the store being sound and the clock not having
    stepped back between the two messages, the history endpoint then
    returns exactly these two messages, user first. *)
Theorem first_turn_opens_conversation E message w reply sid w' :
  ChatRouter.post_message E (ChatRouter.mkBody (ChatRouter.JString message)
                                               ChatRouter.JUndefined) w
  = (Returns (ChatRouter.mkResponse 200 (ChatRouter.ReplyJson reply sid)), w') ->
  let u := mkMessage (uuidv4 E (S (uuid_reads w))) sid user message
                     (Date_now E (S (clock_reads w)) / 1000) in
  let a := mkMessage (uuidv4 E (S (S (uuid_reads w)))) sid ai reply
                     (Date_now E (S (S (clock_reads w))) / 1000) in
  sid = uuidv4 E (uuid_reads w)
  /\ conversations (db w) !! sid = None
  /\ conversations (db w') !! sid
     = Some (mkRow (Date_now E (clock_reads w) / 1000) (m_timestamp a))
  /\ messages (db w') = messages (db w) ++ [u; a]
  /\ wellTrimmed reply
  /\ (foreignKeysHold (db w) -> m_timestamp u <= m_timestamp a ->
      ChatRouter.get_history sid w'
      = (Returns (ChatRouter.mkResponse 200 (ChatRouter.MessagesJson [u; a])), w')).
Proof.
  intros Hpost u a.
  destruct (post_message_new E message w reply sid w' Hpost)
    as (_ & w1 & u0 & w3 & w5 & a0 & Hcreate & Hu & Hgen & Ha).
  rewrite createConversation_eq in Hcreate. unfold nextId, nextStamp in Hcreate.
  destruct (conversations (db w) !! uuidv4 E (uuid_reads w)) eqn:Hfresh; [discriminate|].
  simpl in Hcreate. injection Hcreate as <- <-.
  rewrite addMessage_eq in Hu. unfold nextId, nextStamp in Hu. simpl in Hu.
  rewrite lookup_insert_eq in Hu.
  destruct (existsb _ _); [discriminate|]. injection Hu as <- <-.
  assert (Htrim : wellTrimmed reply).
  { pose proof (history_after_append_nonempty) as Hne. clear Hne.
    destruct (ConversationService.selectMessages _ _) as [|m0 history] eqn:Hhist.
    - exfalso. revert Hhist. unfold ConversationService.selectMessages. simpl.
      rewrite List.filter_app. simpl. rewrite String.eqb_refl.
      intros Hnil. apply (f_equal (@List.length Message)) in Hnil.
      rewrite orderByTimestamp_length, length_app in Hnil. simpl in Hnil. lia.
    - rewrite nonempty_history_bypasses_cache in Hgen.
      eapply generateWith_trimmed, Hgen. }
  match type of Hgen with
  | LLMService.generateReply _ _ ?h ?w0 = _ =>
      pose proof (generateReply_sameStore E message h w0) as Hs
  end.
  rewrite Hgen in Hs. destruct Hs as (Hdb & _ & Huuid & Hclock).
  simpl in Hdb, Huuid, Hclock.
  rewrite addMessage_eq in Ha. unfold nextId, nextStamp in Ha.
  rewrite Hdb, Huuid, Hclock in Ha. simpl in Ha.
  rewrite lookup_alter in Ha.
  destruct (decide (uuidv4 E (uuid_reads w) = uuidv4 E (uuid_reads w))); [|congruence].
  rewrite lookup_insert_eq in Ha. simpl in Ha.
  destruct (existsb _ _); [discriminate|]. injection Ha as _ Hw'.
  assert (Hconv : conversations (db w') !! uuidv4 E (uuid_reads w)
                  = Some (mkRow (Date_now E (clock_reads w) / 1000) (m_timestamp a))).
  { rewrite <- Hw'. simpl. rewrite !lookup_alter.
    destruct (decide (uuidv4 E (uuid_reads w) = uuidv4 E (uuid_reads w))); [|congruence].
    rewrite lookup_insert_eq. reflexivity. }
  assert (Hmsgs : messages (db w') = messages (db w) ++ [u; a]).
  { rewrite <- Hw'. simpl. rewrite <- app_assoc. reflexivity. }
  clear Hw'.
  split; [reflexivity|]. split; [exact Hfresh|]. split; [exact Hconv|].
  split; [exact Hmsgs|]. split; [exact Htrim|].
  intros Hfk Hua. unfold ChatRouter.get_history, tryCatch, bind.
  rewrite getConversation_eq, Hconv. simpl.
  unfold ConversationService.getMessages. mrun.
  unfold ConversationService.selectMessages. rewrite Hmsgs.
  destruct (selectMessages_two_more (uuidv4 E (uuid_reads w)) ∅ ∅ (messages (db w)) u a
              eq_refl eq_refl) as [Hf _].
  rewrite Hf, rows_of_absent_conversation.
  2:{ intros m Hm Heq. destruct (Hfk m Hm) as [row Hrow]. rewrite Heq in Hrow. congruence. }
  apply Z.leb_le in Hua. simpl in Hua. simpl. rewrite Hua. reflexivity.
Qed.

Lemma first_turn_opens_conversation_witness :
  conversations (db demoWorld) !! demoUuid 0 = None
  /\ messages (db afterFirstTurn)
     = [mkMessage (demoUuid 1) (demoUuid 0) user "Return policy?" 1700000000;
        mkMessage (demoUuid 2) (demoUuid 0) ai "Thirty days." 1700000000]
  /\ ChatRouter.get_history (demoUuid 0) afterFirstTurn
     = (Returns (ChatRouter.mkResponse 200 (ChatRouter.MessagesJson
          [mkMessage (demoUuid 1) (demoUuid 0) user "Return policy?" 1700000000;
           mkMessage (demoUuid 2) (demoUuid 0) ai "Thirty days." 1700000000])),
        afterFirstTurn).
Proof.
  destruct (first_turn_opens_conversation demoEnv "Return policy?" demoWorld
              "Thirty days." (demoUuid 0) afterFirstTurn)
    as (_ & Hfresh & _ & Hrows & _ & Hhistory).
  - vm_compute. reflexivity.
  - split; [exact Hfresh|]. split; [exact Hrows|].
    apply Hhistory.
    + intros m [].
    + vm_compute. discriminate.
Defined.

(** ** The Redis connection *)

Lemma getRedisClient_connected C s client :
  RedisConnection.redisClient s = Some client ->
  RedisConnection.getRedisClient C s = Some (Some client, s).
Proof. unfold RedisConnection.getRedisClient. intros ->. reflexivity. Qed.

Lemma getRedisClient_times_connected C n s client :
  RedisConnection.redisClient s = Some client ->
  RedisConnection.getRedisClient_times C n s = Some (replicate n (Some client), s).
Proof.
  intros Hs. induction n as [|n IH]; [reflexivity|]. simpl.
  rewrite (getRedisClient_connected C s client Hs), IH. reflexivity.
Qed.

(** X20. The Redis client is a singleton: once a call of [getRedisClient]
    has returned a client, every later call returns that same client, and
    none of them opens a connection again. The client returned is the one
    kept in [redisClient]; when the call had to connect, it made exactly one
    attempt, which went through, with the URL options when [REDIS_URL] is
    set. *)
Theorem redis_client_is_reused C s client s1 n :
  RedisConnection.getRedisClient C s = Some (Some client, s1) ->
  RedisConnection.getRedisClient_times C n s1 = Some (replicate n (Some client), s1)
  /\ RedisConnection.redisClient s1 = Some client
  /\ (RedisConnection.redisClient s = None ->
      RedisConnection.attempts s1 = S (RedisConnection.attempts s)
      /\ RedisConnection.connects C (RedisConnection.attempts s) (snd client)
         = RedisConnection.Connected
      /\ forall url, RedisConnection.REDIS_URL C = Some url -> url <> "" ->
                     snd client = RedisConnection.UrlOptions url).
Proof.
  intros Hget.
  assert (Hkept : RedisConnection.redisClient s1 = Some client
                  /\ (RedisConnection.redisClient s = None ->
                      RedisConnection.attempts s1 = S (RedisConnection.attempts s)
                      /\ RedisConnection.connects C (RedisConnection.attempts s) (snd client)
                         = RedisConnection.Connected
                      /\ forall url, RedisConnection.REDIS_URL C = Some url -> url <> "" ->
                                     snd client = RedisConnection.UrlOptions url)).
  { revert Hget. unfold RedisConnection.getRedisClient.
    destruct (RedisConnection.redisClient s) as [c|] eqn:Hc.
    - intros [= -> <-]. split; [exact Hc|]. discriminate.
    - destruct (_ && _); [discriminate|].
      destruct (RedisConnection.options C) as [o|] eqn:Ho; [|discriminate].
      destruct (RedisConnection.connects C (RedisConnection.attempts s) o) eqn:Hconn;
        try discriminate.
      intros [= <- <-]. split; [reflexivity|]. intros _. simpl.
      split; [reflexivity|]. split; [exact Hconn|].
      intros url Hurl Hne. revert Ho. unfold RedisConnection.options. rewrite Hurl.
      destruct url; [congruence|]. simpl. intros [= <-]. reflexivity. }
  split; [apply getRedisClient_times_connected, Hkept|exact Hkept].
Qed.

Lemma redis_client_is_reused_witness :
  RedisConnection.getRedisClient demoRedis (RedisConnection.mkState None 2)
  = Some
      (Some (2%nat, RedisConnection.SocketOptions "default" (Some "secret") "localhost" 6379),
       RedisConnection.mkState
         (Some (2%nat, RedisConnection.SocketOptions "default" (Some "secret") "localhost" 6379))
         3)
  /\ RedisConnection.getRedisClient_times demoRedis 3
       (RedisConnection.mkState
          (Some (2%nat, RedisConnection.SocketOptions "default" (Some "secret") "localhost" 6379))
          3)
     = Some
         (replicate 3
            (Some (2%nat,
                   RedisConnection.SocketOptions "default" (Some "secret") "localhost" 6379)),
          RedisConnection.mkState
            (Some (2%nat,
                   RedisConnection.SocketOptions "default" (Some "secret") "localhost" 6379))
            3).
Proof.
  split; [reflexivity|].
  apply (redis_client_is_reused demoRedis (RedisConnection.mkState None 2)
           (2%nat, RedisConnection.SocketOptions "default" (Some "secret") "localhost" 6379)
           _ 3).
  reflexivity.
Defined.

(** The options of the client are there exactly when Redis is configured,
    and with neither URL nor host it is not. *)
Lemma redisConfigured_options C :
  redisConfigured C <-> is_Some (RedisConnection.options C).
Proof.
  unfold redisConfigured, RedisConnection.options, RedisConnection.port. split.
  - intros [(url & -> & Hurl)|(host & p & n & -> & Hhost & -> & Hp & Hparse & Hn)].
    + destruct url; [congruence|]. eexists. reflexivity.
    + destruct host; [congruence|]. destruct p; [congruence|].
      cbn [Js.truthy]. rewrite Hparse.
      destruct (Z.eqb_spec n 0); [congruence|].
      destruct (RedisConnection.REDIS_URL C) as [[|c url]|]; eexists; reflexivity.
  - intros [o Ho].
    assert (Hsocket :
              match RedisConnection.REDIS_HOST C,
                    match RedisConnection.REDIS_PORT C with
                    | Some p =>
                        if Js.truthy p then
                          match RedisConnection.parseInt C p with
                          | Some n => if n =? 0 then None else Some n
                          | None => None
                          end
                        else None
                    | None => None
                    end with
              | Some host, Some p =>
                  if Js.truthy host
                  then Some (RedisConnection.SocketOptions
                               (Js.orStr (RedisConnection.REDIS_USERNAME C) "default")
                               (RedisConnection.REDIS_PASSWORD C) host p)
                  else None
              | _, _ => None
              end = Some o ->
              exists host p n,
                RedisConnection.REDIS_HOST C = Some host /\ host <> ""
                /\ RedisConnection.REDIS_PORT C = Some p /\ p <> ""
                /\ RedisConnection.parseInt C p = Some n /\ n <> 0).
    { destruct (RedisConnection.REDIS_HOST C) as [host|]; [|discriminate].
      destruct (RedisConnection.REDIS_PORT C) as [p|]; [|discriminate].
      destruct p as [|c p]; [discriminate|]. cbn [Js.truthy].
      destruct (RedisConnection.parseInt C (String c p)) as [n|] eqn:Hparse; [|discriminate].
      destruct (Z.eqb_spec n 0); [discriminate|].
      destruct host as [|c' host]; [discriminate|]. intros _.
      exists (String c' host), (String c p), n. repeat split; try assumption; discriminate. }
    destruct (RedisConnection.REDIS_URL C) as [[|c url]|].
    + right. apply Hsocket, Ho.
    + left. exists (String c url). split; [reflexivity|discriminate].
    + right. apply Hsocket, Ho.
Qed.

Lemma redisConfigured_set C :
  redisConfigured C ->
  negb (Js.isSet (RedisConnection.REDIS_URL C))
  && negb (Js.isSet (RedisConnection.REDIS_HOST C)) = false.
Proof.
  intros [(url & -> & Hurl)|(host & p & n & -> & Hhost & _)].
  - destruct url; [congruence|]. reflexivity.
  - destruct host; [congruence|]. apply andb_false_r.
Qed.

Lemma getRedisClient_times_rejected C n s :
  redisConfigured C ->
  RedisConnection.redisClient s = None ->
  (forall k o, (RedisConnection.attempts s <= k < RedisConnection.attempts s + n)%nat ->
               RedisConnection.connects C k o = RedisConnection.Rejected) ->
  RedisConnection.getRedisClient_times C n s
  = Some (replicate n None, RedisConnection.mkState None (RedisConnection.attempts s + n)).
Proof.
  intros Hconf. pose proof (redisConfigured_set C Hconf) as Hset.
  apply redisConfigured_options in Hconf as [o Ho].
  revert s. induction n as [|n IH]; intros s Hs Hdown.
  - simpl. destruct s as [c k]. simpl in *. subst c. rewrite Nat.add_0_r. reflexivity.
  - simpl. unfold RedisConnection.getRedisClient at 1. rewrite Hs, Hset, Ho.
    rewrite (Hdown (RedisConnection.attempts s) o); [|lia].
    rewrite IH; [|reflexivity|simpl; intros k o' Hk; apply Hdown; lia].
    simpl. do 3 f_equal. lia.
Qed.

(** X21. A connection attempt that throws is not remembered. While no
    client is connected and Redis is configured (a non-empty URL, or a
    non-empty host with a port that parses to a number other than 0),
    every call of [getRedisClient] makes a new attempt: [n] calls whose
    attempts all throw return no client [n] times and make [n] attempts;
    and a call whose attempt never settles, as against a server that cannot
    be reached, never returns. When Redis is not configured, a call returns
    no client and attempts nothing. *)
Theorem redis_failure_is_retried C n s :
  RedisConnection.redisClient s = None ->
  (redisConfigured C ->
   ((forall k o, (RedisConnection.attempts s <= k < RedisConnection.attempts s + n)%nat ->
                 RedisConnection.connects C k o = RedisConnection.Rejected) ->
    RedisConnection.getRedisClient_times C n s
    = Some (replicate n None, RedisConnection.mkState None (RedisConnection.attempts s + n)))
   /\ ((forall o, RedisConnection.connects C (RedisConnection.attempts s) o
                  = RedisConnection.Pending) ->
       RedisConnection.getRedisClient C s = None
       /\ forall m, RedisConnection.getRedisClient_times C (S m) s = None))
  /\ (~ redisConfigured C -> RedisConnection.getRedisClient C s = Some (None, s)).
Proof.
  intros Hs. split.
  - intros Hconf. split.
    + apply getRedisClient_times_rejected; assumption.
    + intros Hpending.
      assert (Hnever : RedisConnection.getRedisClient C s = None).
      { unfold RedisConnection.getRedisClient.
        rewrite Hs, (redisConfigured_set C Hconf).
        apply redisConfigured_options in Hconf as [o Ho]. rewrite Ho, Hpending.
        reflexivity. }
      split; [exact Hnever|]. intros m. simpl. rewrite Hnever. reflexivity.
  - intros Hconf. unfold RedisConnection.getRedisClient. rewrite Hs.
    destruct (_ && _); [reflexivity|].
    destruct (RedisConnection.options C) as [o|] eqn:Ho; [|reflexivity].
    destruct Hconf. apply redisConfigured_options. exists o. exact Ho.
Qed.

Lemma redis_failure_is_retried_witness :
  RedisConnection.getRedisClient_times demoRedis 2 RedisConnection.initState
  = Some ([None; None], RedisConnection.mkState None 2)
  /\ RedisConnection.getRedisClient unreachableRedis RedisConnection.initState = None.
Proof.
  assert (Hdemo : redisConfigured demoRedis).
  { right. exists "localhost", "6379", 6379. repeat split; discriminate. }
  assert (Hunreachable : redisConfigured unreachableRedis).
  { right. exists "localhost", "6379", 6379. repeat split; discriminate. }
  split.
  - apply (proj1 (redis_failure_is_retried demoRedis 2 RedisConnection.initState eq_refl)
             Hdemo).
    intros k o Hk. simpl in Hk. destruct k as [|[|k]]; [reflexivity|reflexivity|lia].
  - apply (proj1 (redis_failure_is_retried unreachableRedis 0 RedisConnection.initState
                    eq_refl) Hunreachable).
    intros o. reflexivity.
Defined.

(** ** The widget *)

Lemma endsWith_refl s : Js.endsWith s s = true.
Proof. destruct s; simpl; rewrite ?Ascii.eqb_refl, ?String.eqb_refl; reflexivity. Qed.

Lemma endsWith_cons c s p : Js.endsWith s p = true -> Js.endsWith (String c s) p = true.
Proof. intros H. cbn [Js.endsWith]. rewrite H. apply orb_true_r. Qed.

Lemma endsWith_append u p : Js.endsWith (u +:+ p) p = true.
Proof.
  induction u as [|c u IH].
  - apply endsWith_refl.
  - change (Js.endsWith (String c (u +:+ p)) p = true). apply endsWith_cons, IH.
Qed.

Lemma last_append u c t : Js.last (u +:+ String c t) = Js.last (String c t).
Proof.
  induction u as [|b u IH]; [reflexivity|].
  change (Js.last (String b (u +:+ String c t)) = Js.last (String c t)).
  rewrite <- IH. simpl. destruct (u +:+ String c t) eqn:Hu; [|reflexivity].
  destruct u; discriminate Hu.
Qed.

Lemma endsWith_last s c t : Js.endsWith s (String c t) = true -> Js.last s = Js.last (String c t).
Proof.
  induction s as [|b s IH]; cbn [Js.endsWith].
  - discriminate.
  - intros H. apply orb_true_iff in H as [H|H].
    + apply String.eqb_eq in H. rewrite H. reflexivity.
    + rewrite <- (IH H). destruct s; [discriminate H|reflexivity].
Qed.

Lemma baseUrl_endsWith B : Js.endsWith (ChatWidget.baseUrl B) "/api" = true.
Proof.
  unfold ChatWidget.baseUrl.
  destruct (Js.endsWith (Js.orStr (ChatWidget.VITE_API_URL B) "/api") "/api") eqn:Hapi;
    [exact Hapi|].
  destruct (Js.endsWith (Js.orStr (ChatWidget.VITE_API_URL B) "/api") "/") eqn:Hslash.
  - apply endsWith_last in Hslash.
    destruct (Js.orStr (ChatWidget.VITE_API_URL B) "/api") as [|c s] eqn:Hs; [discriminate|].
    clear Hapi Hs. revert c Hslash. induction s as [|b s IH]; intros c Hslash.
    + simpl in Hslash. injection Hslash as ->. reflexivity.
    + change (Js.endsWith (String c (String b s +:+ "api")) "/api" = true).
      apply endsWith_cons, IH. exact Hslash.
  - apply (endsWith_append _ "/api").
Qed.

(** X22. The address the widget calls always ends with [/api], whatever
    [VITE_API_URL] holds, and the three usual ways of writing the same
    server give the same address: for a URL [u] that ends neither with
    [/api] nor with a slash, the settings [u], [u/] and [u/api] all yield
    [u/api]; the empty setting yields [/api], like no setting at all. *)
Theorem baseUrl_normalizes now u :
  Js.endsWith u "/api" = false ->
  Js.endsWith u "/" = false ->
  ChatWidget.baseUrl (ChatWidget.mkBrowser (Some u) now) = u +:+ "/api"
  /\ ChatWidget.baseUrl (ChatWidget.mkBrowser (Some (u +:+ "/")) now) = u +:+ "/api"
  /\ ChatWidget.baseUrl (ChatWidget.mkBrowser (Some (u +:+ "/api")) now) = u +:+ "/api"
  /\ ChatWidget.baseUrl (ChatWidget.mkBrowser None now) = "/api"
  /\ forall B, Js.endsWith (ChatWidget.baseUrl B) "/api" = true.
Proof.
  intros Hapi Hslash. unfold ChatWidget.baseUrl. cbn [ChatWidget.VITE_API_URL].
  split; [|split; [|split; [|split]]].
  - destruct u as [|c u]; [reflexivity|].
    change (Js.orStr (Some (String c u)) "/api") with (String c u).
    rewrite Hapi, Hslash. reflexivity.
  - assert (Hor : Js.orStr (Some (u +:+ "/")) "/api" = u +:+ "/").
    { destruct u; reflexivity. }
    rewrite Hor.
    assert (Hno : Js.endsWith (u +:+ "/") "/api" = false).
    { destruct (Js.endsWith (u +:+ "/") "/api") eqn:H; [|reflexivity].
      apply endsWith_last in H. rewrite last_append in H. discriminate H. }
    rewrite Hno, (endsWith_append u "/").
    change (u +:+ "/api") with (u +:+ ("/" +:+ "api")).
    apply append_assoc.
  - assert (Hor : Js.orStr (Some (u +:+ "/api")) "/api" = u +:+ "/api").
    { destruct u; reflexivity. }
    rewrite Hor, (endsWith_append u "/api"). reflexivity.
  - reflexivity.
  - apply baseUrl_endsWith.
Qed.

Lemma baseUrl_normalizes_witness :
  ChatWidget.baseUrl (ChatWidget.mkBrowser (Some "http://localhost:3001") (fun _ => 0))
  = "http://localhost:3001/api"
  /\ ChatWidget.baseUrl (ChatWidget.mkBrowser (Some "http://localhost:3001/") (fun _ => 0))
     = "http://localhost:3001/api"
  /\ ChatWidget.baseUrl (ChatWidget.mkBrowser (Some "http://localhost:3001/api") (fun _ => 0))
     = "http://localhost:3001/api".
Proof.
  destruct (baseUrl_normalizes (fun _ => 0) "http://localhost:3001" eq_refl eq_refl)
    as (H1 & H2 & H3 & _).
  split; [exact H1|]. split; [exact H2|exact H3].
Defined.

Lemma endsWith_append_both s p q :
  Js.endsWith s p = true -> Js.endsWith (s +:+ q) (p +:+ q) = true.
Proof.
  induction s as [|c s IH]; cbn [Js.endsWith]; intros H.
  - rewrite orb_false_r in H. apply String.eqb_eq in H. subst p. apply endsWith_refl.
  - apply orb_true_iff in H as [H|H].
    + apply String.eqb_eq in H. subst p. apply endsWith_refl.
    + change (Js.endsWith (String c (s +:+ q)) (p +:+ q) = true).
      apply endsWith_cons, IH, H.
Qed.

Lemma truthy_length s : Js.truthy s = true -> 1 <= Js.length s.
Proof. destruct s; [discriminate|]. intros _. unfold Js.length. simpl. lia. Qed.

(** X23. What the widget submits always passes the validation of the
    route. When [sendMessage] sends a request, it is a [POST] to an address
    ending with [/api/chat/message]; the message is the input trimmed, is
    not empty, has no white space at its ends and at most 5000 characters;
    the session id is the one the widget holds, left out when it holds
    none; no request is in flight already, and from now on one is. The
    schema of the route accepts this body, provided the session id the
    widget holds, if any, is a well-formed uuid. *)
Theorem widget_sends_valid_messages E B st st1 userMessage req w :
  ChatWidget.sendMessage_begin B st = (st1, Some (userMessage, req)) ->
  (forall s, ChatWidget.sessionId st = Some s -> s <> "" -> zod_uuid E s = true) ->
  exists url body,
    req = ChatWidget.PostMessage url body
    /\ Js.endsWith url "/api/chat/message" = true
    /\ ChatRouter.b_message body = ChatRouter.JString (Js.trim (ChatWidget.input st))
    /\ wellTrimmed (Js.trim (ChatWidget.input st))
    /\ Js.length (Js.trim (ChatWidget.input st)) <= 5000
    /\ ChatWidget.isLoading st = false
    /\ ChatWidget.isLoading st1 = true
    /\ ChatRouter.messageSchema_parse E body w
       = (Returns (Js.trim (ChatWidget.input st),
                   if Js.isSet (ChatWidget.sessionId st) then ChatWidget.sessionId st
                   else None), w).
Proof.
  unfold ChatWidget.sendMessage_begin. intros Hbegin Huuid.
  destruct (Js.truthy (Js.trim (ChatWidget.input st))) eqn:Htruthy; [|discriminate].
  destruct (ChatWidget.isLoading st) eqn:Hloading; [discriminate|]. simpl in Hbegin.
  destruct (Z.ltb_spec 5000 (Js.length (Js.trim (ChatWidget.input st)))) as [|Hlen];
    [discriminate|].
  injection Hbegin as <- <- <-.
  eexists _, _. split; [reflexivity|].
  split; [apply (endsWith_append_both _ "/api" "/chat/message"), baseUrl_endsWith|].
  split; [reflexivity|]. split; [apply trim_wellTrimmed, Htruthy|].
  split; [exact Hlen|]. split; [reflexivity|]. split; [reflexivity|].
  unfold ChatRouter.messageSchema_parse. cbn [ChatRouter.b_message ChatRouter.b_sessionId].
  pose proof (truthy_length _ Htruthy) as Hmin.
  destruct (Z.leb_spec 1 (Js.length (Js.trim (ChatWidget.input st)))); [|lia].
  destruct (Z.leb_spec (Js.length (Js.trim (ChatWidget.input st))) 5000); [|lia].
  cbn [andb].
  destruct (ChatWidget.sessionId st) as [s|] eqn:Hsid; [|reflexivity].
  destruct s as [|c s]; [reflexivity|].
  simpl. rewrite (Huuid _ eq_refl); [reflexivity|discriminate].
Qed.

Lemma widget_sends_valid_messages_witness :
  exists body,
    snd (ChatWidget.sendMessage_begin demoBrowser
           (ChatWidget.setInput "  Return policy? " (ChatWidget.initState None)))
    = Some (ChatWidget.mkUiMessage "1700000000000" user (Some "Return policy?") 1700000000001,
            ChatWidget.PostMessage "/api/chat/message" body)
    /\ ChatRouter.messageSchema_parse demoEnv body demoWorld
       = (Returns ("Return policy?", None), demoWorld).
Proof.
  destruct (widget_sends_valid_messages demoEnv demoBrowser
              (ChatWidget.setInput "  Return policy? " (ChatWidget.initState None))
              _ _ _ demoWorld eq_refl)
    as (url & body & Hreq & _ & _ & _ & _ & _ & _ & Hparse).
  - intros s Hs. discriminate Hs.
  - exists body. injection Hreq as <- <-. split; [reflexivity|exact Hparse].
Defined.

(** X24. A send that fails is rolled back, but the text is gone. When the
    request of [sendMessage] is rejected or answered with a status that is
    not ok, and nothing else happened in between, the widget ends up with
    the messages it had before without those whose id is the id of the
    message just sent (so exactly the messages it had, when none of them
    carries that id), an error text that is not empty (the error field of
    the answer when it has one), no request in flight, the session id it
    had, and an empty input: the text typed is not put back. *)
Theorem failed_send_is_rolled_back B st st1 userMessage req r :
  ChatWidget.sendMessage_begin B st = (st1, Some (userMessage, req)) ->
  (forall reply sid, r <> ChatWidget.SendOk reply sid) ->
  let st2 := ChatWidget.sendMessage_end B (ChatWidget.sessionId st) userMessage r st1 in
  ChatWidget.messages st2
  = List.filter (fun m => negb (String.eqb (ChatWidget.ui_id m) (ChatWidget.ui_id userMessage)))
                (ChatWidget.messages st)
  /\ ((forall m, In m (ChatWidget.messages st) ->
                 ChatWidget.ui_id m <> ChatWidget.ui_id userMessage) ->
      ChatWidget.messages st2 = ChatWidget.messages st)
  /\ (exists text, ChatWidget.error st2 = Some text /\ text <> ""
                   /\ forall e, r = ChatWidget.SendNotOk (Some e) -> e <> "" -> text = e)
  /\ ChatWidget.isLoading st2 = false
  /\ ChatWidget.isTyping st2 = false
  /\ ChatWidget.input st2 = ""
  /\ ChatWidget.sessionId st2 = ChatWidget.sessionId st
  /\ ChatWidget.chatSessionId st2 = ChatWidget.chatSessionId st.
Proof.
  unfold ChatWidget.sendMessage_begin. intros Hbegin Hfailed.
  destruct (_ || _); [discriminate|].
  destruct (5000 <? _); [discriminate|].
  injection Hbegin as <- <- <-.
  set (um := ChatWidget.mkUiMessage _ user _ _).
  assert (Hfilter : forall l,
             List.filter (fun m => negb (String.eqb (ChatWidget.ui_id m) (ChatWidget.ui_id um)))
                         (l ++ [um])
             = List.filter (fun m => negb (String.eqb (ChatWidget.ui_id m) (ChatWidget.ui_id um)))
                           l).
  { intros l. rewrite List.filter_app. cbn [List.filter].
    rewrite String.eqb_refl. apply app_nil_r. }
  assert (Hkeep : (forall m, In m (ChatWidget.messages st) ->
                             ChatWidget.ui_id m <> ChatWidget.ui_id um) ->
                  List.filter (fun m => negb (String.eqb (ChatWidget.ui_id m)
                                                         (ChatWidget.ui_id um)))
                              (ChatWidget.messages st)
                  = ChatWidget.messages st).
  { induction (ChatWidget.messages st) as [|m l IH]; intros Hfresh; [reflexivity|].
    cbn [List.filter].
    destruct (String.eqb_spec (ChatWidget.ui_id m) (ChatWidget.ui_id um)) as [Heq|_].
    - destruct (Hfresh m (or_introl eq_refl) Heq).
    - cbn [negb]. f_equal. apply IH. intros m' Hm'. apply Hfresh. right. exact Hm'. }
  destruct r as [message|data_error|reply sid]; [| |destruct (Hfailed reply sid eq_refl)];
    cbn [ChatWidget.sendMessage_end ChatWidget.sendMessage_failed ChatWidget.messages
         ChatWidget.error ChatWidget.isLoading ChatWidget.isTyping ChatWidget.input
         ChatWidget.sessionId ChatWidget.chatSessionId];
    (split; [apply Hfilter|]);
    (split; [intros Hfresh; rewrite Hfilter; apply Hkeep, Hfresh|]);
    (split; [|repeat split; reflexivity]).
  - eexists. split; [reflexivity|]. split; [apply orStr_nonempty; discriminate|].
    intros e [=].
  - eexists. split; [reflexivity|]. split.
    + apply orStr_nonempty; discriminate.
    + intros e [= ->] He. destruct e; [congruence|reflexivity].
Qed.

Lemma failed_send_is_rolled_back_witness :
  ChatWidget.messages
    (ChatWidget.sendMessage_end demoBrowser None
       (ChatWidget.mkUiMessage "1700000000000" user (Some "Hi") 1700000000001)
       (ChatWidget.SendNotOk (Some "Groq rate limit exceeded. Please wait a moment and try again."))
       (fst (ChatWidget.sendMessage_begin demoBrowser
               (ChatWidget.setInput "Hi" (ChatWidget.initState None)))))
  = []
  /\ ChatWidget.input
       (ChatWidget.sendMessage_end demoBrowser None
          (ChatWidget.mkUiMessage "1700000000000" user (Some "Hi") 1700000000001)
          (ChatWidget.SendNotOk (Some "Groq rate limit exceeded. Please wait a moment and try again."))
          (fst (ChatWidget.sendMessage_begin demoBrowser
                  (ChatWidget.setInput "Hi" (ChatWidget.initState None)))))
     = "".
Proof.
  destruct (failed_send_is_rolled_back demoBrowser
              (ChatWidget.setInput "Hi" (ChatWidget.initState None))
              (fst (ChatWidget.sendMessage_begin demoBrowser
                      (ChatWidget.setInput "Hi" (ChatWidget.initState None))))
              (ChatWidget.mkUiMessage "1700000000000" user (Some "Hi") 1700000000001)
              (ChatWidget.PostMessage "/api/chat/message"
                 (ChatRouter.mkBody (ChatRouter.JString "Hi") ChatRouter.JUndefined))
              (ChatWidget.SendNotOk
                 (Some "Groq rate limit exceeded. Please wait a moment and try again."))
              eq_refl)
    as (Hmessages & _ & _ & _ & _ & Hinput & _).
  - intros reply sid. discriminate.
  - split; [exact Hmessages|exact Hinput].
Defined.

Lemma post_message_idsGenerated E body w :
  idsGenerated E w (exec (ChatRouter.post_message E body) w).
Proof.
  apply (post_message_preserves E (idsGenerated E)).
  - apply idsGenerated_refl.
  - apply idsGenerated_trans.
  - apply createConversation_idsGenerated.
  - apply addMessage_idsGenerated.
  - apply generateReply_idsGenerated.
Qed.

Lemma post_message_keeps_unknown E body w s :
  (forall k, uuidv4 E k <> s) ->
  conversations (db w) !! s = None ->
  conversations (db (exec (ChatRouter.post_message E body) w)) !! s = None.
Proof.
  intros Hfresh Hnone.
  destruct (post_message_idsGenerated E body w) as [_ Hdom].
  destruct (conversations (db (exec (ChatRouter.post_message E body) w)) !! s) as [row|] eqn:Hrow;
    [|reflexivity].
  destruct (Hdom s) as [[r Hr]|(k & _ & Hk)].
  - rewrite Hrow. eexists. reflexivity.
  - congruence.
  - destruct (Hfresh k). congruence.
Qed.

Lemma post_message_unknown_session E message s w :
  zod_uuid E s = true ->
  conversations (db w) !! s = None ->
  ChatRouter.post_message E (ChatRouter.mkBody (ChatRouter.JString message)
                                               (ChatRouter.JString s)) w
  = ChatRouter.post_message E (ChatRouter.mkBody (ChatRouter.JString message)
                                                 ChatRouter.JUndefined) w.
Proof.
  intros Huuid Hnone.
  unfold ChatRouter.post_message, ChatRouter.messageSchema_parse, tryCatch. simpl.
  rewrite Huuid. destruct (_ && _); [|reflexivity].
  unfold bind at 1 5. unfold ret at 1 3. simpl.
  unfold bind at 1 6. destruct (Js.truthy s); [|reflexivity].
  unfold bind at 1. rewrite getConversation_eq, Hnone. reflexivity.
Qed.

Lemma sendMessage_end_keeps_session B s userMessage r st :
  s <> "" ->
  ChatWidget.sessionId st = Some s ->
  let st' := ChatWidget.sendMessage_end B (Some s) userMessage r st in
  ChatWidget.sessionId st' = Some s
  /\ ChatWidget.chatSessionId st' = ChatWidget.chatSessionId st
  /\ ChatWidget.isLoading st' = false.
Proof.
  intros Hs Hsid. destruct s as [|c s]; [congruence|].
  destruct r as [message|data_error|reply sid]; simpl; repeat split; assumption.
Qed.

Lemma exchange_stale E B s value st w :
  s <> "" -> zod_uuid E s = true -> (forall k, uuidv4 E k <> s) ->
  ChatWidget.sessionId st = Some s ->
  ChatWidget.isLoading st = false ->
  conversations (db w) !! s = None ->
  let p := exchange E B (ChatWidget.setInput value st, w) in
  ChatWidget.sessionId (fst p) = Some s
  /\ ChatWidget.isLoading (fst p) = false
  /\ ChatWidget.chatSessionId (fst p) = ChatWidget.chatSessionId st
  /\ conversations (db (snd p)) !! s = None
  /\ snd p = serveAll E (sessionless [value]) w.
Proof.
  intros Hs Huuid Hfresh Hsid Hloading Hnone.
  unfold exchange, ChatWidget.sendMessage_begin, sessionless, sendable, serveAll.
  cbn [fst snd ChatWidget.setInput ChatWidget.input ChatWidget.isLoading ChatWidget.sessionId
       ChatWidget.messages ChatWidget.error ChatWidget.isTyping ChatWidget.chatSessionId
       ChatWidget.reads List.filter].
  rewrite Hloading, Hsid, orb_false_r.
  destruct (Js.truthy (Js.trim value)) eqn:Htruthy; cbn [negb andb];
    [|repeat split; assumption].
  rewrite Z.ltb_antisym.
  destruct (Js.length (Js.trim value) <=? 5000) eqn:Hlen; cbn [negb];
    [|repeat split; assumption].
  assert (Hset : Js.isSet (Some s) = true) by (destruct s; [congruence|reflexivity]).
  rewrite Hset. cbn [default from_option id List.map fold_left].
  rewrite (post_message_unknown_session E (Js.trim value) s w Huuid Hnone).
  pose proof (post_message_keeps_unknown E
                (ChatRouter.mkBody (ChatRouter.JString (Js.trim value)) ChatRouter.JUndefined)
                w s Hfresh Hnone) as Hkeep.
  unfold exec in *.
  destruct (ChatRouter.post_message E
              (ChatRouter.mkBody (ChatRouter.JString (Js.trim value)) ChatRouter.JUndefined) w)
    as [[resp|e] w'];
    cbn [fst snd] in *;
    match goal with
    | |- context [ChatWidget.sendMessage_end B (Some s) ?um ?r ?st1] =>
        destruct (sendMessage_end_keeps_session B s um r st1 Hs eq_refl) as (H1 & H2 & H3)
    end;
    (split; [exact H1|]); (split; [exact H3|]); (split; [exact H2|]);
    (split; [exact Hkeep|reflexivity]).
Qed.

Lemma serveAll_app E l1 l2 w : serveAll E (l1 ++ l2) w = serveAll E l2 (serveAll E l1 w).
Proof. unfold serveAll. apply fold_left_app. Qed.

(** X25. A widget that holds a session id the server does not know never
    gets rid of it. The widget adopts the session id of an answer only
    while it holds none, and the route never creates a conversation under
    an id it was sent; so, the uuid generator not producing that id, after
    any number of messages typed and sent the widget still holds the same
    id (in its state and in [localStorage]), the id still names no
    conversation, and the server has done exactly what it does for the
    same messages sent one by one without any session id. *)
Theorem stale_session_is_never_replaced E B s typed st w :
  s <> "" -> zod_uuid E s = true -> (forall k, uuidv4 E k <> s) ->
  ChatWidget.sessionId st = Some s ->
  ChatWidget.isLoading st = false ->
  conversations (db w) !! s = None ->
  let p := typeAndSend E B typed (st, w) in
  ChatWidget.sessionId (fst p) = Some s
  /\ ChatWidget.chatSessionId (fst p) = ChatWidget.chatSessionId st
  /\ conversations (db (snd p)) !! s = None
  /\ snd p = serveAll E (sessionless typed) w.
Proof.
  intros Hs Huuid Hfresh. revert st w.
  induction typed as [|value typed IH]; intros st w Hsid Hloading Hnone.
  - repeat split; assumption.
  - unfold typeAndSend. cbn [fold_left fst snd].
    destruct (exchange_stale E B s value st w Hs Huuid Hfresh Hsid Hloading Hnone)
      as (Hsid1 & Hloading1 & Hstore1 & Hnone1 & Hserved1).
    destruct (exchange E B (ChatWidget.setInput value st, w)) as [st1 w1].
    cbn [fst snd] in *.
    destruct (IH st1 w1 Hsid1 Hloading1 Hnone1) as (Hsid2 & Hstore2 & Hnone2 & Hserved2).
    unfold typeAndSend in *.
    split; [exact Hsid2|]. split; [congruence|]. split; [exact Hnone2|].
    rewrite Hserved2, Hserved1.
    change (value :: typed) with ([value] ++ typed).
    unfold sessionless. rewrite List.filter_app, List.map_app, serveAll_app. reflexivity.
Qed.

Lemma stale_session_is_never_replaced_witness :
  ChatWidget.sessionId
    (fst (typeAndSend demoEnv demoBrowser ["Return policy?"; "   "; "And shipping?"]
            (fst (ChatWidget.mount demoBrowser (ChatWidget.initState (Some "stale-session-id"))),
             demoWorld)))
  = Some "stale-session-id"
  /\ snd (typeAndSend demoEnv demoBrowser ["Return policy?"; "   "; "And shipping?"]
            (fst (ChatWidget.mount demoBrowser (ChatWidget.initState (Some "stale-session-id"))),
             demoWorld))
     = serveAll demoEnv
         [ChatRouter.mkBody (ChatRouter.JString "Return policy?") ChatRouter.JUndefined;
          ChatRouter.mkBody (ChatRouter.JString "And shipping?") ChatRouter.JUndefined]
         demoWorld.
Proof.
  destruct (stale_session_is_never_replaced demoEnv demoBrowser "stale-session-id"
              ["Return policy?"; "   "; "And shipping?"]
              (fst (ChatWidget.mount demoBrowser
                      (ChatWidget.initState (Some "stale-session-id"))))
              demoWorld)
    as (Hsid & _ & _ & Hserved).
  - discriminate.
  - reflexivity.
  - intros k H. cbv [demoEnv uuidv4 demoUuid String.append] in H. discriminate H.
  - reflexivity.
  - reflexivity.
  - reflexivity.
  - split; [exact Hsid|exact Hserved].
Defined.

(** X26. Opening the page with a saved session id. The widget takes the
    saved id as its session id and asks the route for the history, which
    changes nothing on the server. When the id names a conversation, the
    widget then shows exactly the stored messages of that conversation, in
    timestamp order, with their stored ids, senders, texts and timestamps;
    when it names none (the answer is 404), the widget keeps the messages
    it had, shows no error, and keeps the unknown id all the same. With no
    saved id, or an empty one, nothing is requested and nothing changes. *)
Theorem reload_shows_history B st w :
  let p := openPage B (st, w) in
  snd p = w
  /\ ChatWidget.chatSessionId (fst p) = ChatWidget.chatSessionId st
  /\ ChatWidget.error (fst p) = ChatWidget.error st
  /\ (Js.isSet (ChatWidget.chatSessionId st) = false -> fst p = st)
  /\ forall saved,
      ChatWidget.chatSessionId st = Some saved -> saved <> "" ->
      ChatWidget.sessionId (fst p) = Some saved
      /\ ChatWidget.messages (fst p)
         = match conversations (db w) !! saved with
           | Some _ => List.map ChatWidget.ofStored
                         (ConversationService.selectMessages saved (db w))
           | None => ChatWidget.messages st
           end.
Proof.
  unfold openPage, ChatWidget.mount. cbn [fst snd].
  destruct (ChatWidget.chatSessionId st) as [saved|] eqn:Hsaved.
  2:{ do 4 (split; [first [reflexivity|exact Hsaved]|]). intros saved' [=]. }
  destruct saved as [|c saved].
  { do 4 (split; [first [reflexivity|exact Hsaved]|]). intros saved' [= <-] Hne. congruence. }
  cbn [Js.truthy ChatWidget.loadHistory_begin ChatWidget.sessionId default from_option id].
  unfold ChatRouter.get_history, tryCatch, bind. rewrite getConversation_eq.
  destruct (conversations (db w) !! String c saved) as [row|] eqn:Hrow.
  - unfold ConversationService.getMessages. mrun.
    do 3 (split; [reflexivity|]). split; [discriminate|].
    intros saved' [= <-] _. rewrite Hrow. split; reflexivity.
  - mrun.
    do 3 (split; [reflexivity|]). split; [discriminate|].
    intros saved' [= <-] _. rewrite Hrow. split; reflexivity.
Qed.

Lemma reload_shows_history_witness :
  ChatWidget.messages
    (fst (openPage demoBrowser (ChatWidget.initState (Some (demoUuid 0)), afterFirstTurn)))
  = [ChatWidget.mkUiMessage (demoUuid 1) user (Some "Return policy?") 1700000000;
     ChatWidget.mkUiMessage (demoUuid 2) ai (Some "Thirty days.") 1700000000]
  /\ ChatWidget.messages
       (fst (openPage demoBrowser (ChatWidget.initState (Some (demoUuid 7)), afterFirstTurn)))
     = [].
Proof.
  destruct (reload_shows_history demoBrowser (ChatWidget.initState (Some (demoUuid 0)))
              afterFirstTurn) as (_ & _ & _ & _ & Hknown).
  destruct (reload_shows_history demoBrowser (ChatWidget.initState (Some (demoUuid 7)))
              afterFirstTurn) as (_ & _ & _ & _ & Hunknown).
  destruct (Hknown (demoUuid 0) eq_refl) as [_ H0]; [discriminate|].
  destruct (Hunknown (demoUuid 7) eq_refl) as [_ H7]; [discriminate|].
  split; [rewrite H0|rewrite H7]; vm_compute; reflexivity.
Defined.

(** X27. A widget without session id adopts the one the route answers
    with. When such a widget sends a message and the route answers 200
    with a reply and a (non-empty) session id, and nothing else happened in
    between, the widget shows its earlier messages followed by the user
    message with the trimmed text and the agent message with the reply;
    holds the session id of the answer in its state and in [localStorage];
    has no request in flight, no error and an empty input; and the next
    message it sends carries that session id. *)
Theorem first_exchange_adopts_session E B value st w reply sid w' :
  Js.isSet (ChatWidget.sessionId st) = false ->
  ChatWidget.isLoading st = false ->
  sendable value = true ->
  sid <> "" ->
  ChatRouter.post_message E
    (ChatRouter.mkBody (ChatRouter.JString (Js.trim value)) ChatRouter.JUndefined) w
  = (Returns (ChatRouter.mkResponse 200 (ChatRouter.ReplyJson reply sid)), w') ->
  let p := exchange E B (ChatWidget.setInput value st, w) in
  snd p = w'
  /\ List.map (fun m => (ChatWidget.ui_sender m, ChatWidget.ui_text m))
              (ChatWidget.messages (fst p))
     = List.map (fun m => (ChatWidget.ui_sender m, ChatWidget.ui_text m))
                (ChatWidget.messages st)
       ++ [(user, Some (Js.trim value)); (ai, Some reply)]
  /\ ChatWidget.sessionId (fst p) = Some sid
  /\ ChatWidget.chatSessionId (fst p) = Some sid
  /\ ChatWidget.isLoading (fst p) = false
  /\ ChatWidget.error (fst p) = None
  /\ ChatWidget.input (fst p) = ""
  /\ forall next,
      sendable next = true ->
      exists userMessage url,
        snd (ChatWidget.sendMessage_begin B (ChatWidget.setInput next (fst p)))
        = Some (userMessage,
                ChatWidget.PostMessage url
                  (ChatRouter.mkBody (ChatRouter.JString (Js.trim next))
                                     (ChatRouter.JString sid))).
Proof.
  intros Hnone Hloading Hsendable Hsid Hpost.
  unfold sendable in Hsendable. apply andb_true_iff in Hsendable as [Htruthy Hlen].
  unfold exchange, ChatWidget.sendMessage_begin.
  cbn [fst snd ChatWidget.setInput ChatWidget.input ChatWidget.isLoading ChatWidget.sessionId
       ChatWidget.messages ChatWidget.error ChatWidget.isTyping ChatWidget.chatSessionId
       ChatWidget.reads].
  rewrite Hloading, Hnone, Htruthy, Z.ltb_antisym, Hlen. cbn [negb orb].
  rewrite Hpost. unfold sendSettled, isOk.
  cbn [ChatRouter.res_status ChatRouter.res_json data_reply data_sessionId
       ChatWidget.sendMessage_end ChatWidget.sessionId ChatWidget.reads ChatWidget.messages
       ChatWidget.input ChatWidget.error ChatWidget.chatSessionId fst snd].
  assert (Hset : Js.isSet (Some sid) = true) by (destruct sid; [congruence|reflexivity]).
  change ((200 <=? 200) && (200 <=? 299)) with true. cbn iota.
  unfold ChatWidget.sendMessage_end. rewrite Hnone, Hset. cbn [negb andb fst snd ChatWidget.messages ChatWidget.sessionId
                            ChatWidget.chatSessionId ChatWidget.isLoading ChatWidget.error
                            ChatWidget.input].
  split; [reflexivity|]. split.
  { rewrite <- app_assoc, List.map_app. reflexivity. }
  do 5 (split; [reflexivity|]).
  intros next Hnext. unfold sendable in Hnext. apply andb_true_iff in Hnext as [Hn1 Hn2].
  cbn [ChatWidget.setInput ChatWidget.input ChatWidget.isLoading ChatWidget.sessionId
       ChatWidget.messages ChatWidget.error ChatWidget.isTyping ChatWidget.chatSessionId
       ChatWidget.reads].
  rewrite Hn1, Z.ltb_antisym, Hn2, Hset. cbn [negb orb snd default from_option id].
  eexists _, _. reflexivity.
Qed.

Lemma first_exchange_adopts_session_witness :
  ChatWidget.sessionId
    (fst (exchange demoEnv demoBrowser
            (ChatWidget.setInput " Return policy? " (ChatWidget.initState None), demoWorld)))
  = Some (demoUuid 0)
  /\ List.map (fun m => (ChatWidget.ui_sender m, ChatWidget.ui_text m))
       (ChatWidget.messages
          (fst (exchange demoEnv demoBrowser
                  (ChatWidget.setInput " Return policy? " (ChatWidget.initState None),
                   demoWorld))))
     = [(user, Some "Return policy?"); (ai, Some "Thirty days.")].
Proof.
  destruct (first_exchange_adopts_session demoEnv demoBrowser " Return policy? "
              (ChatWidget.initState None) demoWorld "Thirty days." (demoUuid 0) afterFirstTurn)
    as (_ & Hshown & Hsid & _).
  - reflexivity.
  - reflexivity.
  - reflexivity.
  - discriminate.
  - vm_compute. reflexivity.
  - split; [exact Hsid|exact Hshown].
Defined.
